(** * Bariq: charger availability and charging-session lifecycle

    A shallow embedding of the server side of the charging-session
    subsystem: the [stations] and [charging_sessions] tables of
    [shared/schema.ts], the [DatabaseStorage] methods that read and write
    them, and the four Express handlers of [server/routes.ts] that call
    those methods ([POST /api/stations], [PATCH /api/stations/:id/availability],
    [POST /api/charging-sessions/start], [POST /api/charging-sessions/:id/end]).

    Conventions of the embedding.
    - SQL [integer] columns and JavaScript numbers that end in such a
      column are [Z]; a nullable column is an [option]; [timestamp]
      columns are [Z] milliseconds since the epoch ([Date.getTime()]).
      An [integer] column is an int4: a key outside int4 that a request
      brings to a [SELECT] is refused by the database ([select_by_key]),
      and the insert schemas made by [createInsertSchema] admit int4
      values only ([int4_ok]).
    - The [real] column [energy_kwh] holds single-precision numbers,
      written as rationals [Q]: a number stored in it is rounded to the
      nearest one ([float4]).
    - A table is the list of its rows in insertion order; [serial] keys
      are drawn from an explicit sequence counter.
    - Every handler runs in the monad [M]: state passing over the
      database, exceptions for a rejected promise, and a log of the
      database after each committed write statement.
    - A handler in [M] runs from its first statement to its last with no
      other request in between.  The handlers are not transactions: what
      two start requests do when they overlap is stated with
      [start_checks] and [start_writes], the start handler cut at the
      await between its read and its writes.
    - The clock is read once per request and passed as [now].
    - The middleware in front of the handlers (rate limiting,
      [isAuthenticated]) is not part of the handler bodies modelled here;
      [userId] is the value of [req.user?.id] the body receives.

    Beside the session subsystem the file embeds the session queries
    ([getChargingSessions], the list and active-session routes), the
    user-vehicle table with its six routes, the report route with the
    [status] column of a station, and [buildUrl] of [shared/routes.ts].
    The vehicle and report routes touch tables of their own and are
    written as functions from the table state to an answer and the next
    state. *)

From Stdlib Require Import ZArith List String Bool Lia QArith.
From Stdlib Require Import Sorted Permutation.
From Stdlib Require Import Ascii.
From Stdlib Require DecimalString.
Import ListNotations.
Open Scope Z_scope.

(** ** Rows ([shared/schema.ts]) *)

(** The columns of [stations] this subsystem reads or writes. *)
Record Station := mkStation {
  station_id : Z;
  chargerCount : option Z;
  availableChargers : option Z;
  station_updatedAt : option Z
}.

Record ChargingSession := mkSession {
  session_id : Z;
  stationId : Z;
  userId : option string;
  userVehicleId : option Z;
  startTime : option Z;
  endTime : option Z;
  durationMinutes : option Z;
  energyKwh : option Q;
  batteryStartPercent : option Z;
  batteryEndPercent : option Z;
  isActive : option bool;
  createdAt : option Z;
  updatedAt : option Z
}.

(** A value offered for a nullable column that has a default: the key
    may be left out (the default applies), be [null], or carry a value. *)
Inductive insertable (A : Type) : Type :=
| Omitted
| Null
| Given (a : A).
Arguments Omitted {A}.
Arguments Null {A}.
Arguments Given {A} a.

Definition stored {A} (dflt : A) (v : insertable A) : option A :=
  match v with
  | Omitted => Some dflt
  | Null => None
  | Given a => Some a
  end.

(** [InsertStation], restricted to the two counters. *)
Record InsertStation := mkInsertStation {
  ins_chargerCount : insertable Z;
  ins_availableChargers : insertable Z
}.

Record DB := mkDB {
  stations : list Station;
  chargingSessions : list ChargingSession;
  stations_id_seq : Z;
  charging_sessions_id_seq : Z
}.

Definition emptyDB : DB := mkDB [] [] 1 1.

(** ** JavaScript operators used by the handlers *)

(** [x ?? d] *)
Definition nullish {A} (x : option A) (d : A) : A :=
  match x with Some a => a | None => d end.

(** [x || d] on a nullable number: [null] and [0] are falsy. *)
Definition or_else (x : option Z) (d : Z) : Z :=
  match x with
  | Some a => if a =? 0 then d else a
  | None => d
  end.

(** Truthiness of a nullable string: [null] and the empty string are falsy. *)
Definition truthy_string (x : option string) : bool :=
  match x with
  | Some s => negb (String.eqb s EmptyString)
  | None => false
  end.

(** Truthiness of a nullable boolean. *)
Definition truthy_bool (x : option bool) : bool :=
  match x with Some b => b | None => false end.

(** [a !== b] between a nullable string column and [req.user?.id]. *)
Definition strict_neq (a b : option string) : bool :=
  match a, b with
  | Some x, Some y => negb (String.eqb x y)
  | None, None => false
  | _, _ => true
  end.

(** [Math.round(ms / 60000)]: the nearest integer, halves towards
    positive infinity. *)
Definition round_minutes (ms : Z) : Z := (ms + 30000) / 60000.

(** ** The monad of a request *)

Inductive exn : Type :=
| DbError (statement : string).

Inductive result (A : Type) : Type :=
| Ok (a : A)
| Thrown (e : exn).
Arguments Ok {A} a.
Arguments Thrown {A} e.

(** A computation maps the database to its result, the database it
    leaves, and the database as it stood after each write it committed. *)
Definition M (A : Type) : Type := DB -> result A * DB * list DB.

Definition ret {A} (a : A) : M A := fun db => (Ok a, db, []).

Definition throw {A} (e : exn) : M A := fun db => (Thrown e, db, []).

Definition bind {A B} (m : M A) (k : A -> M B) : M B :=
  fun db =>
    match m db with
    | (Ok a, db1, w1) =>
        match k a db1 with
        | (r, db2, w2) => (r, db2, w1 ++ w2)
        end
    | (Thrown e, db1, w1) => (Thrown e, db1, w1)
    end.

(** [try { m } catch (err) { h err }] *)
Definition try_catch {A} (m : M A) (h : exn -> M A) : M A :=
  fun db =>
    match m db with
    | (Ok a, db1, w1) => (Ok a, db1, w1)
    | (Thrown e, db1, w1) =>
        match h e db1 with
        | (r, db2, w2) => (r, db2, w1 ++ w2)
        end
    end.

Definition query {A} (f : DB -> A) : M A := fun db => (Ok (f db), db, []).

Definition commit (f : DB -> DB) : M unit :=
  fun db => (Ok tt, f db, [f db]).

Notation "x <- m ;; k" := (bind m (fun x => k))
  (at level 61, m at next level, right associativity).
Notation "m ;;; k" := (bind m (fun _ => k))
  (at level 61, right associativity).

Definition outcome {A} (r : result A * DB * list DB) : result A := fst (fst r).
Definition finalDB {A} (r : result A * DB * list DB) : DB := snd (fst r).
Definition writes {A} (r : result A * DB * list DB) : list DB := snd r.

(** Which write statements are rejected by the database during a
    request: a lost connection, or a value its column cannot hold (a
    [userVehicleId] or a duration outside int4, an energy beyond the
    single-precision range). A rejected statement changes nothing and
    raises. *)
Record Faults := mkFaults {
  insertSessionFails : bool;
  updateAvailabilityFails : bool;
  deleteSessionFails : bool;
  updateSessionFails : bool
}.

Definition noFaults : Faults := mkFaults false false false false.

(** ** DatabaseStorage *)

Definition set_stations (f : list Station -> list Station) (db : DB) : DB :=
  mkDB (f (stations db)) (chargingSessions db)
       (stations_id_seq db) (charging_sessions_id_seq db).

Definition set_sessions (f : list ChargingSession -> list ChargingSession)
  (db : DB) : DB :=
  mkDB (stations db) (f (chargingSessions db))
       (stations_id_seq db) (charging_sessions_id_seq db).

Definition station_by_id (id : Z) (l : list Station) : option Station :=
  find (fun s => station_id s =? id) l.

Definition session_by_id (id : Z) (l : list ChargingSession)
  : option ChargingSession :=
  find (fun s => session_id s =? id) l.

(** The range of an [integer] ([int4]) column. *)
Definition in_int4 (z : Z) : bool :=
  (-2147483648 <=? z) && (z <=? 2147483647).

(** A [SELECT] by a key taken from the request. The key columns are
    [int4]: a parameter outside that range is refused by the database
    ("out of range for type integer") and the promise is rejected. A key
    that a row holds is an int4 by the column's type, so the table is
    consulted first and only a key without a row is tested for its range. *)
Definition select_by_key {A} (key : Z) (found : DB -> option A)
  : M (option A) :=
  fun db =>
    match found db with
    | Some a => (Ok (Some a), db, [])
    | None =>
        if in_int4 key then (Ok None, db, [])
        else (Thrown (DbError "out of range for type integer"%string), db, [])
    end.

Definition getStation (id : Z) : M (option Station) :=
  select_by_key id (fun db => station_by_id id (stations db)).

(** [getStation] called with the [stationId] of a session row: the key
    comes out of an [int4] column, so the statement is never refused for
    its range. *)
Definition getStation_stored_key (id : Z) : M (option Station) :=
  query (fun db => station_by_id id (stations db)).

Definition createStation (ins : InsertStation) (now : Z) : M Station :=
  fun db =>
    let row := mkStation (stations_id_seq db)
                 (stored 1 (ins_chargerCount ins))
                 (stored 1 (ins_availableChargers ins))
                 (Some now) in
    let db' := mkDB (stations db ++ [row]) (chargingSessions db)
                 (stations_id_seq db + 1) (charging_sessions_id_seq db) in
    (Ok row, db', [db']).

Definition with_available (v : Z) (now : Z) (s : Station) : Station :=
  mkStation (station_id s) (chargerCount s) (Some v) (Some now).

Definition update_available (id v now : Z) (l : list Station) : list Station :=
  map (fun s => if station_id s =? id then with_available v now s else s) l.

Definition updateStationAvailability (F : Faults) (id : Z)
  (available : Z) (now : Z) : M (option Station) :=
  if updateAvailabilityFails F
  then throw (DbError "update stations"%string)
  else
    commit (set_stations (update_available id available now)) ;;;
    query (fun db => station_by_id id (stations db)).

(** The row [startChargingSession] inserts, with the next [serial] id. *)
Definition new_session (db : DB) (station : Z) (batteryStart : option Z)
  (vehicle : option Z) (user : option string) (now : Z) : ChargingSession :=
  mkSession (charging_sessions_id_seq db) station user vehicle
    (Some now) None None None batteryStart None (Some true)
    (Some now) (Some now).

Definition insert_session (row : ChargingSession) (db : DB) : DB :=
  mkDB (stations db) (chargingSessions db ++ [row])
       (stations_id_seq db) (charging_sessions_id_seq db + 1).

Definition startChargingSession (F : Faults) (station : Z)
  (batteryStart : option Z) (vehicle : option Z) (user : option string)
  (now : Z) : M ChargingSession :=
  if insertSessionFails F
  then throw (DbError "insert charging_sessions"%string)
  else
    fun db =>
      let row := new_session db station batteryStart vehicle user now in
      (Ok row, insert_session row db, [insert_session row db]).

(** [.set({...})] leaves a column alone when its value is [undefined]. *)
Definition set_if_defined {A} (v : option A) (old : option A) : option A :=
  match v with Some a => Some a | None => old end.

(** [energy_kwh] is a [real] column: a number written to it is kept as
    the nearest single-precision value.

    [round_half_even n d] is the nearest integer to [n / d] for [0 <= n]
    and [0 < d], halves going to the even one. *)
Definition round_half_even (n d : Z) : Z :=
  let q := n / d in
  let r := n mod d in
  match 2 * r ?= d with
  | Lt => q
  | Gt => q + 1
  | Eq => if Z.even q then q else q + 1
  end.

(** The single-precision value nearest to the positive rational [n / d],
    as a rational in lowest terms.  Values are scaled by [2^149], the
    inverse of the smallest single-precision step, so that every exponent
    is a natural number: [k] is the exponent of the step at [n / d], zero
    below [2^-125] and [floor (log2 (n / d)) - 23 + 149] from there on. *)
Definition float4_pos (n d : positive) : Q :=
  let N := Zpos n * 2 ^ 149 in
  let c := Z.log2 N - Z.log2 (Zpos d) - 23 in
  let k := if c <=? 0 then 0
           else if 2 ^ (c + 23) * Zpos d <=? N then c else c - 1 in
  let m := round_half_even N (Zpos d * 2 ^ k) in
  Qred (Qmake (m * 2 ^ k) (Z.to_pos (2 ^ 149))).

(** What a [real] column keeps of the number [q], and what the row that
    [.returning()] gives back carries; in an answer it is printed with the
    shortest decimal digits that tell it from the other single-precision
    numbers.  A number beyond the single-precision range is not stored at
    all: the database rejects the statement, which is the fault
    [updateSessionFails] of the update that carries it. *)
Definition float4 (q : Q) : Q :=
  match Qnum q with
  | Z0 => Qred q
  | Zpos n => float4_pos n (Qden q)
  | Zneg n => Qred (Qopp (float4_pos n (Qden q)))
  end.


(** The row as [.set({...})] of [endChargingSession] leaves it.
    [duration_minutes] is an [integer] column: a duration outside int4 is
    rejected with the statement, again the fault [updateSessionFails]. *)
Definition with_end (endT : Z) (duration : option Z)
  (batteryEnd : option Z) (energy : option Q) (s : ChargingSession)
  : ChargingSession :=
  mkSession (session_id s) (stationId s) (userId s) (userVehicleId s)
    (startTime s) (Some endT) duration
    (set_if_defined (option_map float4 energy) (energyKwh s))
    (batteryStartPercent s)
    (set_if_defined batteryEnd (batteryEndPercent s))
    (Some false) (createdAt s) (Some endT).

Definition update_session (id : Z) (f : ChargingSession -> ChargingSession)
  (l : list ChargingSession) : list ChargingSession :=
  map (fun s => if session_id s =? id then f s else s) l.

(** [durationMinutes] as [endChargingSession] computes it. *)
Definition duration_at (endT : Z) (session : ChargingSession) : option Z :=
  match startTime session with
  | Some t0 => Some (round_minutes (endT - t0))
  | None => None
  end.

Definition endChargingSession (F : Faults) (sessionId : Z)
  (batteryEnd : option Z) (energy : option Q) (now : Z)
  : M (option ChargingSession) :=
  session <- query (fun db => session_by_id sessionId (chargingSessions db)) ;;
  match session with
  | None => ret None
  | Some session =>
      let endT := now in
      let durationMinutes := duration_at endT session in
      if updateSessionFails F
      then throw (DbError "update charging_sessions"%string)
      else
        commit (set_sessions
                  (update_session sessionId
                     (with_end endT durationMinutes batteryEnd energy))) ;;;
        query (fun db => session_by_id sessionId (chargingSessions db))
  end.

Definition getActiveSession (station : Z) : M (option ChargingSession) :=
  select_by_key station (fun db =>
    find (fun s => (stationId s =? station)
                   && match isActive s with Some true => true | _ => false end)
         (chargingSessions db)).

Definition getSessionById (sessionId : Z) : M (option ChargingSession) :=
  select_by_key sessionId
    (fun db => session_by_id sessionId (chargingSessions db)).

Definition deleteSession (F : Faults) (sessionId : Z) : M unit :=
  if deleteSessionFails F
  then throw (DbError "delete charging_sessions"%string)
  else
    commit (set_sessions
              (filter (fun s => negb (session_id s =? sessionId)))).

(** ** Request bodies ([shared/routes.ts]) and responses *)

Record StartInput := mkStartInput {
  in_stationId : Z;
  in_userVehicleId : option Z;
  in_batteryStartPercent : option Z
}.

Record EndInput := mkEndInput {
  in_batteryEndPercent : option Z;
  in_energyKwh : option Q
}.

(** [z.number().min(0).max(100).optional()] *)
Definition percent_ok (p : option Z) : bool :=
  match p with
  | Some v => (0 <=? v) && (v <=? 100)
  | None => true
  end.

(** [z.number().min(0).optional()] *)
Definition energy_ok (e : option Q) : bool :=
  match e with
  | Some q => Qle_bool 0 q
  | None => true
  end.

Definition validStartInput (i : StartInput) : bool :=
  percent_ok (in_batteryStartPercent i).

Definition validEndInput (i : EndInput) : bool :=
  percent_ok (in_batteryEndPercent i) && energy_ok (in_energyKwh i).

Inductive json : Type :=
| JsonMessage (message : string)
| JsonFieldError (field : string)
| JsonSession (s : ChargingSession)
| JsonStation (s : option Station).

Inductive response : Type :=
| Respond (status : Z) (body : json).

Definition message (status : Z) (m : string) : M response :=
  ret (Respond status (JsonMessage m)).

(** ** The handlers ([server/routes.ts]) *)

(** An [integer] column in a schema made by [createInsertSchema]: the
    numbers of int4 pass; so do [null] and an omitted field, the two
    counters being nullable columns with a default. *)
Definition int4_ok (v : insertable Z) : bool :=
  match v with
  | Given z => in_int4 z
  | _ => true
  end.

(** [api.stations.create.input.parse], on the two counters. *)
Definition validInsertStation (i : InsertStation) : bool :=
  int4_ok (ins_chargerCount i) && int4_ok (ins_availableChargers i).

(** [app.post(api.stations.create.path, ...)]: a [ZodError] of the parse
    is answered 400 with the path of its first issue. *)
Definition stations_create (input : InsertStation) (now : Z) : M response :=
  if negb (int4_ok (ins_chargerCount input))
  then ret (Respond 400 (JsonFieldError "chargerCount"%string))
  else if negb (int4_ok (ins_availableChargers input))
  then ret (Respond 400 (JsonFieldError "availableChargers"%string))
  else
    station <- createStation input now ;;
    ret (Respond 201 (JsonStation (Some station))).

(** [app.patch(api.stations.updateAvailability.path, ...)] *)
Definition stations_updateAvailability (F : Faults) (id : Z)
  (input_availableChargers : Z) (now : Z) : M response :=
  if input_availableChargers <? 0
  then ret (Respond 400 (JsonFieldError "availableChargers"%string))
  else
    station <- getStation id ;;
    match station with
    | None => message 404 "Station not found"%string
    | Some station =>
        if input_availableChargers >? or_else (chargerCount station) 1
        then message 400 "Available chargers cannot exceed total chargers"%string
        else
          updated <- updateStationAvailability F id input_availableChargers now ;;
          ret (Respond 200 (JsonStation updated))
    end.

(** [app.post(api.chargingSessions.start.path, ...)] *)
Definition chargingSessions_start (F : Faults) (input : StartInput)
  (user : option string) (now : Z) : M response :=
  if negb (validStartInput input)
  then ret (Respond 400 (JsonFieldError "batteryStartPercent"%string))
  else
    station <- getStation (in_stationId input) ;;
    match station with
    | None => message 404 "Station not found"%string
    | Some station =>
        let available := nullish (availableChargers station) 0 in
        if available <=? 0
        then message 400 "No available chargers"%string
        else
          session <- startChargingSession F (in_stationId input)
                       (in_batteryStartPercent input)
                       (in_userVehicleId input) user now ;;
          try_catch
            (updateStationAvailability F (in_stationId input)
               (available - 1) now ;;; ret tt)
            (fun err => deleteSession F (session_id session) ;;; throw err) ;;;
          ret (Respond 201 (JsonSession session))
    end.

(** The start handler between its awaits.  A handler gives control back
    at every [await], and the handler of another request may run there.
    [start_checks] is the start handler up to the answer of its station
    read: it ends in an answer or in the count it has read.
    [start_writes] is the rest of the handler, which works with that
    count and never reads the station again. *)
Definition start_checks (input : StartInput) : M (response + Z) :=
  if negb (validStartInput input)
  then ret (inl (Respond 400 (JsonFieldError "batteryStartPercent"%string)))
  else
    station <- getStation (in_stationId input) ;;
    match station with
    | None => ret (inl (Respond 404 (JsonMessage "Station not found"%string)))
    | Some station =>
        let available := nullish (availableChargers station) 0 in
        if available <=? 0
        then ret (inl (Respond 400 (JsonMessage "No available chargers"%string)))
        else ret (inr available)
    end.

Definition start_writes (F : Faults) (input : StartInput)
  (user : option string) (now : Z) (available : Z) : M response :=
  session <- startChargingSession F (in_stationId input)
               (in_batteryStartPercent input)
               (in_userVehicleId input) user now ;;
  try_catch
    (updateStationAvailability F (in_stationId input)
       (available - 1) now ;;; ret tt)
    (fun err => deleteSession F (session_id session) ;;; throw err) ;;;
  ret (Respond 201 (JsonSession session)).

(** The release step of the end handler. *)
Definition release_charger (F : Faults) (station : option Station)
  (id : Z) (now : Z) : M unit :=
  match station with
  | Some station =>
      let available := nullish (availableChargers station) 0 in
      let total := nullish (chargerCount station) 1 in
      if available <? total
      then updateStationAvailability F id (available + 1) now ;;; ret tt
      else ret tt
  | None => ret tt
  end.

(** [app.post(api.chargingSessions.end.path, ...)] *)
Definition chargingSessions_end (F : Faults) (sessionId : Z)
  (input : EndInput) (user : option string) (now : Z) : M response :=
  if negb (validEndInput input)
  then ret (Respond 400
              (JsonFieldError (if percent_ok (in_batteryEndPercent input)
                               then "energyKwh"%string
                               else "batteryEndPercent"%string)))
  else
    existingSession <- getSessionById sessionId ;;
    match existingSession with
    | None => message 404 "Session not found"%string
    | Some existingSession =>
        if truthy_string (userId existingSession)
           && strict_neq (userId existingSession) user
        then message 403 "Cannot end another user's session"%string
        else if negb (truthy_bool (isActive existingSession))
        then message 400 "Session already ended"%string
        else
          session <- endChargingSession F sessionId
                       (in_batteryEndPercent input) (in_energyKwh input) now ;;
          match session with
          | None => message 404 "Session not found"%string
          | Some session =>
              station <- getStation_stored_key (stationId session) ;;
              release_charger F station (stationId session) now ;;;
              ret (Respond 200 (JsonSession session))
          end
    end.

(** ** Requests and reachable databases *)

Inductive request : Type :=
| CreateStation (input : InsertStation)
| UpdateAvailability (id : Z) (available : Z)
| StartSession (input : StartInput) (user : option string)
| EndSession (sessionId : Z) (input : EndInput) (user : option string).

(** One request handled from its first statement to its last, with no
    other request in between. *)
Definition handle (F : Faults) (r : request) (now : Z) : M response :=
  match r with
  | CreateStation input => stations_create input now
  | UpdateAvailability id v => stations_updateAvailability F id v now
  | StartSession input user => chargingSessions_start F input user now
  | EndSession sid input user => chargingSessions_end F sid input user now
  end.

(** The databases a fresh installation can be in between two requests
    when no statement is rejected and the requests are handled one at a
    time.  Requests that overlap are described with [start_checks] and
    [start_writes]. *)
Inductive reachable : DB -> Prop :=
| reachable_empty : reachable emptyDB
| reachable_step db r now :
    reachable db -> reachable (finalDB (handle noFaults r now db)).

(** Run a list of timed requests from a database. *)
Fixpoint run_requests (rs : list (request * Z)) (db : DB) : DB :=
  match rs with
  | [] => db
  | (r, now) :: rs' => run_requests rs' (finalDB (handle noFaults r now db))
  end.

(** ** Observations *)

Definition is_active (s : ChargingSession) : bool :=
  match isActive s with Some true => true | _ => false end.

Definition active_at (S : Z) (s : ChargingSession) : bool :=
  (stationId s =? S) && is_active s.

(** The number of sessions at station [S] with [isActive = true]. *)
Definition activeSessionCount (db : DB) (S : Z) : Z :=
  Z.of_nat (List.length (filter (active_at S) (chargingSessions db))).

(** The counters of a station row as the handlers read them. *)
Definition available_of (s : Station) : Z := nullish (availableChargers s) 0.
Definition total_of (s : Station) : Z := nullish (chargerCount s) 1.

Definition balanced (db : DB) (S : Z) : Prop :=
  forall s, station_by_id S (stations db) = Some s ->
            available_of s + activeSessionCount db S = total_of s.

Definition within_capacity (db : DB) (S : Z) : Prop :=
  forall s, station_by_id S (stations db) = Some s ->
            0 <= available_of s <= total_of s.

(** Primary keys: session ids are distinct and below the sequence. *)
Definition session_keys_ok (db : DB) : Prop :=
  NoDup (map session_id (chargingSessions db)) /\
  Forall (fun s => session_id s < charging_sessions_id_seq db)
         (chargingSessions db).

(** Every session row carries a start time. *)
Definition sessions_started (db : DB) : Prop :=
  Forall (fun s => startTime s <> None) (chargingSessions db).

(** Station [S], if present, does not have a charger count of zero. *)
Definition nonzero_total (db : DB) (S : Z) : Prop :=
  forall s, station_by_id S (stations db) = Some s -> chargerCount s <> Some 0.

Definition creates_station (r : request) : bool :=
  match r with CreateStation _ => true | _ => false end.

(** ** Sample databases *)

Definition alice : option string := Some "alice"%string.
Definition bob : option string := Some "bob"%string.

(** A one-charger station, and the same station while alice charges. *)
Definition one_charger_db : DB :=
  run_requests
    [(CreateStation (mkInsertStation (Given 1) (Given 1)), 1000)] emptyDB.

Definition charging_db : DB :=
  run_requests
    [(CreateStation (mkInsertStation (Given 1) (Given 1)), 1000);
     (StartSession (mkStartInput 1 None (Some 40)) alice, 2000)] emptyDB.

Definition alice_session : ChargingSession :=
  mkSession 1 1 alice None (Some 2000) None None None (Some 40) None
    (Some true) (Some 2000) (Some 2000).

Definition end_input : EndInput := mkEndInput (Some 80) (Some (25 # 2)%Q).

(** Two rows of the seed: a station with 2 of its 4 chargers available
    and one with both of its 2 chargers available, and no session. *)
Definition seeded_db : DB :=
  mkDB [mkStation 1 (Some 4) (Some 2) (Some 0);
        mkStation 5 (Some 2) (Some 2) (Some 0)] [] 6 1.

(** A two-charger station with no charger free. *)
Definition full_station_db : DB :=
  mkDB [mkStation 1 (Some 2) (Some 0) (Some 1000)] [] 2 1.

(** A station whose counter was set back to full while alice charges. *)
Definition drifted_db : DB :=
  run_requests
    [(CreateStation (mkInsertStation (Given 1) (Given 1)), 1000);
     (StartSession (mkStartInput 1 None (Some 40)) alice, 2000);
     (UpdateAvailability 1 1, 3000)] emptyDB.

(** A two-charger station, both chargers free, no session. *)
Definition two_charger_db : DB :=
  run_requests
    [(CreateStation (mkInsertStation (Given 2) (Given 2)), 1000)] emptyDB.

(** ** Session queries ([DatabaseStorage.getChargingSessions] and the
    list and active-session routes) *)

(** [ORDER BY key DESC]: larger keys first and [NULL] before every value
    (the PostgreSQL default for a descending key). Rows with equal keys
    are kept in table order, a choice the database does not promise. *)
Definition desc_leb (x y : option Z) : bool :=
  match x, y with
  | None, _ => true
  | Some _, None => false
  | Some a, Some b => b <=? a
  end.

Fixpoint insert_desc {A} (key : A -> option Z) (x : A) (l : list A) : list A :=
  match l with
  | [] => [x]
  | y :: t =>
      if desc_leb (key x) (key y) then x :: y :: t
      else y :: insert_desc key x t
  end.

Definition order_by_desc {A} (key : A -> option Z) (l : list A) : list A :=
  fold_right (insert_desc key) [] l.

(** [a] may stand before [b] in a result ordered by [key] descending. *)
Definition desc_rel {A} (key : A -> option Z) (a b : A) : Prop :=
  desc_leb (key a) (key b) = true.

(** Truthiness of an optional number: [undefined], [NaN] and [0] are falsy. *)
Definition truthy_number (x : option Z) : bool :=
  match x with Some n => negb (n =? 0) | None => false end.

(** The [WHERE] clause [getChargingSessions] builds from its arguments. *)
Definition session_filter (station : option Z) (user : option string)
  (s : ChargingSession) : bool :=
  (if truthy_number station
   then match station with Some n => stationId s =? n | None => true end
   else true)
  &&
  (if truthy_string user
   then match user, userId s with
        | Some u, Some o => String.eqb o u
        | _, _ => false
        end
   else true).

(** The station condition compares the [int4] column [station_id] with
    the argument: a number outside int4 makes the database refuse the
    statement. *)
Definition station_condition_refused (station : option Z) : bool :=
  match station with
  | Some n => truthy_number station && negb (in_int4 n)
  | None => false
  end.

Definition getChargingSessions (station : option Z) (user : option string)
  : M (list ChargingSession) :=
  if station_condition_refused station
  then throw (DbError "out of range for type integer"%string)
  else
    query (fun db =>
      order_by_desc createdAt
        (filter (session_filter station user) (chargingSessions db))).

(** [app.get(api.chargingSessions.list.path, ...)]; [query_stationId] is
    [Number(req.query.stationId)] when the parameter is present. *)
Definition chargingSessions_list (query_stationId : option Z)
  (user : option string) : M (Z * list ChargingSession) :=
  sessions <- getChargingSessions query_stationId user ;;
  ret (200, sessions).

(** [app.get(api.chargingSessions.getActive.path, ...)] *)
Definition chargingSessions_getActive (station : Z)
  : M (Z * option ChargingSession) :=
  session <- getActiveSession station ;;
  ret (200, session).

(** Station keys are below the sequence. *)
Definition station_keys_ok (db : DB) : Prop :=
  Forall (fun s => station_id s < stations_id_seq db) (stations db).

(** ** User vehicles ([user_vehicles], [ev_vehicles] and their routes) *)

Record EvVehicle := mkEvVehicle {
  ev_id : Z;
  brand : string;
  model : string;
  brandAr : string;
  modelAr : string;
  batteryCapacityKwh : option Q;
  ev_chargerType : string;
  maxChargingPowerKw : option Q;
  imageUrl : option string
}.

Record UserVehicle := mkUserVehicle {
  uv_id : Z;
  uv_userId : string;
  evVehicleId : Z;
  nickname : option string;
  licensePlate : option string;
  color : option string;
  year : option Z;
  isDefault : option bool;
  uv_createdAt : option Z;
  uv_updatedAt : option Z
}.

(** [UserVehicleWithDetails]: the row and the catalogue entry it names. *)
Definition UserVehicleWithDetails : Type := (UserVehicle * option EvVehicle)%type.

(** The body of the create route: [insertUserVehicleSchema] without
    [userId]. *)
Record NewUserVehicle := mkNewUserVehicle {
  new_evVehicleId : Z;
  new_nickname : insertable string;
  new_licensePlate : insertable string;
  new_color : insertable string;
  new_year : insertable Z;
  new_isDefault : insertable bool
}.

(** The body of the update route: every key optional, [userId] left out. *)
Record UserVehiclePatch := mkUserVehiclePatch {
  upd_evVehicleId : option Z;
  upd_nickname : insertable string;
  upd_licensePlate : insertable string;
  upd_color : insertable string;
  upd_year : insertable Z;
  upd_isDefault : insertable bool
}.

Record Garage := mkGarage {
  userVehicles : list UserVehicle;
  evVehicles : list EvVehicle;
  user_vehicles_id_seq : Z
}.

(** A nullable column without default: a key left out is stored as [NULL]. *)
Definition stored_nullable {A} (v : insertable A) : option A :=
  match v with Given a => Some a | _ => None end.

(** [.set({...})] on a nullable column: a key left out keeps the column. *)
Definition assign {A} (v : insertable A) (old : option A) : option A :=
  match v with
  | Omitted => old
  | Null => None
  | Given a => Some a
  end.

Definition set_userVehicles (f : list UserVehicle -> list UserVehicle)
  (g : Garage) : Garage :=
  mkGarage (f (userVehicles g)) (evVehicles g) (user_vehicles_id_seq g).

Definition getVehicle (id : Z) (g : Garage) : option EvVehicle :=
  find (fun v => ev_id v =? id) (evVehicles g).

Definition user_vehicle_by_id (id : Z) (l : list UserVehicle)
  : option UserVehicle :=
  find (fun v => uv_id v =? id) l.

(** [id] ranges over int4 here, as the keys of the table do: for a number
    outside int4 the database refuses the statement, and what the vehicle
    routes then do is left out of their definitions below. *)
Definition getUserVehicle (id : Z) (g : Garage)
  : option UserVehicleWithDetails :=
  match user_vehicle_by_id id (userVehicles g) with
  | None => None
  | Some uv => Some (uv, getVehicle (evVehicleId uv) g)
  end.

Definition getUserVehicles (user : string) (g : Garage)
  : list UserVehicleWithDetails :=
  map (fun uv => (uv, getVehicle (evVehicleId uv) g))
    (order_by_desc uv_createdAt
       (filter (fun uv => String.eqb (uv_userId uv) user) (userVehicles g))).

Definition createUserVehicle (user : string) (input : NewUserVehicle)
  (now : Z) (g : Garage) : UserVehicle * Garage :=
  let row := mkUserVehicle (user_vehicles_id_seq g) user
               (new_evVehicleId input)
               (stored_nullable (new_nickname input))
               (stored_nullable (new_licensePlate input))
               (stored_nullable (new_color input))
               (stored_nullable (new_year input))
               (stored false (new_isDefault input))
               (Some now) (Some now) in
  (row, mkGarage (userVehicles g ++ [row]) (evVehicles g)
          (user_vehicles_id_seq g + 1)).

Definition patch_vehicle (p : UserVehiclePatch) (now : Z) (v : UserVehicle)
  : UserVehicle :=
  mkUserVehicle (uv_id v) (uv_userId v)
    (match upd_evVehicleId p with Some e => e | None => evVehicleId v end)
    (assign (upd_nickname p) (nickname v))
    (assign (upd_licensePlate p) (licensePlate v))
    (assign (upd_color p) (color v))
    (assign (upd_year p) (year v))
    (assign (upd_isDefault p) (isDefault v))
    (uv_createdAt v) (Some now).

Definition update_vehicles (sel : UserVehicle -> bool)
  (f : UserVehicle -> UserVehicle) (l : list UserVehicle) : list UserVehicle :=
  map (fun v => if sel v then f v else v) l.

Definition updateUserVehicle (id : Z) (p : UserVehiclePatch) (now : Z)
  (g : Garage) : option UserVehicle * Garage :=
  let g' := set_userVehicles
              (update_vehicles (fun v => uv_id v =? id) (patch_vehicle p now))
              g in
  (user_vehicle_by_id id (userVehicles g'), g').

Definition deleteUserVehicle (id : Z) (g : Garage) : Garage :=
  set_userVehicles (filter (fun v => negb (uv_id v =? id))) g.

Definition with_default (b : bool) (now : Z) (v : UserVehicle) : UserVehicle :=
  mkUserVehicle (uv_id v) (uv_userId v) (evVehicleId v) (nickname v)
    (licensePlate v) (color v) (year v) (Some b) (uv_createdAt v) (Some now).

Definition setDefaultUserVehicle (user : string) (vehicleId : Z) (now : Z)
  (g : Garage) : Garage :=
  let g1 := set_userVehicles
              (update_vehicles (fun v => String.eqb (uv_userId v) user)
                 (with_default false now)) g in
  set_userVehicles
    (update_vehicles (fun v => uv_id v =? vehicleId) (with_default true now))
    g1.

Inductive vjson : Type :=
| VMessage (message : string)
| VFieldError (field : string)
| VVehicle (v : option UserVehicle)
| VDetails (v : UserVehicleWithDetails)
| VList (l : list UserVehicleWithDetails)
| VSuccess.

Inductive vresponse : Type :=
| VRespond (status : Z) (body : vjson).

(** [app.get(api.userVehicles.list.path, ...)] *)
Definition userVehicles_list (user : string) (g : Garage)
  : vresponse * Garage :=
  (VRespond 200 (VList (getUserVehicles user g)), g).

(** [app.get(api.userVehicles.get.path, ...)] *)
Definition userVehicles_get (id : Z) (user : string) (g : Garage)
  : vresponse * Garage :=
  match getUserVehicle id g with
  | None => (VRespond 404 (VMessage "Vehicle not found"%string), g)
  | Some vehicle =>
      if negb (String.eqb (uv_userId (fst vehicle)) user)
      then (VRespond 403 (VMessage "Not authorized"%string), g)
      else (VRespond 200 (VDetails vehicle), g)
  end.

(** [api.userVehicles.create.input.parse], on the two [integer] columns:
    [evVehicleId] must be an int4 value, [year] may also be null or left
    out. *)
Definition validNewUserVehicle (i : NewUserVehicle) : bool :=
  in_int4 (new_evVehicleId i) && int4_ok (new_year i).

(** [api.userVehicles.update.input.parse]: every key may be left out. *)
Definition validUserVehiclePatch (p : UserVehiclePatch) : bool :=
  match upd_evVehicleId p with Some e => in_int4 e | None => true end
  && int4_ok (upd_year p).

(** [app.post(api.userVehicles.create.path, ...)]: a [ZodError] of the
    parse is answered 400 with the path of its first issue. *)
Definition userVehicles_create (input : NewUserVehicle) (user : string)
  (now : Z) (g : Garage) : vresponse * Garage :=
  if negb (in_int4 (new_evVehicleId input))
  then (VRespond 400 (VFieldError "evVehicleId"%string), g)
  else if negb (int4_ok (new_year input))
  then (VRespond 400 (VFieldError "year"%string), g)
  else
    let (vehicle, g') := createUserVehicle user input now g in
    (VRespond 201 (VVehicle (Some vehicle)), g').

(** [app.patch(api.userVehicles.update.path, ...)]: the body is parsed
    before the vehicle is looked up. *)
Definition userVehicles_update (id : Z) (input : UserVehiclePatch)
  (user : string) (now : Z) (g : Garage) : vresponse * Garage :=
  if negb (match upd_evVehicleId input with
           | Some e => in_int4 e
           | None => true
           end)
  then (VRespond 400 (VFieldError "evVehicleId"%string), g)
  else if negb (int4_ok (upd_year input))
  then (VRespond 400 (VFieldError "year"%string), g)
  else
    match getUserVehicle id g with
    | None => (VRespond 404 (VMessage "Vehicle not found"%string), g)
    | Some existing =>
        if negb (String.eqb (uv_userId (fst existing)) user)
        then (VRespond 403 (VMessage "Not authorized"%string), g)
        else
          let (vehicle, g') := updateUserVehicle id input now g in
          (VRespond 200 (VVehicle vehicle), g')
    end.

(** [app.delete(api.userVehicles.delete.path, ...)] *)
Definition userVehicles_delete (id : Z) (user : string) (g : Garage)
  : vresponse * Garage :=
  match getUserVehicle id g with
  | None => (VRespond 404 (VMessage "Vehicle not found"%string), g)
  | Some existing =>
      if negb (String.eqb (uv_userId (fst existing)) user)
      then (VRespond 403 (VMessage "Not authorized"%string), g)
      else (VRespond 200 VSuccess, deleteUserVehicle id g)
  end.

(** [app.post(api.userVehicles.setDefault.path, ...)] *)
Definition userVehicles_setDefault (id : Z) (user : string) (now : Z)
  (g : Garage) : vresponse * Garage :=
  match getUserVehicle id g with
  | None => (VRespond 404 (VMessage "Vehicle not found"%string), g)
  | Some existing =>
      if negb (String.eqb (uv_userId (fst existing)) user)
      then (VRespond 403 (VMessage "Not authorized"%string), g)
      else (VRespond 200 VSuccess, setDefaultUserVehicle user id now g)
  end.

Definition vehicle_keys_ok (g : Garage) : Prop :=
  NoDup (map uv_id (userVehicles g)) /\
  Forall (fun v => uv_id v < user_vehicles_id_seq g) (userVehicles g).

(** ** Station reports ([reports], the [status] column of [stations] and
    the report routes) *)

(** A [stations] row with its [status] column beside the counters. *)
Record StationRow := mkStationRow {
  core : Station;
  status : option string
}.

Record Report := mkReport {
  report_id : Z;
  report_stationId : Z;
  report_userId : option string;
  report_status : string;
  reason : option string;
  report_createdAt : option Z
}.

(** The body of the report route, without the [userId] the handler
    overrides. *)
Record NewReport := mkNewReport {
  rin_stationId : Z;
  rin_status : string;
  rin_reason : insertable string
}.

Record ReportsDB := mkReportsDB {
  station_rows : list StationRow;
  reports : list Report;
  reports_id_seq : Z
}.

Definition station_row_by_id (id : Z) (l : list StationRow)
  : option StationRow :=
  find (fun r => station_id (core r) =? id) l.

Definition with_status (st : string) (now : Z) (r : StationRow) : StationRow :=
  mkStationRow
    (mkStation (station_id (core r)) (chargerCount (core r))
       (availableChargers (core r)) (Some now))
    (Some st).

Definition updateStationStatus (id : Z) (st : string) (now : Z)
  (d : ReportsDB) : option StationRow * ReportsDB :=
  let rows := map (fun r => if station_id (core r) =? id
                            then with_status st now r else r)
                (station_rows d) in
  (station_row_by_id id rows, mkReportsDB rows (reports d) (reports_id_seq d)).

Definition createReport (input : NewReport) (user : option string) (now : Z)
  (d : ReportsDB) : Report * ReportsDB :=
  let row := mkReport (reports_id_seq d) (rin_stationId input) user
               (rin_status input) (stored_nullable (rin_reason input))
               (Some now) in
  (row, mkReportsDB (station_rows d) (reports d ++ [row])
          (reports_id_seq d + 1)).

(** [station] ranges over int4, the type of the column it is compared
    with. *)
Definition getReports (station : Z) (d : ReportsDB) : list Report :=
  order_by_desc report_createdAt
    (filter (fun r => report_stationId r =? station) (reports d)).

Inductive rjson : Type :=
| RMessage (message : string)
| RFieldError (field : string)
| RReport (r : Report)
| RReports (l : list Report).

Inductive rresponse : Type :=
| RRespond (status : Z) (body : rjson).

(** [api.reports.create.input.parse], on the [integer] column
    [stationId]. *)
Definition validNewReport (i : NewReport) : bool :=
  in_int4 (rin_stationId i).

(** [app.post(api.reports.create.path, ...)]: a [ZodError] of the parse is
    answered 400 with the path of its first issue; past the parse the
    station id is an int4 value and the station lookup is not refused. *)
Definition reports_create (input : NewReport) (user : option string)
  (now : Z) (d : ReportsDB) : rresponse * ReportsDB :=
  if negb (validNewReport input)
  then (RRespond 400 (RFieldError "stationId"%string), d)
  else
    match station_row_by_id (rin_stationId input) (station_rows d) with
    | None => (RRespond 404 (RMessage "Station not found"%string), d)
    | Some station =>
        let (report, d1) := createReport input user now d in
        let d2 :=
          if String.eqb (rin_status input) "NOT_WORKING"%string
          then snd (updateStationStatus (rin_stationId input) "OFFLINE"%string
                      now d1)
          else if String.eqb (rin_status input) "WORKING"%string
          then snd (updateStationStatus (rin_stationId input)
                      "OPERATIONAL"%string now d1)
          else d1 in
        (RRespond 201 (RReport report), d2)
    end.

(** [app.get(api.stations.getReports.path, ...)] *)
Definition stations_getReports (station : Z) (d : ReportsDB)
  : rresponse * ReportsDB :=
  (RRespond 200 (RReports (getReports station d)), d).

(** ** [buildUrl] ([shared/routes.ts]) *)

(** A parameter value, [string | number]; numbers are the integers of
    magnitude below [2^53], which a JavaScript number holds exactly. *)
Inductive param_value : Type :=
| PStr (s : string)
| PNum (n : Z).

(** [String(value)]: a string is itself, an integer of magnitude below
    [2^53] its decimal digits.  Larger numbers are printed by JavaScript
    with the shortest digits that identify them, and in exponent form from
    [10^21] on; they are outside what this definition describes. *)
Definition String_of (v : param_value) : string :=
  match v with
  | PStr s => s
  | PNum n => DecimalString.NilZero.string_of_int (Z.to_int n)
  end.

(** [s] without the leading [pat], when [s] starts with [pat]. *)
Fixpoint strip_prefix (pat s : string) : option string :=
  match pat with
  | EmptyString => Some s
  | String c p =>
      match s with
      | String d t => if Ascii.eqb c d then strip_prefix p t else None
      | EmptyString => None
      end
  end.

(** The text before and after the first occurrence of [pat] in [s]. *)
Fixpoint split_first (pat s : string) : option (string * string) :=
  match strip_prefix pat s with
  | Some rest => Some (EmptyString, rest)
  | None =>
      match s with
      | EmptyString => None
      | String c t =>
          match split_first pat t with
          | Some (a, b) => Some (String c a, b)
          | None => None
          end
      end
  end.

(** [s.includes(pat)] *)
Definition includes (pat s : string) : bool :=
  match split_first pat s with Some _ => true | None => false end.

(** The replacement text of [String.prototype.replace] for a string
    pattern: [$$] is a dollar sign, [$&] the matched text, [$`] the text
    before the match and [$'] the text after it; every other character,
    a dollar sign before anything else included, stands for itself. *)
Fixpoint substitute (matched before after repl : string) : string :=
  match repl with
  | EmptyString => EmptyString
  | String c rest =>
      if Ascii.eqb c "$"%char
      then match rest with
           | String d rest' =>
               if Ascii.eqb d "$"%char
               then String "$"%char (substitute matched before after rest')
               else if Ascii.eqb d "&"%char
               then (matched ++ substitute matched before after rest')%string
               else if Ascii.eqb d "`"%char
               then (before ++ substitute matched before after rest')%string
               else if Ascii.eqb d "'"%char
               then (after ++ substitute matched before after rest')%string
               else String c (substitute matched before after rest)
           | EmptyString => String c EmptyString
           end
      else String c (substitute matched before after rest)
  end.

(** [s.replace(pat, repl)] with a string pattern: the first occurrence
    only. *)
Definition replace_first (pat repl s : string) : string :=
  match split_first pat s with
  | Some (a, b) => (a ++ substitute pat a b repl ++ b)%string
  | None => s
  end.

(** [buildUrl(path, params)]; [params] lists the entries of the object in
    the order [Object.entries] yields them. *)
Definition buildUrl (path : string)
  (params : option (list (string * param_value))) : string :=
  match params with
  | None => path
  | Some entries =>
      fold_left
        (fun url kv =>
           if includes (String ":"%char (fst kv)) url
           then replace_first (String ":"%char (fst kv)) (String_of (snd kv)) url
           else url)
        entries path
  end.

(** The shape of a session row: it has a start time; while active it has
    neither end time nor duration; once ended it has an end time and the
    duration computed from the two times. *)
Definition session_well_formed (s : ChargingSession) : Prop :=
  exists t0,
    startTime s = Some t0 /\
    match isActive s with
    | Some true => endTime s = None /\ durationMinutes s = None
    | Some false =>
        exists e, endTime s = Some e /\
                  durationMinutes s = Some (round_minutes (e - t0))
    | None => False
    end.

(** A garage with two vehicles of alice and one of bob. *)
Definition sample_garage : Garage :=
  mkGarage
    [mkUserVehicle 1 "alice" 10 (Some "daily"%string) None None (Some 2023)
       (Some true) (Some 100) (Some 100);
     mkUserVehicle 2 "alice" 11 None None None None (Some false) (Some 200)
       (Some 200);
     mkUserVehicle 3 "bob" 10 None None None None (Some true) (Some 300)
       (Some 300)]
    [mkEvVehicle 10 "BYD" "Atto 3" "BYD" "Atto 3" (Some (121 # 2)%Q) "CCS"
       (Some (80 # 1)%Q) None]
    4.

(** ** Proof automation *)

Ltac run_handler :=
  cbv beta iota delta
    [chargingSessions_start chargingSessions_end stations_updateAvailability
     stations_create release_charger handle message
     getStation getStation_stored_key getSessionById getActiveSession
     select_by_key
     bind ret throw try_catch query commit outcome finalDB writes negb].

(** ** Basic facts about the tables *)

Lemma station_by_id_update_same id v now l s :
  station_by_id id l = Some s ->
  station_by_id id (update_available id v now l) = Some (with_available v now s).
Proof.
  unfold station_by_id, update_available.
  induction l as [|h t IH]; simpl; [discriminate|].
  destruct (station_id h =? id) eqn:E.
  - intros [= ->]. simpl. rewrite E. reflexivity.
  - intros H. simpl. rewrite E. auto.
Qed.

Lemma station_by_id_update_other id id' v now l :
  id' <> id ->
  station_by_id id' (update_available id v now l) = station_by_id id' l.
Proof.
  intros Hne. unfold station_by_id, update_available.
  induction l as [|h t IH]; simpl; [reflexivity|].
  destruct (station_id h =? id) eqn:E; simpl.
  - apply Z.eqb_eq in E.
    destruct (station_id h =? id') eqn:E'; [apply Z.eqb_eq in E'; lia|].
    exact IH.
  - destruct (station_id h =? id'); [reflexivity | exact IH].
Qed.

Lemma session_by_id_update id f l s :
  (forall x, session_id (f x) = session_id x) ->
  session_by_id id l = Some s ->
  session_by_id id (update_session id f l) = Some (f s).
Proof.
  intros Hf. unfold session_by_id, update_session.
  induction l as [|h t IH]; simpl; [discriminate|].
  destruct (session_id h =? id) eqn:E.
  - intros [= ->]. simpl. rewrite Hf, E. reflexivity.
  - intros H. simpl. rewrite E. auto.
Qed.

Lemma session_by_id_ended id endT d b e l s :
  session_by_id id l = Some s ->
  session_by_id id (update_session id (with_end endT d b e) l)
  = Some (with_end endT d b e s).
Proof.
  apply session_by_id_update. reflexivity.
Qed.

Lemma update_session_absent id f l :
  ~ In id (map session_id l) -> update_session id f l = l.
Proof.
  unfold update_session.
  induction l as [|h t IH]; simpl; [reflexivity|].
  intros Hn. destruct (session_id h =? id) eqn:E.
  - apply Z.eqb_eq in E. tauto.
  - f_equal. apply IH. tauto.
Qed.

Lemma filter_out_fresh id l :
  Forall (fun s => session_id s < id) l ->
  filter (fun s => negb (session_id s =? id)) l = l.
Proof.
  induction 1 as [|h t Hh Ht IH]; simpl; [reflexivity|].
  destruct (session_id h =? id) eqn:E.
  - apply Z.eqb_eq in E. lia.
  - simpl. f_equal. exact IH.
Qed.

(** ** Rejections that leave the database untouched *)

Lemma start_unknown_station F input user now db :
  validStartInput input = true ->
  station_by_id (in_stationId input) (stations db) = None ->
  in_int4 (in_stationId input) = true ->
  chargingSessions_start F input user now db
  = (Ok (Respond 404 (JsonMessage "Station not found")), db, []).
Proof.
  intros Hv Hs Hr. unfold chargingSessions_start.
  rewrite Hv. run_handler. rewrite Hs, Hr. reflexivity.
Qed.

Lemma start_key_refused F input user now db :
  validStartInput input = true ->
  station_by_id (in_stationId input) (stations db) = None ->
  in_int4 (in_stationId input) = false ->
  chargingSessions_start F input user now db
  = (Thrown (DbError "out of range for type integer"), db, []).
Proof.
  intros Hv Hs Hr. unfold chargingSessions_start.
  rewrite Hv. run_handler. rewrite Hs, Hr. reflexivity.
Qed.

Lemma start_full_station F input user now db station :
  validStartInput input = true ->
  station_by_id (in_stationId input) (stations db) = Some station ->
  available_of station <= 0 ->
  chargingSessions_start F input user now db
  = (Ok (Respond 400 (JsonMessage "No available chargers")), db, []).
Proof.
  intros Hv Hs Ha. unfold chargingSessions_start.
  rewrite Hv. run_handler. rewrite Hs.
  unfold available_of in Ha.
  destruct (Z.leb_spec (nullish (availableChargers station) 0) 0);
    [reflexivity | lia].
Qed.

(** C10, on the code. A start request that passes the body schema
    ([stationId] is any number there) and names a station id with no row
    is answered 404 "Station not found" only when the id is an int4 value.
    For an id outside int4 the station read is refused by the database,
    the handler has no branch for that error and the request ends in it,
    not in 404. In both cases the database is the one the request found
    and no write statement is issued, whatever the storage faults. *)
Theorem start_station_not_found F input user now db :
  validStartInput input = true ->
  station_by_id (in_stationId input) (stations db) = None ->
  chargingSessions_start F input user now db
  = if in_int4 (in_stationId input)
    then (Ok (Respond 404 (JsonMessage "Station not found")), db, [])
    else (Thrown (DbError "out of range for type integer"), db, []).
Proof.
  intros Hv Hs. destruct (in_int4 (in_stationId input)) eqn:Hr.
  - exact (start_unknown_station F input user now db Hv Hs Hr).
  - exact (start_key_refused F input user now db Hv Hs Hr).
Qed.

(** The failing input of C10: station id 2147483648 on a database with
    one station. *)
Lemma start_station_not_found_witness :
  chargingSessions_start noFaults (mkStartInput 2147483648 None (Some 40))
    (Some "alice"%string) 2000 one_charger_db
  = (Thrown (DbError "out of range for type integer"), one_charger_db, []).
Proof.
  exact (start_station_not_found noFaults
           (mkStartInput 2147483648 None (Some 40)) (Some "alice"%string)
           2000 one_charger_db eq_refl eq_refl).
Defined.

(** C2. A start request that passes the body schema, on a station whose
    available-charger count (read with [?? 0]) is not above zero, is
    answered 400 "No available chargers" at once: no session row is
    inserted, no station row is written, and the database is unchanged. *)
Theorem start_no_available_chargers F input user now db station :
  validStartInput input = true ->
  station_by_id (in_stationId input) (stations db) = Some station ->
  available_of station <= 0 ->
  chargingSessions_start F input user now db
  = (Ok (Respond 400 (JsonMessage "No available chargers")), db, []).
Proof.
  exact (start_full_station F input user now db station).
Qed.

Lemma start_no_available_chargers_witness :
  chargingSessions_start noFaults (mkStartInput 1 None None)
    (Some "alice"%string) 2000 full_station_db
  = (Ok (Respond 400 (JsonMessage "No available chargers")),
     full_station_db, []).
Proof.
  apply (@start_no_available_chargers noFaults (mkStartInput 1 None None)
           (Some "alice"%string) 2000 full_station_db
           (mkStation 1 (Some 2) (Some 0) (Some 1000)));
    [reflexivity | reflexivity | vm_compute; discriminate].
Defined.

(** C9. An end request that passes the body schema, made by a requester
    whose id differs from the (non-empty) owner id of the session, is
    answered 403; the database is unchanged and no write statement is
    issued, so neither the session row nor any station counter moves. *)
Theorem end_forbidden F sessionId input requester now db s owner :
  validEndInput input = true ->
  session_by_id sessionId (chargingSessions db) = Some s ->
  userId s = Some owner ->
  owner <> EmptyString ->
  requester <> owner ->
  chargingSessions_end F sessionId input (Some requester) now db
  = (Ok (Respond 403 (JsonMessage "Cannot end another user's session")),
     db, []).
Proof.
  intros Hv Hs Ho Hne Hr. unfold chargingSessions_end.
  rewrite Hv. run_handler. rewrite Hs, Ho.
  cbv beta iota delta [truthy_string strict_neq].
  destruct (String.eqb_spec owner EmptyString) as [|_]; [contradiction|].
  destruct (String.eqb_spec owner requester) as [E|_]; [congruence|].
  reflexivity.
Qed.

Lemma end_forbidden_witness :
  chargingSessions_end noFaults 1 end_input bob 152000 charging_db
  = (Ok (Respond 403 (JsonMessage "Cannot end another user's session")),
     charging_db, []).
Proof.
  apply (@end_forbidden noFaults 1 end_input "bob"%string 152000 charging_db
           alice_session "alice"%string);
    [reflexivity | reflexivity | reflexivity | discriminate | discriminate].
Defined.

(** ** The two session handlers, step by step *)

Lemma owner_check_passes (s : ChargingSession) (user : option string) :
  userId s = None \/ userId s = user ->
  truthy_string (userId s) && strict_neq (userId s) user = false.
Proof.
  intros [H|H]; rewrite H; [reflexivity|].
  destruct user as [u|]; [|reflexivity].
  simpl. rewrite String.eqb_refl. simpl. apply andb_false_r.
Qed.

(** Past its guards the end handler updates the session row and then
    runs the release step on the station row it reads next. *)
Lemma end_run F sessionId input user now db s :
  validEndInput input = true ->
  session_by_id sessionId (chargingSessions db) = Some s ->
  truthy_string (userId s) && strict_neq (userId s) user = false ->
  truthy_bool (isActive s) = true ->
  updateSessionFails F = false ->
  let ended := with_end now (duration_at now s) (in_batteryEndPercent input)
                 (in_energyKwh input) s in
  let db1 := set_sessions (update_session sessionId
               (with_end now (duration_at now s) (in_batteryEndPercent input)
                  (in_energyKwh input))) db in
  chargingSessions_end F sessionId input user now db
  = match release_charger F (station_by_id (stationId s) (stations db))
            (stationId s) now db1 with
    | (Ok _, db2, w) => (Ok (Respond 200 (JsonSession ended)), db2, db1 :: w)
    | (Thrown e, db2, w) => (Thrown e, db2, db1 :: w)
    end.
Proof.
  intros Hv Hs Hown Hact HF ended db1.
  unfold chargingSessions_end. rewrite Hv.
  cbv beta iota delta [getSessionById select_by_key bind query negb message ret].
  rewrite Hs. cbv beta iota.
  rewrite Hown, Hact.
  cbv beta iota delta [negb endChargingSession bind query].
  rewrite Hs. cbv beta iota zeta. rewrite HF.
  cbv beta iota delta [commit].
  cbn [chargingSessions set_sessions].
  rewrite (session_by_id_ended sessionId now (duration_at now s)
             (in_batteryEndPercent input) (in_energyKwh input)
             (chargingSessions db) s Hs).
  cbv beta iota delta [getStation_stored_key query].
  cbn [stationId with_end].
  fold db1. change (stations db1) with (stations db).
  destruct (release_charger F (station_by_id (stationId s) (stations db))
              (stationId s) now db1) as [[[u|e] db2] w];
    cbn [app]; rewrite ?app_nil_r; reflexivity.
Qed.

(** Past its guards the start handler inserts the session row, then
    writes the decremented counter; a rejected counter update is
    answered by deleting the row just inserted. *)
Lemma start_run F input user now db station :
  validStartInput input = true ->
  station_by_id (in_stationId input) (stations db) = Some station ->
  0 < available_of station ->
  insertSessionFails F = false ->
  let row := new_session db (in_stationId input) (in_batteryStartPercent input)
               (in_userVehicleId input) user now in
  let db1 := insert_session row db in
  let db2 := set_stations (update_available (in_stationId input)
               (available_of station - 1) now) db1 in
  let db3 := set_sessions
               (filter (fun s => negb (session_id s =? session_id row))) db1 in
  chargingSessions_start F input user now db
  = if updateAvailabilityFails F
    then if deleteSessionFails F
         then (Thrown (DbError "delete charging_sessions"), db1, [db1])
         else (Thrown (DbError "update stations"), db3, [db1; db3])
    else (Ok (Respond 201 (JsonSession row)), db2, [db1; db2]).
Proof.
  intros Hv Hs Ha HF row db1 db2 db3.
  unfold chargingSessions_start. rewrite Hv.
  cbv beta iota delta [getStation select_by_key bind query negb message ret].
  rewrite Hs. cbv beta iota zeta.
  unfold available_of in *.
  destruct (Z.leb_spec (nullish (availableChargers station) 0) 0); [lia|].
  unfold startChargingSession. rewrite HF.
  fold row. fold db1.
  unfold try_catch, updateStationAvailability, deleteSession.
  destruct (updateAvailabilityFails F); [destruct (deleteSessionFails F)|];
    reflexivity.
Qed.

(** The release step writes the station table at most, and only to add
    one to the counter of a station below its total. *)
Lemma release_run F station id now db :
  updateAvailabilityFails F = false ->
  release_charger F station id now db
  = match station with
    | Some st =>
        if available_of st <? total_of st
        then let db' := set_stations
                          (update_available id (available_of st + 1) now) db in
             (Ok tt, db', [db'])
        else (Ok tt, db, [])
    | None => (Ok tt, db, [])
    end.
Proof.
  intros HF. unfold release_charger, available_of, total_of.
  destruct station as [st|]; [|reflexivity].
  destruct (nullish (availableChargers st) 0 <? nullish (chargerCount st) 1);
    [|reflexivity].
  unfold updateStationAvailability. rewrite HF. reflexivity.
Qed.

Lemma release_sessions F station id now db :
  chargingSessions (finalDB (release_charger F station id now db))
  = chargingSessions db.
Proof.
  unfold release_charger.
  destruct station as [st|]; [|reflexivity].
  destruct (nullish (availableChargers st) 0 <? nullish (chargerCount st) 1);
    [|reflexivity].
  unfold updateStationAvailability.
  destruct (updateAvailabilityFails F); reflexivity.
Qed.

Lemma release_at_capacity F st id now db :
  total_of st <= available_of st ->
  release_charger F (Some st) id now db = (Ok tt, db, []).
Proof.
  intros H. unfold release_charger, available_of, total_of in *.
  destruct (Z.ltb_spec (nullish (availableChargers st) 0)
              (nullish (chargerCount st) 1)); [lia | reflexivity].
Qed.

Lemma is_active_truthy s : isActive s = Some true -> truthy_bool (isActive s) = true.
Proof. intros ->. reflexivity. Qed.

(** C8. When the end handler has passed its guards and ended the session
    (the session update is accepted) but the station already shows all of
    its chargers available, the release step writes nothing: the station
    table is the one before the call, and the caller still receives 200
    with the ended session. *)
Theorem end_at_capacity F sessionId input user now db s st :
  validEndInput input = true ->
  session_by_id sessionId (chargingSessions db) = Some s ->
  userId s = None \/ userId s = user ->
  isActive s = Some true ->
  updateSessionFails F = false ->
  station_by_id (stationId s) (stations db) = Some st ->
  available_of st = total_of st ->
  let r := chargingSessions_end F sessionId input user now db in
  let ended := with_end now (duration_at now s) (in_batteryEndPercent input)
                 (in_energyKwh input) s in
  outcome r = Ok (Respond 200 (JsonSession ended)) /\
  isActive ended = Some false /\
  session_by_id sessionId (chargingSessions (finalDB r)) = Some ended /\
  stations (finalDB r) = stations db.
Proof.
  intros Hv Hs Hown Hact HF Hst Hcap r ended. subst r.
  rewrite (end_run F sessionId input user now db s Hv Hs
             (owner_check_passes s user Hown) (is_active_truthy s Hact) HF).
  cbv zeta. rewrite Hst, release_at_capacity by lia.
  cbn [outcome finalDB fst snd chargingSessions set_sessions stations].
  repeat split.
  apply session_by_id_ended. exact Hs.
Qed.

Lemma end_at_capacity_witness :
  let r := chargingSessions_end noFaults 1 end_input alice 152000 drifted_db in
  let ended := with_end 152000 (duration_at 152000 alice_session) (Some 80)
                 (Some (25 # 2)%Q) alice_session in
  outcome r = Ok (Respond 200 (JsonSession ended)) /\
  isActive ended = Some false /\
  session_by_id 1 (chargingSessions (finalDB r)) = Some ended /\
  stations (finalDB r) = stations drifted_db.
Proof.
  apply (end_at_capacity noFaults 1 end_input alice 152000 drifted_db
           alice_session (mkStation 1 (Some 1) (Some 1) (Some 3000)));
    try reflexivity.
  right; reflexivity.
Defined.

(** ** Single precision and the rounded duration *)









(** ** Ending a session twice *)

Lemma end_already_ended F sessionId input user now db s :
  validEndInput input = true ->
  session_by_id sessionId (chargingSessions db) = Some s ->
  truthy_string (userId s) && strict_neq (userId s) user = false ->
  truthy_bool (isActive s) = false ->
  chargingSessions_end F sessionId input user now db
  = (Ok (Respond 400 (JsonMessage "Session already ended")), db, []).
Proof.
  intros Hv Hs Hown Hact. unfold chargingSessions_end. rewrite Hv.
  run_handler. rewrite Hs, Hown, Hact. reflexivity.
Qed.

(** What a 200 answer of the end handler says about the call. *)
Lemma end_ok_inv F sessionId input user now db ended :
  outcome (chargingSessions_end F sessionId input user now db)
  = Ok (Respond 200 (JsonSession ended)) ->
  validEndInput input = true /\
  exists s,
    session_by_id sessionId (chargingSessions db) = Some s /\
    truthy_string (userId s) && strict_neq (userId s) user = false /\
    truthy_bool (isActive s) = true /\
    updateSessionFails F = false.
Proof.
  unfold chargingSessions_end.
  destruct (validEndInput input) eqn:Hv; [|discriminate].
  cbv beta iota delta [getSessionById select_by_key bind query negb message
                       ret outcome].
  destruct (session_by_id sessionId (chargingSessions db)) as [s|] eqn:Hs;
    [|destruct (in_int4 sessionId); discriminate].
  cbv beta iota.
  destruct (truthy_string (userId s) && strict_neq (userId s) user) eqn:Hown;
    [discriminate|].
  destruct (truthy_bool (isActive s)) eqn:Hact; [|discriminate].
  destruct (updateSessionFails F) eqn:HF.
  - unfold endChargingSession, bind, query. rewrite Hs, HF. discriminate.
  - intros _. split; [reflexivity|]. exists s. auto.
Qed.

(** C3, as the handler has it. If an end request is answered 200, a
    second end request for the same session by the same requester is
    answered 400 "Session already ended" and leaves the database as it is,
    with no write issued. Across the two calls the counter of the
    session's station goes up by one when it was below the station's total
    at the first call, and stays where it was when it was not. *)
Theorem end_twice F sessionId input1 input2 user now1 now2 db ended :
  outcome (chargingSessions_end F sessionId input1 user now1 db)
  = Ok (Respond 200 (JsonSession ended)) ->
  validEndInput input2 = true ->
  let db1 := finalDB (chargingSessions_end F sessionId input1 user now1 db) in
  chargingSessions_end F sessionId input2 user now2 db1
  = (Ok (Respond 400 (JsonMessage "Session already ended")), db1, []) /\
  forall st,
    station_by_id (stationId ended) (stations db) = Some st ->
    exists st1,
      station_by_id (stationId ended) (stations db1) = Some st1 /\
      total_of st1 = total_of st /\
      available_of st1 = if available_of st <? total_of st
                         then available_of st + 1
                         else available_of st.
Proof.
  intros Hok Hv2 db1.
  destruct (end_ok_inv F sessionId input1 user now1 db ended Hok)
    as [Hv1 [s [Hs [Hown [Hact HF]]]]].
  pose proof (end_run F sessionId input1 user now1 db s Hv1 Hs Hown Hact HF)
    as Hrun. cbv zeta in Hrun.
  set (e1 := with_end now1 (duration_at now1 s) (in_batteryEndPercent input1)
               (in_energyKwh input1) s) in *.
  set (dbs := set_sessions (update_session sessionId
                (with_end now1 (duration_at now1 s)
                   (in_batteryEndPercent input1) (in_energyKwh input1))) db)
    in *.
  pose proof (release_sessions F (station_by_id (stationId s) (stations db))
                (stationId s) now1 dbs) as Hsess.
  assert (Hrow1 : session_by_id sessionId (chargingSessions db1) = Some e1
                  /\ ended = e1).
  { subst db1. rewrite Hrun in Hok |- *.
    destruct (release_charger F (station_by_id (stationId s) (stations db))
                (stationId s) now1 dbs) as [[[u|e] db2] w];
      cbn [outcome finalDB fst snd] in *; [|discriminate].
    split; [|congruence].
    rewrite Hsess. subst dbs e1. cbn [chargingSessions set_sessions].
    apply session_by_id_ended. exact Hs. }
  destruct Hrow1 as [Hrow1 Hended].
  split.
  - apply (end_already_ended F sessionId input2 user now2 db1 e1 Hv2 Hrow1).
    + exact Hown.
    + reflexivity.
  - intros st Hst. rewrite Hended in Hst |- *.
    change (stationId e1) with (stationId s) in *.
    subst db1. rewrite Hrun in Hok |- *. rewrite Hst in Hok |- *.
    unfold release_charger in Hok |- *.
    fold (available_of st) in Hok |- *. fold (total_of st) in Hok |- *.
    destruct (available_of st <? total_of st) eqn:Hlt.
    + unfold updateStationAvailability in Hok |- *.
      destruct (updateAvailabilityFails F); [discriminate|].
      cbn [bind commit query ret outcome finalDB fst snd stations set_stations
             app] in *.
      exists (with_available (available_of st + 1) now1 st).
      split; [|split; reflexivity].
      apply station_by_id_update_same. exact Hst.
    + cbn [ret outcome finalDB fst snd] in *.
      exists st. repeat split. exact Hst.
Qed.

Lemma end_twice_witness :
  let db1 := finalDB (chargingSessions_end noFaults 1 end_input alice 152000
                        charging_db) in
  chargingSessions_end noFaults 1 (mkEndInput None None) alice 160000 db1
  = (Ok (Respond 400 (JsonMessage "Session already ended")), db1, []) /\
  forall st,
    station_by_id 1 (stations charging_db) = Some st ->
    exists st1,
      station_by_id 1 (stations db1) = Some st1 /\
      total_of st1 = total_of st /\
      available_of st1 = if available_of st <? total_of st
                         then available_of st + 1
                         else available_of st.
Proof.
  apply (end_twice noFaults 1 end_input (mkEndInput None None) alice
           152000 160000 charging_db
           (with_end 152000 (Some 3) (Some 80) (Some (25 # 2)%Q)
              alice_session));
    reflexivity.
Defined.

Lemma reachable_run_requests rs : forall db,
  reachable db -> reachable (run_requests rs db).
Proof.
  induction rs as [|[r now] rs IH]; intros db H; simpl; [exact H|].
  apply IH. apply reachable_step. exact H.
Qed.

(** C3, counterexample. The station has one charger. Alice starts a
    session (counter 1 -> 0); an availability update sets the counter
    back to 1; alice ends the session (200) and ends it again (400
    "Session already ended"). The counter is 1 before the first end call
    and 1 after the second: it was not incremented at all. *)
Lemma end_twice_counter_not_incremented :
  let r1 := chargingSessions_end noFaults 1 end_input alice 152000 drifted_db in
  let r2 := chargingSessions_end noFaults 1 end_input alice 160000 (finalDB r1) in
  reachable drifted_db /\
  (exists ended, outcome r1 = Ok (Respond 200 (JsonSession ended))) /\
  outcome r2 = Ok (Respond 400 (JsonMessage "Session already ended")) /\
  option_map available_of (station_by_id 1 (stations drifted_db)) = Some 1 /\
  option_map total_of (station_by_id 1 (stations drifted_db)) = Some 1 /\
  option_map available_of (station_by_id 1 (stations (finalDB r2))) = Some 1.
Proof.
  cbv zeta. split; [|split; [|split; [|split; [|split]]]].
  - apply reachable_run_requests. apply reachable_empty.
  - eexists. vm_compute. reflexivity.
  - vm_compute. reflexivity.
  - vm_compute. reflexivity.
  - vm_compute. reflexivity.
  - vm_compute. reflexivity.
Qed.

(** ** Starting a session: rollback and order of the writes *)

Lemma start_insert_rejected F input user now db station :
  validStartInput input = true ->
  station_by_id (in_stationId input) (stations db) = Some station ->
  0 < available_of station ->
  insertSessionFails F = true ->
  chargingSessions_start F input user now db
  = (Thrown (DbError "insert charging_sessions"), db, []).
Proof.
  intros Hv Hs Ha HF. unfold chargingSessions_start. rewrite Hv.
  cbv beta iota delta [getStation select_by_key bind query negb message ret].
  rewrite Hs. cbv beta iota zeta.
  unfold available_of in *.
  destruct (Z.leb_spec (nullish (availableChargers station) 0) 0); [lia|].
  unfold startChargingSession. rewrite HF. reflexivity.
Qed.

Lemma delete_inserted_session db row :
  session_keys_ok db ->
  session_id row = charging_sessions_id_seq db ->
  filter (fun s => negb (session_id s =? session_id row))
    (chargingSessions (insert_session row db))
  = chargingSessions db.
Proof.
  intros [_ Hlt] Hid. cbn [insert_session chargingSessions].
  rewrite filter_app. simpl. rewrite Z.eqb_refl. simpl.
  rewrite app_nil_r. apply filter_out_fresh. rewrite Hid. exact Hlt.
Qed.

(** C4, as the code has it. Take a start request that has passed the
    schema and the capacity check (the station exists and shows a free
    charger). If the session insert or the counter update that follows is
    rejected, and the compensating delete is accepted, the request ends in
    the error, and the station table and the session table are those
    before the call: no session of this call remains and the counter has
    its old value; [getActiveSession] and [getStation] answer as before
    the call. *)
Theorem start_rollback F input user now db station :
  session_keys_ok db ->
  validStartInput input = true ->
  station_by_id (in_stationId input) (stations db) = Some station ->
  0 < available_of station ->
  insertSessionFails F = true \/ updateAvailabilityFails F = true ->
  deleteSessionFails F = false ->
  let r := chargingSessions_start F input user now db in
  (exists e, outcome r = Thrown e) /\
  stations (finalDB r) = stations db /\
  chargingSessions (finalDB r) = chargingSessions db /\
  (forall S, outcome (getActiveSession S (finalDB r))
             = outcome (getActiveSession S db)) /\
  (forall S, outcome (getStation S (finalDB r)) = outcome (getStation S db)).
Proof.
  intros Hk Hv Hs Ha Hfault Hdel r.
  assert (H : (exists e, outcome r = Thrown e) /\
              stations (finalDB r) = stations db /\
              chargingSessions (finalDB r) = chargingSessions db).
  { subst r. destruct (insertSessionFails F) eqn:Hins.
    - rewrite (start_insert_rejected F input user now db station Hv Hs Ha Hins).
      cbn [outcome finalDB fst snd]. eauto.
    - destruct Hfault as [Hc|Hupd]; [discriminate|].
      rewrite (start_run F input user now db station Hv Hs Ha Hins).
      cbv zeta. rewrite Hupd, Hdel.
      cbn [outcome finalDB fst snd stations chargingSessions set_sessions].
      split; [eauto|]. split; [reflexivity|].
      apply delete_inserted_session; [exact Hk | reflexivity]. }
  destruct H as [He [Hst Hse]].
  repeat split; try assumption.
  - intros S. unfold getActiveSession, select_by_key. rewrite Hse.
    destruct (find _ (chargingSessions db)); [reflexivity|].
    destruct (in_int4 S); reflexivity.
  - intros S. unfold getStation, select_by_key. rewrite Hst.
    destruct (station_by_id S (stations db)); [reflexivity|].
    destruct (in_int4 S); reflexivity.
Qed.

Lemma start_rollback_witness :
  let r := chargingSessions_start (mkFaults false true false false)
             (mkStartInput 1 None (Some 40)) alice 2000 one_charger_db in
  (exists e, outcome r = Thrown e) /\
  stations (finalDB r) = stations one_charger_db /\
  chargingSessions (finalDB r) = chargingSessions one_charger_db /\
  (forall S, outcome (getActiveSession S (finalDB r))
             = outcome (getActiveSession S one_charger_db)) /\
  (forall S, outcome (getStation S (finalDB r))
             = outcome (getStation S one_charger_db)).
Proof.
  apply (start_rollback (mkFaults false true false false)
           (mkStartInput 1 None (Some 40)) alice 2000 one_charger_db
           (mkStation 1 (Some 1) (Some 1) (Some 1000))).
  - split; [constructor | constructor].
  - reflexivity.
  - reflexivity.
  - reflexivity.
  - right; reflexivity.
  - reflexivity.
Defined.

(** C4 as worded fails when the handler's own compensation is rejected:
    with the counter update and then the delete both refused, the request
    ends in an error while the session it inserted stays in the table,
    active, and [getActiveSession], which answered null before the call,
    now answers that session. *)
Lemma start_rollback_not_undone :
  let F := mkFaults false true true false in
  let r := chargingSessions_start F (mkStartInput 1 None (Some 40)) alice 2000
             one_charger_db in
  (exists e, outcome r = Thrown e) /\
  chargingSessions one_charger_db = [] /\
  chargingSessions (finalDB r) = [alice_session] /\
  outcome (getActiveSession 1 one_charger_db) = Ok None /\
  outcome (getActiveSession 1 (finalDB r)) = Ok (Some alice_session) /\
  chargingSessions (finalDB r) <> chargingSessions one_charger_db.
Proof.
  cbv zeta. split; [eexists; vm_compute; reflexivity|].
  repeat split; try (vm_compute; reflexivity).
  vm_compute. discriminate.
Qed.

(** C5, as the handler has it. In a start request that succeeds, the
    first write inserts the session row while the station table is still
    the one before the call; the second write, which ends the request,
    sets the station's counter to one less. The session exists before the
    counter is decremented. *)
Theorem start_inserts_then_decrements input user now db station :
  validStartInput input = true ->
  station_by_id (in_stationId input) (stations db) = Some station ->
  0 < available_of station ->
  let r := chargingSessions_start noFaults input user now db in
  let row := new_session db (in_stationId input) (in_batteryStartPercent input)
               (in_userVehicleId input) user now in
  outcome r = Ok (Respond 201 (JsonSession row)) /\
  writes r = [insert_session row db; finalDB r] /\
  chargingSessions (insert_session row db) = chargingSessions db ++ [row] /\
  stations (insert_session row db) = stations db /\
  chargingSessions (finalDB r) = chargingSessions db ++ [row] /\
  station_by_id (in_stationId input) (stations (finalDB r))
  = Some (with_available (available_of station - 1) now station).
Proof.
  intros Hv Hs Ha r row. subst r.
  rewrite (start_run noFaults input user now db station Hv Hs Ha eq_refl).
  cbv zeta. cbn [noFaults updateAvailabilityFails outcome finalDB writes
                   fst snd].
  fold row. repeat split.
  cbn [set_stations stations insert_session].
  apply station_by_id_update_same. exact Hs.
Qed.

Lemma start_inserts_then_decrements_witness :
  let r := chargingSessions_start noFaults (mkStartInput 1 None (Some 40))
             alice 2000 one_charger_db in
  outcome r = Ok (Respond 201 (JsonSession alice_session)) /\
  writes r = [insert_session alice_session one_charger_db; finalDB r] /\
  chargingSessions (insert_session alice_session one_charger_db)
  = chargingSessions one_charger_db ++ [alice_session] /\
  stations (insert_session alice_session one_charger_db)
  = stations one_charger_db /\
  chargingSessions (finalDB r)
  = chargingSessions one_charger_db ++ [alice_session] /\
  station_by_id 1 (stations (finalDB r))
  = Some (with_available 0 2000 (mkStation 1 (Some 1) (Some 1) (Some 1000))).
Proof.
  apply (start_inserts_then_decrements (mkStartInput 1 None (Some 40)) alice
           2000 one_charger_db (mkStation 1 (Some 1) (Some 1) (Some 1000)));
    reflexivity.
Defined.

(** C5, counterexample. On the one-charger station the start request
    succeeds, and the database after its first write already holds the new
    session 1, active, while the station's counter still reads 1, the
    value before the call. *)
Lemma start_session_exists_before_decrement :
  let r := chargingSessions_start noFaults (mkStartInput 1 None (Some 40))
             alice 2000 one_charger_db in
  exists mid,
    nth_error (writes r) 0 = Some mid /\
    outcome r = Ok (Respond 201 (JsonSession alice_session)) /\
    session_by_id 1 (chargingSessions one_charger_db) = None /\
    session_by_id 1 (chargingSessions mid) = Some alice_session /\
    isActive alice_session = Some true /\
    option_map availableChargers (station_by_id 1 (stations one_charger_db))
    = Some (Some 1) /\
    option_map availableChargers (station_by_id 1 (stations mid))
    = Some (Some 1) /\
    option_map availableChargers (station_by_id 1 (stations (finalDB r)))
    = Some (Some 0).
Proof.
  cbv zeta. eexists. split; [vm_compute; reflexivity|].
  repeat split; vm_compute; reflexivity.
Qed.

(** ** Counting active sessions *)

Lemma activeSessionCount_eq db S :
  activeSessionCount db S
  = Z.of_nat (List.length (filter (active_at S) (chargingSessions db))).
Proof. reflexivity. Qed.

Lemma active_count_insert db row S :
  activeSessionCount (insert_session row db) S
  = activeSessionCount db S + (if active_at S row then 1 else 0).
Proof.
  rewrite !activeSessionCount_eq. cbn [insert_session chargingSessions].
  rewrite filter_app, length_app, Nat2Z.inj_add. simpl.
  destruct (active_at S row); reflexivity.
Qed.

Lemma active_count_end sid f l s S :
  (forall x, stationId (f x) = stationId x) ->
  (forall x, is_active (f x) = false) ->
  NoDup (map session_id l) ->
  session_by_id sid l = Some s ->
  is_active s = true ->
  Z.of_nat (List.length (filter (active_at S) (update_session sid f l)))
  = Z.of_nat (List.length (filter (active_at S) l))
    - (if stationId s =? S then 1 else 0).
Proof.
  intros Hst Hina. unfold session_by_id.
  induction l as [|h t IH]; intros Hnd Hfind Hact; [discriminate|].
  inversion Hnd as [|? ? Hnotin Hnd']; subst.
  cbn [find] in Hfind. cbn [update_session map].
  destruct (session_id h =? sid) eqn:E.
  - injection Hfind as ->. apply Z.eqb_eq in E. subst sid.
    fold (update_session (session_id s) f t).
    rewrite (update_session_absent (session_id s) f t Hnotin).
    assert (Hended : active_at S (f s) = false)
      by (unfold active_at; rewrite Hina; apply andb_false_r).
    assert (Hbefore : active_at S s = (stationId s =? S))
      by (unfold active_at; rewrite Hact; apply andb_true_r).
    cbn [filter]. rewrite Hended, Hbefore.
    destruct (stationId s =? S); cbn [List.length]; lia.
  - fold (update_session sid f t).
    specialize (IH Hnd' Hfind Hact).
    cbn [filter]. destruct (active_at S h); cbn [List.length]; lia.
Qed.

Lemma truthy_is_active s : truthy_bool (isActive s) = true -> is_active s = true.
Proof.
  unfold truthy_bool, is_active. destruct (isActive s) as [[|]|]; auto.
Qed.

(** ** What a request leaves behind *)

Lemma start_final input user now db :
  finalDB (chargingSessions_start noFaults input user now db) = db \/
  exists station,
    station_by_id (in_stationId input) (stations db) = Some station /\
    0 < available_of station /\
    finalDB (chargingSessions_start noFaults input user now db)
    = set_stations
        (update_available (in_stationId input) (available_of station - 1) now)
        (insert_session
           (new_session db (in_stationId input) (in_batteryStartPercent input)
              (in_userVehicleId input) user now) db).
Proof.
  destruct (validStartInput input) eqn:Hv.
  - destruct (station_by_id (in_stationId input) (stations db))
      as [station|] eqn:Hs.
    + destruct (Z.leb_spec (available_of station) 0) as [Hle|Hlt].
      * left.
        rewrite (start_full_station noFaults input user now db
                   station Hv Hs Hle). reflexivity.
      * right. exists station. split; [reflexivity|]. split; [exact Hlt|].
        rewrite (start_run noFaults input user now db station Hv Hs Hlt
                   eq_refl). reflexivity.
    + left. destruct (in_int4 (in_stationId input)) eqn:Hr.
      * rewrite (start_unknown_station noFaults input user now db Hv Hs Hr).
        reflexivity.
      * rewrite (start_key_refused noFaults input user now db Hv Hs Hr).
        reflexivity.
  - left. unfold chargingSessions_start. rewrite Hv. reflexivity.
Qed.

Lemma end_final sessionId input user now db :
  finalDB (chargingSessions_end noFaults sessionId input user now db) = db \/
  exists s,
    session_by_id sessionId (chargingSessions db) = Some s /\
    is_active s = true /\
    finalDB (chargingSessions_end noFaults sessionId input user now db)
    = finalDB
        (release_charger noFaults
           (station_by_id (stationId s) (stations db)) (stationId s) now
           (set_sessions
              (update_session sessionId
                 (with_end now (duration_at now s)
                    (in_batteryEndPercent input) (in_energyKwh input))) db)).
Proof.
  destruct (validEndInput input) eqn:Hv.
  - destruct (session_by_id sessionId (chargingSessions db)) as [s|] eqn:Hs.
    + destruct (truthy_string (userId s) && strict_neq (userId s) user)
        eqn:Hown.
      * left. unfold chargingSessions_end. rewrite Hv. run_handler.
        rewrite Hs, Hown. reflexivity.
      * destruct (truthy_bool (isActive s)) eqn:Hact.
        -- right. exists s. split; [reflexivity|].
           split; [apply truthy_is_active; exact Hact|].
           rewrite (end_run noFaults sessionId input user now db s Hv Hs
                      Hown Hact eq_refl).
           cbv zeta.
           destruct (release_charger _ _ _ _ _) as [[[u|e] db2] w];
             reflexivity.
        -- left.
           rewrite (end_already_ended noFaults sessionId input user now db s
                      Hv Hs Hown Hact). reflexivity.
    + left. unfold chargingSessions_end. rewrite Hv. run_handler.
      rewrite Hs. destruct (in_int4 sessionId); reflexivity.
  - left. unfold chargingSessions_end. rewrite Hv. reflexivity.
Qed.

(** ** The ledger equality *)

Lemma start_preserves_balance input user now db S :
  balanced db S ->
  balanced (finalDB (chargingSessions_start noFaults input user now db)) S.
Proof.
  intros Hbal.
  destruct (start_final input user now db) as [->|[station [Hs [Ha ->]]]];
    [apply Hbal|].
  set (row := new_session db (in_stationId input) (in_batteryStartPercent input)
                (in_userVehicleId input) user now).
  intros s' Hs'. cbn [set_stations stations insert_session] in Hs'.
  change (activeSessionCount (set_stations _ (insert_session row db)) S)
    with (activeSessionCount (insert_session row db) S).
  rewrite active_count_insert.
  unfold active_at. change (stationId row) with (in_stationId input).
  change (is_active row) with true. rewrite andb_true_r.
  destruct (Z.eqb_spec (in_stationId input) S) as [<-|Hne].
  - rewrite (station_by_id_update_same _ _ _ _ _ Hs) in Hs'.
    injection Hs' as <-.
    specialize (Hbal station Hs).
    unfold available_of, total_of in *. cbn [with_available availableChargers
      chargerCount nullish]. lia.
  - rewrite station_by_id_update_other in Hs' by congruence.
    specialize (Hbal s' Hs'). lia.
Qed.

Lemma end_preserves_balance sessionId input user now db S :
  session_keys_ok db ->
  balanced db S ->
  balanced (finalDB (chargingSessions_end noFaults sessionId input
                       user now db)) S.
Proof.
  intros [Hnd _] Hbal.
  destruct (end_final sessionId input user now db) as [->|[s [Hs [Hact ->]]]];
    [apply Hbal|].
  set (f := with_end now (duration_at now s) (in_batteryEndPercent input)
              (in_energyKwh input)).
  set (dbs := set_sessions (update_session sessionId f) db).
  assert (Hcount : forall db2, chargingSessions db2 = chargingSessions dbs ->
            activeSessionCount db2 S
            = activeSessionCount db S - (if stationId s =? S then 1 else 0)).
  { intros db2 E. rewrite !activeSessionCount_eq, E.
    subst dbs. cbn [set_sessions chargingSessions].
    apply active_count_end; auto. }
  pose proof (Hcount _ (release_sessions noFaults
                          (station_by_id (stationId s) (stations db))
                          (stationId s) now dbs)) as Hc.
  assert (Hnonneg : 0 <= activeSessionCount
            (finalDB (release_charger noFaults
               (station_by_id (stationId s) (stations db)) (stationId s)
               now dbs)) S)
    by (rewrite activeSessionCount_eq; apply Nat2Z.is_nonneg).
  rewrite release_run in * by reflexivity.
  intros s' Hs'.
  destruct (Z.eqb_spec (stationId s) S) as [<-|Hne].
  - destruct (station_by_id (stationId s) (stations db)) as [st|] eqn:Hst.
    + specialize (Hbal st Hst).
      destruct (Z.ltb_spec (available_of st) (total_of st)) as [Hlt|Hge].
      * cbn [finalDB fst snd set_stations stations] in *.
        subst dbs. cbn [set_sessions stations] in Hs'.
        rewrite (station_by_id_update_same _ _ _ _ _ Hst) in Hs'.
        injection Hs' as <-.
        unfold available_of, total_of in *.
        cbn [with_available availableChargers chargerCount nullish]. lia.
      * lia.
    + cbn [finalDB fst snd] in Hs'. subst dbs.
      cbn [set_sessions stations] in Hs'. congruence.
  - assert (Hsame : station_by_id S (stations db) = Some s').
    { destruct (station_by_id (stationId s) (stations db)) as [st|];
        [destruct (available_of st <? total_of st)|];
        cbn [finalDB fst snd set_stations stations] in Hs';
        subst dbs; cbn [set_sessions stations] in Hs';
        try exact Hs'.
      rewrite station_by_id_update_other in Hs' by congruence. exact Hs'. }
    specialize (Hbal s' Hsame). lia.
Qed.

(** C1, as the handlers have it. When requests are handled one at a
    time (each handler runs from its first read to its last write with no
    other request in between) and no statement is rejected, a start
    request and an end request, whatever their input, each carry the
    equality [availableChargers + active sessions = chargerCount] at a
    station [S] from the database they find (with distinct session keys)
    to the database they leave. Only the equality at [S] is assumed: the
    other stations need not satisfy it. *)
Theorem session_requests_preserve_balance db now S :
  session_keys_ok db ->
  balanced db S ->
  (forall input user,
     balanced (finalDB (chargingSessions_start noFaults input user now db)) S)
  /\
  (forall sessionId input user,
     balanced (finalDB (chargingSessions_end noFaults sessionId input user
                          now db)) S).
Proof.
  intros Hk Hbal. split.
  - intros input user. apply start_preserves_balance. exact Hbal.
  - intros sessionId input user. apply end_preserves_balance; assumption.
Qed.

(** The witness is taken on two rows of the seed: station 1 starts with 2
    of 4 chargers available and no session, so the equality fails there,
    and it is carried along at station 5 all the same. *)
Lemma session_requests_preserve_balance_witness :
  ~ balanced seeded_db 1 /\
  (forall input user,
     balanced (finalDB (chargingSessions_start noFaults input user 2000
                          seeded_db)) 5)
  /\
  (forall sessionId input user,
     balanced (finalDB (chargingSessions_end noFaults sessionId input user
                          2000 seeded_db)) 5).
Proof.
  split.
  - intros H. specialize (H (mkStation 1 (Some 4) (Some 2) (Some 0)) eq_refl).
    vm_compute in H. discriminate.
  - apply (session_requests_preserve_balance seeded_db 2000 5).
    + split; [constructor | constructor].
    + intros s H. vm_compute in H. injection H as <-. reflexivity.
Defined.

(** C1, counterexample. From the empty database, creating a station with
    two chargers, both available, gives a reachable database in which the
    equality holds at every station. The availability update to 1 is
    accepted (200) and leaves station 1 with 1 available charger, no
    active session and 2 chargers: 1 + 0 <> 2. Creating a station with 4
    chargers of which 2 are available breaks the equality as well. *)
Lemma update_availability_breaks_balance :
  let r := stations_updateAvailability noFaults 1 1 3000 two_charger_db in
  reachable two_charger_db /\
  (forall S, balanced two_charger_db S) /\
  reachable (finalDB r) /\
  (exists st, outcome r = Ok (Respond 200 (JsonStation (Some st)))) /\
  ~ balanced (finalDB r) 1 /\
  ~ balanced (finalDB (stations_create (mkInsertStation (Given 4) (Given 2))
                         1000 emptyDB)) 1.
Proof.
  cbv zeta. split; [|split; [|split; [|split; [|split]]]].
  - apply reachable_run_requests. apply reachable_empty.
  - intros S s H.
    change (stations two_charger_db)
      with [mkStation 1 (Some 2) (Some 2) (Some 1000)] in H.
    unfold station_by_id in H. cbn [find station_id] in H.
    destruct (1 =? S); [|discriminate].
    injection H as <-. reflexivity.
  - apply (reachable_step two_charger_db (UpdateAvailability 1 1) 3000).
    apply reachable_run_requests. apply reachable_empty.
  - eexists. vm_compute. reflexivity.
  - intros H. specialize (H _ eq_refl). vm_compute in H. discriminate.
  - intros H. specialize (H _ eq_refl). vm_compute in H. discriminate.
Qed.

(** ** Session keys in reachable databases *)

Lemma release_seq F station id now db :
  charging_sessions_id_seq (finalDB (release_charger F station id now db))
  = charging_sessions_id_seq db.
Proof.
  unfold release_charger.
  destruct station as [st|]; [|reflexivity].
  destruct (nullish (availableChargers st) 0 <? nullish (chargerCount st) 1);
    [|reflexivity].
  unfold updateStationAvailability.
  destruct (updateAvailabilityFails F); reflexivity.
Qed.

Lemma update_session_ids id f l :
  (forall x, session_id (f x) = session_id x) ->
  map session_id (update_session id f l) = map session_id l.
Proof.
  intros Hf. unfold update_session. rewrite map_map.
  apply map_ext. intros x. destruct (session_id x =? id); auto.
Qed.

Lemma update_availability_sessions id v now db :
  chargingSessions (finalDB (stations_updateAvailability noFaults id v now db))
  = chargingSessions db /\
  charging_sessions_id_seq
    (finalDB (stations_updateAvailability noFaults id v now db))
  = charging_sessions_id_seq db.
Proof.
  unfold stations_updateAvailability.
  destruct (v <? 0); [split; reflexivity|].
  run_handler.
  destruct (station_by_id id (stations db)) as [st|];
    [|destruct (in_int4 id); split; reflexivity].
  destruct (v >? or_else (chargerCount st) 1); split; reflexivity.
Qed.

(** The creation route answers 400 on a counter outside int4 and writes
    nothing; otherwise it appends the row with the next key. *)
Lemma create_cases ins now db :
  stations_create ins now db
  = (Ok (Respond 400 (JsonFieldError "chargerCount")), db, []) \/
  stations_create ins now db
  = (Ok (Respond 400 (JsonFieldError "availableChargers")), db, []) \/
  (validInsertStation ins = true /\
   stations_create ins now db
   = let row := mkStation (stations_id_seq db)
                  (stored 1 (ins_chargerCount ins))
                  (stored 1 (ins_availableChargers ins)) (Some now) in
     let db' := mkDB (stations db ++ [row]) (chargingSessions db)
                  (stations_id_seq db + 1) (charging_sessions_id_seq db) in
     (Ok (Respond 201 (JsonStation (Some row))), db', [db'])).
Proof.
  unfold stations_create, validInsertStation.
  destruct (int4_ok (ins_chargerCount ins)); [|left; reflexivity].
  destruct (int4_ok (ins_availableChargers ins));
    [|right; left; reflexivity].
  right; right. split; reflexivity.
Qed.

Lemma handle_keeps_session_keys r now db :
  session_keys_ok db -> session_keys_ok (finalDB (handle noFaults r now db)).
Proof.
  intros [Hnd Hlt]. destruct r as [ins|id v|input user|sid input user];
    cbn [handle].
  - destruct (create_cases ins now db) as [->|[->|[_ ->]]]; split; assumption.
  - destruct (update_availability_sessions id v now db) as [E1 E2].
    unfold session_keys_ok. rewrite E1, E2. split; assumption.
  - destruct (start_final input user now db) as [->|[station [_ [_ ->]]]];
      [split; assumption|].
    unfold session_keys_ok.
    cbn [set_stations insert_session chargingSessions
           charging_sessions_id_seq new_session].
    split.
    + rewrite map_app. cbn [map session_id].
      apply NoDup_app; [exact Hnd | repeat constructor; intros [] |].
      intros x Hx [<-|[]]. apply in_map_iff in Hx.
      destruct Hx as [s [Hid Hin]].
      rewrite Forall_forall in Hlt. specialize (Hlt s Hin).
      cbv beta in Hlt. cbn [new_session session_id] in Hid. lia.
    + apply Forall_app. split.
      * eapply Forall_impl; [|exact Hlt]. cbv beta. intros; lia.
      * repeat constructor. cbn [new_session session_id]. lia.
  - destruct (end_final sid input user now db) as [->|[s [_ [_ ->]]]];
      [split; assumption|].
    unfold session_keys_ok. rewrite release_sessions, release_seq.
    cbn [set_sessions chargingSessions charging_sessions_id_seq].
    split.
    + rewrite update_session_ids by reflexivity. exact Hnd.
    + unfold update_session. apply Forall_map.
      eapply Forall_impl; [|exact Hlt]. cbv beta.
      intros x Hx. destruct (session_id x =? sid); exact Hx.
Qed.

Lemma reachable_session_keys db : reachable db -> session_keys_ok db.
Proof.
  induction 1 as [|db r now _ IH].
  - split; constructor.
  - apply handle_keeps_session_keys. exact IH.
Qed.

(** ** Counter bounds *)

(** The availability route accepts a value only between zero and the
    station's charger count (read with [|| 1]). *)
Lemma update_availability_guard F id v now db st body :
  station_by_id id (stations db) = Some st ->
  outcome (stations_updateAvailability F id v now db)
  = Ok (Respond 200 body) ->
  0 <= v <= or_else (chargerCount st) 1.
Proof.
  intros Hs. unfold stations_updateAvailability.
  destruct (Z.ltb_spec v 0); [discriminate|].
  run_handler. rewrite Hs.
  destruct (Z.gtb_spec v (or_else (chargerCount st) 1)); [discriminate|].
  intros _. lia.
Qed.

(** C7, at the failing input. [POST /api/stations] with
    [chargerCount = 1] and [availableChargers = 5] is answered 201 and
    stores the row as given: the database is reachable and its station 1
    has 5 available chargers out of 1. Nothing on this path compares the
    two counters, where the availability route rejects such a value. *)
Theorem create_station_exceeds_total :
  let r := stations_create (mkInsertStation (Given 1) (Given 5)) 1000 emptyDB in
  outcome r
  = Ok (Respond 201
          (JsonStation (Some (mkStation 1 (Some 1) (Some 5) (Some 1000))))) /\
  reachable (finalDB r) /\
  station_by_id 1 (stations (finalDB r))
  = Some (mkStation 1 (Some 1) (Some 5) (Some 1000)) /\
  ~ within_capacity (finalDB r) 1 /\
  outcome (stations_updateAvailability noFaults 1 5 2000
             (finalDB (stations_create (mkInsertStation (Given 1) (Given 1))
                         1000 emptyDB)))
  = Ok (Respond 400
          (JsonMessage "Available chargers cannot exceed total chargers")).
Proof.
  cbv zeta. split; [reflexivity|]. split; [|split; [reflexivity|split]].
  - apply (reachable_step emptyDB
             (CreateStation (mkInsertStation (Given 1) (Given 5))) 1000).
    apply reachable_empty.
  - intros H. specialize (H _ eq_refl). vm_compute in H.
    destruct H as [_ H]. apply H. reflexivity.
  - reflexivity.
Qed.

(** Requests other than station creation keep the counter of a station
    with a non-zero charger count between zero and that count. *)
Lemma update_final id v now db :
  finalDB (stations_updateAvailability noFaults id v now db) = db \/
  exists st,
    station_by_id id (stations db) = Some st /\
    0 <= v <= or_else (chargerCount st) 1 /\
    finalDB (stations_updateAvailability noFaults id v now db)
    = set_stations (update_available id v now) db.
Proof.
  unfold stations_updateAvailability.
  destruct (Z.ltb_spec v 0); [left; reflexivity|].
  run_handler.
  destruct (station_by_id id (stations db)) as [st|] eqn:Hs;
    [|left; destruct (in_int4 id); reflexivity].
  destruct (Z.gtb_spec v (or_else (chargerCount st) 1)); [left; reflexivity|].
  right. exists st. split; [reflexivity|]. split; [lia | reflexivity].
Qed.

Lemma or_else_nonzero c : c <> Some 0 -> or_else c 1 = nullish c 1.
Proof.
  destruct c as [z|]; [|reflexivity].
  intros H. simpl. destruct (Z.eqb_spec z 0); [congruence | reflexivity].
Qed.

(** X23. With no statement rejected, a start, end or availability-update
    request keeps the counter of a station between zero and its charger
    count, provided the station's charger count is not stored as 0. *)
Lemma other_requests_keep_capacity r now db S :
  creates_station r = false ->
  nonzero_total db S ->
  within_capacity db S ->
  within_capacity (finalDB (handle noFaults r now db)) S.
Proof.
  intros Hr Hnz Hcap.
  destruct r as [ins|id v|input user|sid input user]; [discriminate| | |];
    cbn [handle].
  - destruct (update_final id v now db) as [->|[st [Hs [Hv ->]]]];
      [exact Hcap|].
    intros s' Hs'. cbn [set_stations stations] in Hs'.
    destruct (Z.eqb_spec id S) as [<-|Hne].
    + rewrite (station_by_id_update_same _ _ _ _ _ Hs) in Hs'.
      injection Hs' as <-.
      rewrite (or_else_nonzero _ (Hnz st Hs)) in Hv.
      unfold available_of, total_of.
      cbn [with_available availableChargers chargerCount nullish]. exact Hv.
    + rewrite station_by_id_update_other in Hs' by congruence.
      exact (Hcap s' Hs').
  - destruct (start_final input user now db) as [->|[st [Hs [Ha ->]]]];
      [exact Hcap|].
    intros s' Hs'. cbn [set_stations stations insert_session] in Hs'.
    destruct (Z.eqb_spec (in_stationId input) S) as [<-|Hne].
    + rewrite (station_by_id_update_same _ _ _ _ _ Hs) in Hs'.
      injection Hs' as <-. specialize (Hcap st Hs).
      unfold available_of, total_of in *.
      cbn [with_available availableChargers chargerCount nullish]. lia.
    + rewrite station_by_id_update_other in Hs' by congruence.
      exact (Hcap s' Hs').
  - destruct (end_final sid input user now db) as [->|[s [_ [_ ->]]]];
      [exact Hcap|].
    rewrite release_run by reflexivity.
    intros s' Hs'.
    destruct (station_by_id (stationId s) (stations db)) as [st|] eqn:Hst;
      [|exact (Hcap s' Hs')].
    destruct (Z.ltb_spec (available_of st) (total_of st)) as [Hlt|Hge];
      [|exact (Hcap s' Hs')].
    cbn [finalDB fst snd set_stations set_sessions stations] in Hs'.
    destruct (Z.eqb_spec (stationId s) S) as [<-|Hne].
    + rewrite (station_by_id_update_same _ _ _ _ _ Hst) in Hs'.
      injection Hs' as <-. specialize (Hcap st Hst).
      unfold available_of, total_of in *.
      cbn [with_available availableChargers chargerCount nullish]. lia.
    + rewrite station_by_id_update_other in Hs' by congruence.
      exact (Hcap s' Hs').
Qed.

(** ** Start times in reachable databases *)

Lemma handle_keeps_sessions_started r now db :
  sessions_started db -> sessions_started (finalDB (handle noFaults r now db)).
Proof.
  intros H. destruct r as [ins|id v|input user|sid input user]; cbn [handle].
  - destruct (create_cases ins now db) as [->|[->|[_ ->]]]; exact H.
  - unfold sessions_started.
    rewrite (proj1 (update_availability_sessions id v now db)). exact H.
  - destruct (start_final input user now db) as [->|[station [_ [_ ->]]]];
      [exact H|].
    unfold sessions_started.
    cbn [set_stations insert_session chargingSessions].
    apply Forall_app. split; [exact H|].
    repeat constructor. cbn [new_session startTime]. discriminate.
  - destruct (end_final sid input user now db) as [->|[s [_ [_ ->]]]];
      [exact H|].
    unfold sessions_started. rewrite release_sessions.
    cbn [set_sessions chargingSessions]. unfold update_session.
    apply Forall_map. eapply Forall_impl; [|exact H]. cbv beta.
    intros x Hx. destruct (session_id x =? sid); exact Hx.
Qed.

Lemma reachable_sessions_started db : reachable db -> sessions_started db.
Proof.
  induction 1 as [|db r now _ IH].
  - constructor.
  - apply handle_keeps_sessions_started. exact IH.
Qed.

(** ** The four routes under any fault plan *)

Lemma release_cases F station id now db :
  release_charger F station id now db = (Ok tt, db, []) \/
  (exists e, release_charger F station id now db = (Thrown e, db, [])) \/
  exists st,
    station = Some st /\ available_of st < total_of st /\
    release_charger F station id now db
    = (Ok tt, set_stations (update_available id (available_of st + 1) now) db,
       [set_stations (update_available id (available_of st + 1) now) db]).
Proof.
  unfold release_charger.
  destruct station as [st|]; [|left; reflexivity].
  fold (available_of st). fold (total_of st).
  destruct (Z.ltb_spec (available_of st) (total_of st)) as [Hlt|Hge];
    [|left; reflexivity].
  unfold updateStationAvailability.
  destruct (updateAvailabilityFails F).
  - right; left. eexists. reflexivity.
  - right; right. exists st. repeat split. exact Hlt.
Qed.

Lemma update_cases F id v now db :
  (exists status body,
     stations_updateAvailability F id v now db
     = (Ok (Respond status body), db, []) /\ 400 <= status < 500) \/
  (exists e, stations_updateAvailability F id v now db = (Thrown e, db, [])) \/
  exists st,
    station_by_id id (stations db) = Some st /\
    0 <= v <= or_else (chargerCount st) 1 /\
    stations_updateAvailability F id v now db
    = (Ok (Respond 200
             (JsonStation
                (station_by_id id (update_available id v now (stations db))))),
       set_stations (update_available id v now) db,
       [set_stations (update_available id v now) db]).
Proof.
  unfold stations_updateAvailability.
  destruct (Z.ltb_spec v 0) as [Hneg|Hpos].
  { left. do 2 eexists. split; [reflexivity | lia]. }
  cbv beta iota delta [getStation select_by_key bind query message ret].
  destruct (station_by_id id (stations db)) as [st|] eqn:Hs.
  2:{ destruct (in_int4 id).
      - left. do 2 eexists. split; [reflexivity | lia].
      - right; left. eexists. reflexivity. }
  destruct (Z.gtb_spec v (or_else (chargerCount st) 1)) as [Hgt|Hle].
  { left. do 2 eexists. split; [reflexivity | lia]. }
  unfold updateStationAvailability.
  destruct (updateAvailabilityFails F).
  - right; left. eexists. reflexivity.
  - right; right. exists st. split; [reflexivity|]. split; [lia|]. reflexivity.
Qed.

Lemma start_cases F input user now db :
  (exists status body,
     chargingSessions_start F input user now db
     = (Ok (Respond status body), db, []) /\ 400 <= status < 500) \/
  (exists e, chargingSessions_start F input user now db = (Thrown e, db, [])) \/
  exists station,
    station_by_id (in_stationId input) (stations db) = Some station /\
    0 < available_of station /\
    let row := new_session db (in_stationId input)
                 (in_batteryStartPercent input) (in_userVehicleId input)
                 user now in
    let db1 := insert_session row db in
    let db2 := set_stations (update_available (in_stationId input)
                 (available_of station - 1) now) db1 in
    let db3 := set_sessions
                 (filter (fun s => negb (session_id s =? session_id row)))
                 db1 in
    chargingSessions_start F input user now db
    = if updateAvailabilityFails F
      then if deleteSessionFails F
           then (Thrown (DbError "delete charging_sessions"), db1, [db1])
           else (Thrown (DbError "update stations"), db3, [db1; db3])
      else (Ok (Respond 201 (JsonSession row)), db2, [db1; db2]).
Proof.
  destruct (validStartInput input) eqn:Hv.
  2:{ left. unfold chargingSessions_start. rewrite Hv.
      do 2 eexists. split; [reflexivity | lia]. }
  destruct (station_by_id (in_stationId input) (stations db))
    as [station|] eqn:Hs.
  2:{ destruct (in_int4 (in_stationId input)) eqn:Hr.
      - left. rewrite (start_unknown_station F input user now db Hv Hs Hr).
        do 2 eexists. split; [reflexivity | lia].
      - right; left.
        rewrite (start_key_refused F input user now db Hv Hs Hr).
        eexists. reflexivity. }
  destruct (Z.leb_spec (available_of station) 0) as [Hle|Hlt].
  { left. rewrite (start_full_station F input user now db station Hv Hs Hle).
    do 2 eexists. split; [reflexivity | lia]. }
  destruct (insertSessionFails F) eqn:Hins.
  - right; left.
    rewrite (start_insert_rejected F input user now db station Hv Hs Hlt Hins).
    eexists. reflexivity.
  - right; right. exists station. split; [reflexivity|]. split; [exact Hlt|].
    exact (start_run F input user now db station Hv Hs Hlt Hins).
Qed.

Lemma end_cases F sessionId input user now db :
  (exists status body,
     chargingSessions_end F sessionId input user now db
     = (Ok (Respond status body), db, []) /\ 400 <= status < 500) \/
  (exists e, chargingSessions_end F sessionId input user now db
             = (Thrown e, db, [])) \/
  exists s,
    session_by_id sessionId (chargingSessions db) = Some s /\
    truthy_string (userId s) && strict_neq (userId s) user = false /\
    truthy_bool (isActive s) = true /\
    let ended := with_end now (duration_at now s) (in_batteryEndPercent input)
                   (in_energyKwh input) s in
    let db1 := set_sessions (update_session sessionId
                 (with_end now (duration_at now s)
                    (in_batteryEndPercent input) (in_energyKwh input))) db in
    chargingSessions_end F sessionId input user now db
    = match release_charger F (station_by_id (stationId s) (stations db))
              (stationId s) now db1 with
      | (Ok _, db2, w) => (Ok (Respond 200 (JsonSession ended)), db2, db1 :: w)
      | (Thrown e, db2, w) => (Thrown e, db2, db1 :: w)
      end.
Proof.
  destruct (validEndInput input) eqn:Hv.
  2:{ left. unfold chargingSessions_end. rewrite Hv.
      do 2 eexists. split; [reflexivity | lia]. }
  destruct (session_by_id sessionId (chargingSessions db)) as [s|] eqn:Hs.
  2:{ unfold chargingSessions_end. rewrite Hv. run_handler. rewrite Hs.
      destruct (in_int4 sessionId).
      - left. do 2 eexists. split; [reflexivity | lia].
      - right; left. eexists. reflexivity. }
  destruct (truthy_string (userId s) && strict_neq (userId s) user) eqn:Hown.
  { left. unfold chargingSessions_end. rewrite Hv. run_handler.
    rewrite Hs, Hown. do 2 eexists. split; [reflexivity | lia]. }
  destruct (truthy_bool (isActive s)) eqn:Hact.
  2:{ left.
      rewrite (end_already_ended F sessionId input user now db s Hv Hs Hown
                 Hact).
      do 2 eexists. split; [reflexivity | lia]. }
  destruct (updateSessionFails F) eqn:HF.
  - right; left. unfold chargingSessions_end. rewrite Hv.
    cbv beta iota delta [getSessionById select_by_key bind query negb message
                         ret].
    rewrite Hs. cbv beta iota. rewrite Hown, Hact.
    cbv beta iota delta [negb endChargingSession bind query].
    rewrite Hs. cbv beta iota zeta. rewrite HF.
    eexists. reflexivity.
  - right; right. exists s. repeat split; try assumption.
    exact (end_run F sessionId input user now db s Hv Hs Hown Hact HF).
Qed.

(** ** Rejections have no side effect *)

(** X1. Whatever the fault plan, a request to any of the four routes that
    is answered with a 4xx status leaves the database exactly as it found
    it and issues no write statement. *)
Theorem rejected_requests_change_nothing F r now db status body :
  outcome (handle F r now db) = Ok (Respond status body) ->
  400 <= status < 500 ->
  finalDB (handle F r now db) = db /\ writes (handle F r now db) = [].
Proof.
  intros Hout Hst.
  destruct r as [ins|id v|input user|sid input user]; cbn [handle] in *.
  - destruct (create_cases ins now db) as [E|[E|[_ E]]]; rewrite E in *;
      [split; reflexivity | split; reflexivity |].
    cbv zeta in Hout. cbn [outcome fst] in Hout. injection Hout as <- _. lia.
  - destruct (update_cases F id v now db)
      as [[st' [b' [E _]]]|[[e E]|[st [_ [_ E]]]]]; rewrite E in *.
    + split; reflexivity.
    + discriminate.
    + cbn [outcome fst] in Hout. injection Hout as <- _. lia.
  - destruct (start_cases F input user now db)
      as [[st' [b' [E _]]]|[[e E]|[st [_ [_ E]]]]].
    + rewrite E. split; reflexivity.
    + rewrite E in Hout. discriminate.
    + cbv zeta in E. rewrite E in Hout.
      destruct (updateAvailabilityFails F);
        [destruct (deleteSessionFails F); discriminate|].
      cbn [outcome fst] in Hout. injection Hout as <- _. lia.
  - destruct (end_cases F sid input user now db)
      as [[st' [b' [E _]]]|[[e E]|[s [_ [_ [_ E]]]]]].
    + rewrite E. split; reflexivity.
    + rewrite E in Hout. discriminate.
    + cbv zeta in E. rewrite E in Hout.
      destruct (release_charger F _ _ _ _) as [[[u|e] db2] w];
        [|discriminate].
      cbn [outcome fst] in Hout. injection Hout as <- _. lia.
Qed.

Lemma rejected_requests_change_nothing_witness :
  (finalDB (handle noFaults (StartSession (mkStartInput 1 None None) alice)
              2000 full_station_db) = full_station_db /\
   writes (handle noFaults (StartSession (mkStartInput 1 None None) alice)
             2000 full_station_db) = []) /\
  (finalDB (handle noFaults
              (CreateStation (mkInsertStation (Given 2147483648) (Given 1)))
              2000 full_station_db) = full_station_db /\
   writes (handle noFaults
             (CreateStation (mkInsertStation (Given 2147483648) (Given 1)))
             2000 full_station_db) = []).
Proof.
  split.
  - apply (rejected_requests_change_nothing noFaults
             (StartSession (mkStartInput 1 None None) alice) 2000
             full_station_db 400 (JsonMessage "No available chargers"));
      [reflexivity | lia].
  - apply (rejected_requests_change_nothing noFaults
             (CreateStation (mkInsertStation (Given 2147483648) (Given 1)))
             2000 full_station_db 400 (JsonFieldError "chargerCount"));
      [reflexivity | lia].
Defined.

(** ** Stations are never removed and their charger count never changes *)

Lemma station_by_id_app_old S l row s :
  station_by_id S l = Some s -> station_by_id S (l ++ [row]) = Some s.
Proof.
  unfold station_by_id. induction l as [|h t IH]; simpl; [discriminate|].
  destruct (station_id h =? S); auto.
Qed.

Lemma station_by_id_update S id v now l s :
  station_by_id S l = Some s ->
  exists s', station_by_id S (update_available id v now l) = Some s' /\
             station_id s' = station_id s /\
             chargerCount s' = chargerCount s.
Proof.
  intros H. destruct (Z.eqb_spec S id) as [->|Hne].
  - exists (with_available v now s). split; [|split; reflexivity].
    apply station_by_id_update_same. exact H.
  - exists s. split; [|split; reflexivity].
    rewrite station_by_id_update_other by exact Hne. exact H.
Qed.

Lemma handle_stations_cases F r now db :
  stations (finalDB (handle F r now db)) = stations db \/
  (exists id v, stations (finalDB (handle F r now db))
                = update_available id v now (stations db)) \/
  exists row, stations (finalDB (handle F r now db)) = stations db ++ [row].
Proof.
  destruct r as [ins|id v|input user|sid input user]; cbn [handle].
  - destruct (create_cases ins now db) as [->|[->|[_ ->]]];
      [left; reflexivity | left; reflexivity |].
    right; right. eexists. reflexivity.
  - destruct (update_cases F id v now db)
      as [[st' [b' [E _]]]|[[e E]|[st [_ [_ E]]]]]; rewrite E.
    + left; reflexivity.
    + left; reflexivity.
    + right; left. do 2 eexists. reflexivity.
  - destruct (start_cases F input user now db)
      as [[st' [b' [E _]]]|[[e E]|[st [_ [_ E]]]]].
    + rewrite E. left; reflexivity.
    + rewrite E. left; reflexivity.
    + cbv zeta in E. rewrite E.
      destruct (updateAvailabilityFails F);
        [destruct (deleteSessionFails F); left; reflexivity|].
      right; left. do 2 eexists. reflexivity.
  - destruct (end_cases F sid input user now db)
      as [[st' [b' [E _]]]|[[e E]|[s [_ [_ [_ E]]]]]].
    + rewrite E. left; reflexivity.
    + rewrite E. left; reflexivity.
    + cbv zeta in E. rewrite E.
      destruct (release_cases F (station_by_id (stationId s) (stations db))
                  (stationId s) now
                  (set_sessions (update_session sid
                     (with_end now (duration_at now s)
                        (in_batteryEndPercent input) (in_energyKwh input)))
                     db))
        as [E'|[[e E']|[st [_ [_ E']]]]]; rewrite E'.
      * left; reflexivity.
      * left; reflexivity.
      * right; left. do 2 eexists. reflexivity.
Qed.

(** X2. No request removes a station or changes its id or its charger
    count: a station found before a request is found after it with the
    same [chargerCount], under every fault plan. *)
Theorem charger_count_never_changes F r now db S s :
  station_by_id S (stations db) = Some s ->
  exists s',
    station_by_id S (stations (finalDB (handle F r now db))) = Some s' /\
    station_id s' = station_id s /\
    chargerCount s' = chargerCount s.
Proof.
  intros Hs.
  destruct (handle_stations_cases F r now db) as [E|[[id [v E]]|[row E]]];
    rewrite E.
  - exists s. auto.
  - apply station_by_id_update. exact Hs.
  - exists s. split; [|split; reflexivity].
    apply station_by_id_app_old. exact Hs.
Qed.

Lemma charger_count_never_changes_witness :
  exists s',
    station_by_id 1
      (stations (finalDB (handle noFaults
                            (StartSession (mkStartInput 1 None None) alice)
                            2000 one_charger_db))) = Some s' /\
    station_id s' = 1 /\
    chargerCount s' = Some 1.
Proof.
  exact (charger_count_never_changes noFaults
           (StartSession (mkStartInput 1 None None) alice) 2000
           one_charger_db 1 (mkStation 1 (Some 1) (Some 1) (Some 1000))
           eq_refl).
Defined.

(** ** Session records persist *)

Lemma session_by_id_app_old sid l row s :
  session_by_id sid l = Some s -> session_by_id sid (l ++ [row]) = Some s.
Proof.
  unfold session_by_id. induction l as [|h t IH]; simpl; [discriminate|].
  destruct (session_id h =? sid); auto.
Qed.

Lemma session_by_id_update_other sid id f l :
  (forall x, session_id (f x) = session_id x) ->
  sid <> id ->
  session_by_id sid (update_session id f l) = session_by_id sid l.
Proof.
  intros Hf Hne. unfold session_by_id, update_session.
  induction l as [|h t IH]; simpl; [reflexivity|].
  destruct (session_id h =? id) eqn:E.
  - apply Z.eqb_eq in E. rewrite Hf.
    destruct (Z.eqb_spec (session_id h) sid); [lia | exact IH].
  - destruct (session_id h =? sid); [reflexivity | exact IH].
Qed.

Lemma handle_sessions_cases F r now db :
  session_keys_ok db ->
  chargingSessions (finalDB (handle F r now db)) = chargingSessions db \/
  (exists station battery vehicle user,
     chargingSessions (finalDB (handle F r now db))
     = chargingSessions db
       ++ [new_session db station battery vehicle user now]) \/
  exists sid s b e,
    session_by_id sid (chargingSessions db) = Some s /\
    truthy_bool (isActive s) = true /\
    chargingSessions (finalDB (handle F r now db))
    = update_session sid (with_end now (duration_at now s) b e)
        (chargingSessions db).
Proof.
  intros Hk.
  destruct r as [ins|id v|input user|sid input user]; cbn [handle].
  - destruct (create_cases ins now db) as [->|[->|[_ ->]]]; left; reflexivity.
  - destruct (update_cases F id v now db)
      as [[st' [b' [E _]]]|[[e E]|[st [_ [_ E]]]]]; rewrite E;
      left; reflexivity.
  - destruct (start_cases F input user now db)
      as [[st' [b' [E _]]]|[[e E]|[st [_ [_ E]]]]].
    + rewrite E. left; reflexivity.
    + rewrite E. left; reflexivity.
    + cbv zeta in E. rewrite E.
      destruct (updateAvailabilityFails F);
        [destruct (deleteSessionFails F)|].
      * right; left. do 4 eexists. reflexivity.
      * left. cbn [finalDB fst snd set_sessions chargingSessions].
        apply delete_inserted_session; [exact Hk | reflexivity].
      * right; left. do 4 eexists. reflexivity.
  - destruct (end_cases F sid input user now db)
      as [[st' [b' [E _]]]|[[e E]|[s [Hs [_ [Hact E]]]]]].
    + rewrite E. left; reflexivity.
    + rewrite E. left; reflexivity.
    + right; right.
      exists sid, s, (in_batteryEndPercent input), (in_energyKwh input).
      split; [exact Hs|]. split; [exact Hact|].
      cbv zeta in E. rewrite E.
      pose proof (release_sessions F
                    (station_by_id (stationId s) (stations db)) (stationId s)
                    now
                    (set_sessions (update_session sid
                       (with_end now (duration_at now s)
                          (in_batteryEndPercent input) (in_energyKwh input)))
                       db)) as Hrel.
      destruct (release_charger F _ _ _ _) as [[[u|e] db2] w];
        exact Hrel.
Qed.

(** X3. With distinct session keys, no request of any kind, under any
    fault plan, removes an existing session or changes its station, its
    owner, its start time or its starting battery level; and a session
    that is no longer active is left exactly as it is: ended sessions are
    permanent records. *)
Theorem session_record_persists F r now db sid s :
  session_keys_ok db ->
  session_by_id sid (chargingSessions db) = Some s ->
  exists s',
    session_by_id sid (chargingSessions (finalDB (handle F r now db)))
    = Some s' /\
    stationId s' = stationId s /\
    userId s' = userId s /\
    startTime s' = startTime s /\
    batteryStartPercent s' = batteryStartPercent s /\
    (truthy_bool (isActive s) = false -> s' = s).
Proof.
  intros Hk Hs.
  destruct (handle_sessions_cases F r now db Hk)
    as [E|[[st0 [b0 [v0 [u0 E]]]]|[sid' [s0 [b [e [Hs0 [Hact E]]]]]]]];
    rewrite E.
  - exists s. repeat split; auto.
  - exists s. repeat split; auto. apply session_by_id_app_old. exact Hs.
  - destruct (Z.eqb_spec sid sid') as [<-|Hne].
    + assert (s0 = s) by congruence. subst s0.
      exists (with_end now (duration_at now s) b e s).
      split; [apply session_by_id_ended; exact Hs|].
      repeat split. congruence.
    + exists s. repeat split; auto.
      rewrite session_by_id_update_other by (reflexivity || exact Hne).
      exact Hs.
Qed.

(** Alice's session once ended, on the station of [charging_db]. *)
Lemma session_record_persists_witness :
  let db := finalDB (chargingSessions_end noFaults 1 end_input alice 152000
                       charging_db) in
  let s := with_end 152000 (Some 3) (Some 80) (Some (25 # 2)%Q)
             alice_session in
  exists s',
    session_by_id 1
      (chargingSessions
         (finalDB (handle noFaults (EndSession 1 end_input alice) 160000 db)))
    = Some s' /\
    stationId s' = stationId s /\
    userId s' = userId s /\
    startTime s' = startTime s /\
    batteryStartPercent s' = batteryStartPercent s /\
    (truthy_bool (isActive s) = false -> s' = s).
Proof.
  apply (session_record_persists noFaults (EndSession 1 end_input alice)
           160000
           (finalDB (chargingSessions_end noFaults 1 end_input alice 152000
                       charging_db))
           1
           (with_end 152000 (Some 3) (Some 80) (Some (25 # 2)%Q)
              alice_session)).
  - split; repeat constructor. simpl. tauto.
  - reflexivity.
Defined.

(** ** When a session request is accepted *)

(** X4. With no statement rejected, a start request is answered 201
    exactly when its body passes the schema, the station exists and the
    station's available-charger count (read with [?? 0]) is above zero.
    Nothing else is looked at: neither the station's status nor whether
    the requester already has an active session. *)
Theorem start_accepted_iff input user now db :
  (exists session,
     outcome (chargingSessions_start noFaults input user now db)
     = Ok (Respond 201 (JsonSession session)))
  <->
  (validStartInput input = true /\
   exists station,
     station_by_id (in_stationId input) (stations db) = Some station /\
     0 < available_of station).
Proof.
  split.
  - intros [session Hout].
    destruct (validStartInput input) eqn:Hv.
    2:{ unfold chargingSessions_start in Hout. rewrite Hv in Hout.
        discriminate. }
    split; [reflexivity|].
    destruct (station_by_id (in_stationId input) (stations db))
      as [station|] eqn:Hs.
    2:{ destruct (in_int4 (in_stationId input)) eqn:Hr.
        - rewrite (start_unknown_station noFaults input user now db Hv Hs Hr)
            in Hout. discriminate.
        - rewrite (start_key_refused noFaults input user now db Hv Hs Hr)
            in Hout. discriminate. }
    exists station. split; [reflexivity|].
    destruct (Z.leb_spec (available_of station) 0) as [Hle|Hlt];
      [|exact Hlt].
    rewrite (start_full_station noFaults input user now db station Hv Hs Hle)
      in Hout. discriminate.
  - intros [Hv [station [Hs Ha]]].
    rewrite (start_run noFaults input user now db station Hv Hs Ha eq_refl).
    eexists. reflexivity.
Qed.

Lemma owner_check_iff (s : ChargingSession) (user : option string) :
  truthy_string (userId s) && strict_neq (userId s) user = false
  <->
  (userId s = None \/ userId s = Some EmptyString \/ userId s = user).
Proof.
  split.
  - destruct (userId s) as [o|]; [|auto].
    cbn [truthy_string]. destruct (String.eqb_spec o EmptyString) as [->|Hne];
      [auto|].
    cbn [negb andb]. destruct user as [u|]; cbn [strict_neq];
      [|discriminate].
    destruct (String.eqb_spec o u) as [->|]; [auto | discriminate].
  - intros [H|[H|H]].
    + rewrite H. reflexivity.
    + rewrite H. reflexivity.
    + apply owner_check_passes. right. exact H.
Qed.

(** X5. With no statement rejected, an end request is answered 200
    exactly when its body passes the schema, the session exists, it is
    active, and its owner is absent, empty or the requester. *)
Theorem end_accepted_iff sessionId input user now db :
  (exists ended,
     outcome (chargingSessions_end noFaults sessionId input user now db)
     = Ok (Respond 200 (JsonSession ended)))
  <->
  (validEndInput input = true /\
   exists s,
     session_by_id sessionId (chargingSessions db) = Some s /\
     isActive s = Some true /\
     (userId s = None \/ userId s = Some EmptyString \/ userId s = user)).
Proof.
  split.
  - intros [ended Hout].
    destruct (end_ok_inv noFaults sessionId input user now db ended Hout)
      as [Hv [s [Hs [Hown [Hact _]]]]].
    split; [exact Hv|]. exists s. split; [exact Hs|]. split.
    + unfold truthy_bool in Hact.
      destruct (isActive s) as [[|]|]; congruence.
    + apply owner_check_iff. exact Hown.
  - intros [Hv [s [Hs [Hact Hown]]]].
    apply owner_check_iff in Hown.
    rewrite (end_run noFaults sessionId input user now db s Hv Hs Hown
               (is_active_truthy s Hact) eq_refl).
    cbv zeta. rewrite release_run by reflexivity.
    destruct (station_by_id (stationId s) (stations db)) as [st|];
      [destruct (available_of st <? total_of st)|]; eexists; reflexivity.
Qed.

(** ** A session started and ended *)

Lemma session_by_id_inserted db row :
  session_keys_ok db ->
  session_id row = charging_sessions_id_seq db ->
  session_by_id (session_id row) (chargingSessions (insert_session row db))
  = Some row.
Proof.
  intros [_ Hlt] Hid. cbn [insert_session chargingSessions].
  unfold session_by_id. rewrite Hid.
  induction Hlt as [|h t Hh Ht IH]; simpl.
  - rewrite Hid, Z.eqb_refl. reflexivity.
  - destruct (Z.eqb_spec (session_id h) (charging_sessions_id_seq db));
      [lia | exact IH].
Qed.

(** X6. Start then end restores the ledger. On a station whose counter is
    above zero and not above its charger count, with distinct session keys
    and no statement rejected: a start request is answered 201 with a
    session carrying the next key; when the same requester then ends that
    session the answer is 200, the station's counter is back at the value
    it had before the start, and the number of active sessions at every
    station is what it was. *)
Theorem start_then_end_restores_counter input einput user now1 now2 db station :
  session_keys_ok db ->
  validStartInput input = true ->
  validEndInput einput = true ->
  station_by_id (in_stationId input) (stations db) = Some station ->
  0 < available_of station <= total_of station ->
  let r1 := chargingSessions_start noFaults input user now1 db in
  let row := new_session db (in_stationId input) (in_batteryStartPercent input)
               (in_userVehicleId input) user now1 in
  let r2 := chargingSessions_end noFaults (session_id row) einput user now2
              (finalDB r1) in
  outcome r1 = Ok (Respond 201 (JsonSession row)) /\
  outcome r2
  = Ok (Respond 200
          (JsonSession (with_end now2 (Some (round_minutes (now2 - now1)))
                          (in_batteryEndPercent einput) (in_energyKwh einput)
                          row))) /\
  (exists st2,
     station_by_id (in_stationId input) (stations (finalDB r2)) = Some st2 /\
     available_of st2 = available_of station /\
     total_of st2 = total_of station) /\
  forall S, activeSessionCount (finalDB r2) S = activeSessionCount db S.
Proof.
  intros Hk Hv Hve Hs [Ha Hcap] r1 row r2.
  assert (E1 : r1 = (Ok (Respond 201 (JsonSession row)),
                     set_stations (update_available (in_stationId input)
                       (available_of station - 1) now1)
                       (insert_session row db),
                     [insert_session row db;
                      set_stations (update_available (in_stationId input)
                        (available_of station - 1) now1)
                        (insert_session row db)]))
    by exact (start_run noFaults input user now1 db station Hv Hs Ha eq_refl).
  set (db1 := set_stations (update_available (in_stationId input)
                (available_of station - 1) now1) (insert_session row db))
    in *.
  assert (Hrow : session_by_id (session_id row) (chargingSessions db1)
                 = Some row)
    by (apply (session_by_id_inserted db row Hk); reflexivity).
  assert (Hst1 : station_by_id (stationId row) (stations db1)
                 = Some (with_available (available_of station - 1) now1
                           station))
    by (apply station_by_id_update_same; exact Hs).
  assert (Hk1 : session_keys_ok db1).
  { pose proof (handle_keeps_session_keys (StartSession input user) now1 db Hk)
      as H. cbn [handle] in H. fold r1 in H. rewrite E1 in H. exact H. }
  assert (E2 : r2 = chargingSessions_end noFaults (session_id row) einput user
                      now2 db1)
    by (subst r2; rewrite E1; reflexivity).
  rewrite (end_run noFaults (session_id row) einput user now2 db1 row Hve Hrow
             (owner_check_passes row user (or_intror eq_refl)) eq_refl eq_refl)
    in E2.
  cbv zeta in E2. rewrite Hst1 in E2.
  rewrite release_run in E2 by reflexivity.
  assert (Hfree : (available_of (with_available (available_of station - 1)
                                   now1 station)
                   <? total_of (with_available (available_of station - 1)
                                  now1 station)) = true).
  { apply Z.ltb_lt. unfold available_of, total_of in *.
    cbn [with_available availableChargers chargerCount nullish]. lia. }
  rewrite Hfree in E2. cbv zeta in E2.
  split; [rewrite E1; reflexivity|].
  split; [rewrite E2; reflexivity|].
  rewrite E2. cbn [finalDB fst snd].
  split.
  - exists (with_available
              (available_of (with_available (available_of station - 1) now1
                               station) + 1) now2
              (with_available (available_of station - 1) now1 station)).
    split.
    + cbn [set_stations set_sessions stations].
      apply station_by_id_update_same. exact Hst1.
    + unfold available_of, total_of.
      cbn [with_available availableChargers chargerCount nullish].
      split; [lia | reflexivity].
  - intros S. rewrite !activeSessionCount_eq.
    cbn [set_stations set_sessions chargingSessions].
    rewrite (active_count_end (session_id row)
               (with_end now2 (duration_at now2 row)
                  (in_batteryEndPercent einput) (in_energyKwh einput))
               (chargingSessions db1) row S
               (fun x => eq_refl) (fun x => eq_refl) (proj1 Hk1) Hrow eq_refl).
    change (chargingSessions db1) with (chargingSessions db ++ [row]).
    rewrite filter_app, length_app, Nat2Z.inj_add.
    cbn [filter]. unfold active_at at 2.
    change (is_active row) with true. rewrite andb_true_r.
    destruct (stationId row =? S); cbn [List.length]; lia.
Qed.

Lemma start_then_end_restores_counter_witness :
  let r1 := chargingSessions_start noFaults (mkStartInput 1 None (Some 40))
              alice 2000 one_charger_db in
  let r2 := chargingSessions_end noFaults 1 end_input alice 152000
              (finalDB r1) in
  outcome r1 = Ok (Respond 201 (JsonSession alice_session)) /\
  outcome r2
  = Ok (Respond 200
          (JsonSession (with_end 152000 (Some 3) (Some 80) (Some (25 # 2)%Q)
                          alice_session))) /\
  (exists st2,
     station_by_id 1 (stations (finalDB r2)) = Some st2 /\
     available_of st2 = 1 /\ total_of st2 = 1) /\
  forall S, activeSessionCount (finalDB r2) S
            = activeSessionCount one_charger_db S.
Proof.
  apply (start_then_end_restores_counter (mkStartInput 1 None (Some 40))
           end_input alice 2000 152000 one_charger_db
           (mkStation 1 (Some 1) (Some 1) (Some 1000))).
  - split; constructor.
  - reflexivity.
  - reflexivity.
  - reflexivity.
  - vm_compute. split; [reflexivity | discriminate].
Defined.

(** ** The active-session query *)

Lemma find_none_filter_nil {A} (p : A -> bool) (l : list A) :
  find p l = None <-> filter p l = [].
Proof.
  induction l as [|h t IH]; simpl; [tauto|].
  destruct (p h); [split; discriminate | exact IH].
Qed.

(** X7. The active-session route answers [null] for a station id
    exactly when the id is an int4 value and no session of that station
    is active; when it answers with a session, that session is a stored
    row of the station with [isActive = true]; and for an id outside int4
    with no active session under it (station ids of stored sessions come
    from an int4 column) the query is refused and the request ends in
    that error. *)
Theorem active_session_reported db S :
  (outcome (chargingSessions_getActive S db) = Ok (200, None)
   <-> activeSessionCount db S = 0 /\ in_int4 S = true) /\
  (forall s,
     outcome (chargingSessions_getActive S db) = Ok (200, Some s) ->
     In s (chargingSessions db) /\ stationId s = S /\
     isActive s = Some true /\ 0 < activeSessionCount db S) /\
  (activeSessionCount db S = 0 -> in_int4 S = false ->
   chargingSessions_getActive S db
   = (Thrown (DbError "out of range for type integer"), db, [])).
Proof.
  unfold chargingSessions_getActive, getActiveSession, select_by_key, bind,
    ret, outcome.
  change (fun s : ChargingSession =>
            (stationId s =? S)
            && match isActive s with Some true => true | _ => false end)
    with (active_at S).
  rewrite activeSessionCount_eq.
  destruct (find (active_at S) (chargingSessions db)) as [a|] eqn:Hf.
  - assert (Hpos : 0 < Z.of_nat (List.length
                                   (filter (active_at S) (chargingSessions db)))).
    { destruct (filter (active_at S) (chargingSessions db)) eqn:E;
        [|simpl; lia].
      apply find_none_filter_nil in E. congruence. }
    split; [|split].
    + cbn [fst]. split; [discriminate | intros [H _]; lia].
    + cbn [fst]. intros s H. injection H as <-.
      pose proof (find_some _ _ Hf) as [Hin Hp].
      unfold active_at, is_active in Hp. apply andb_true_iff in Hp.
      destruct Hp as [Hst Hact]. apply Z.eqb_eq in Hst.
      split; [exact Hin|]. split; [exact Hst|]. split; [|exact Hpos].
      destruct (isActive a) as [[|]|]; congruence.
    + intros H. lia.
  - assert (Hzero : Z.of_nat (List.length
                                (filter (active_at S) (chargingSessions db)))
                    = 0)
      by (apply find_none_filter_nil in Hf; rewrite Hf; reflexivity).
    destruct (in_int4 S); cbn [fst].
    + split; [|split].
      * split; [intros _; split; [exact Hzero | reflexivity] | reflexivity].
      * discriminate.
      * discriminate.
    + split; [|split].
      * split; [discriminate | intros [_ H]; discriminate].
      * discriminate.
      * reflexivity.
Qed.

(** ** Repeated start requests *)

(** X8. When the same start request (body passing the schema) is sent
    [k] times in a row to a station whose counter reads [a], with no
    statement rejected, the counter ends at [a] if [a <= 0] and at
    [max 0 (a - k)] otherwise, the charger count is unchanged, and the
    number of active sessions of the station has grown by exactly the
    amount the counter has dropped: the counter never goes below zero and
    no more than [a] of the requests create a session. *)
Theorem repeated_starts input user now k : forall db station,
  validStartInput input = true ->
  station_by_id (in_stationId input) (stations db) = Some station ->
  let db' := run_requests (repeat (StartSession input user, now) k) db in
  exists station',
    station_by_id (in_stationId input) (stations db') = Some station' /\
    total_of station' = total_of station /\
    available_of station'
    = (if available_of station <=? 0 then available_of station
       else Z.max 0 (available_of station - Z.of_nat k)) /\
    activeSessionCount db' (in_stationId input)
    = activeSessionCount db (in_stationId input)
      + (available_of station - available_of station').
Proof.
  induction k as [|k IH]; intros db station Hv Hs db'.
  - subst db'. cbn [repeat run_requests]. exists station.
    split; [exact Hs|]. split; [reflexivity|]. split.
    + destruct (Z.leb_spec (available_of station) 0); lia.
    + lia.
  - subst db'. cbn [repeat run_requests handle].
    destruct (Z.leb_spec (available_of station) 0) as [Hle|Hlt].
    + rewrite (start_full_station noFaults input user now db station Hv Hs Hle).
      cbn [finalDB fst snd].
      destruct (IH db station Hv Hs) as [st' [H1 [H2 [H3 H4]]]].
      exists st'. split; [exact H1|]. split; [exact H2|]. split; [|exact H4].
      rewrite H3. destruct (Z.leb_spec (available_of station) 0); [reflexivity | lia].
    + rewrite (start_run noFaults input user now db station Hv Hs Hlt eq_refl).
      cbv zeta. cbn [noFaults updateAvailabilityFails finalDB fst snd].
      set (row := new_session db (in_stationId input)
                    (in_batteryStartPercent input) (in_userVehicleId input)
                    user now).
      set (db1 := set_stations (update_available (in_stationId input)
                    (available_of station - 1) now) (insert_session row db)).
      assert (Hs1 : station_by_id (in_stationId input) (stations db1)
                    = Some (with_available (available_of station - 1) now
                              station))
        by (apply station_by_id_update_same; exact Hs).
      destruct (IH db1 _ Hv Hs1) as [st' [H1 [H2 [H3 H4]]]].
      exists st'. split; [exact H1|].
      assert (Ha1 : available_of (with_available (available_of station - 1)
                                    now station) = available_of station - 1)
        by reflexivity.
      assert (Ht1 : total_of (with_available (available_of station - 1)
                                now station) = total_of station)
        by reflexivity.
      rewrite Ha1 in H3, H4. rewrite Ht1 in H2.
      assert (Hc1 : activeSessionCount db1 (in_stationId input)
                    = activeSessionCount db (in_stationId input) + 1).
      { change (activeSessionCount db1 (in_stationId input))
          with (activeSessionCount (insert_session row db) (in_stationId input)).
        rewrite active_count_insert. unfold active_at.
        change (stationId row) with (in_stationId input).
        change (is_active row) with true.
        rewrite Z.eqb_refl. reflexivity. }
      split; [exact H2|]. split.
      * rewrite H3.
        destruct (Z.leb_spec (available_of station - 1) 0);
          destruct (Z.leb_spec (available_of station) 0); lia.
      * rewrite H4, Hc1. lia.
Qed.

Lemma repeated_starts_witness :
  let db' := run_requests
               (repeat (StartSession (mkStartInput 1 None None) alice, 2000) 3)
               two_charger_db in
  exists station',
    station_by_id 1 (stations db') = Some station' /\
    total_of station' = 2 /\
    available_of station' = 0 /\
    activeSessionCount db' 1 = activeSessionCount two_charger_db 1
                               + (2 - available_of station').
Proof.
  exact (repeated_starts (mkStartInput 1 None None) alice 2000 3
           two_charger_db (mkStation 1 (Some 2) (Some 2) (Some 1000))
           eq_refl eq_refl).
Defined.

(** ** Availability update and station creation *)

(** X9. An availability update for an existing station with a value
    between zero and the charger count (read with [|| 1]), no statement
    rejected, is answered 200 with the updated row; afterwards the
    station's counter reads the submitted value, every other station
    reads as before and the session table is untouched (the value is not
    compared with the station's active sessions). *)
Theorem update_availability_effect id v now db st :
  station_by_id id (stations db) = Some st ->
  0 <= v <= or_else (chargerCount st) 1 ->
  let r := stations_updateAvailability noFaults id v now db in
  outcome r = Ok (Respond 200 (JsonStation (Some (with_available v now st)))) /\
  station_by_id id (stations (finalDB r)) = Some (with_available v now st) /\
  (forall S, S <> id ->
     station_by_id S (stations (finalDB r)) = station_by_id S (stations db)) /\
  chargingSessions (finalDB r) = chargingSessions db.
Proof.
  intros Hs Hv r. subst r.
  destruct (update_cases noFaults id v now db)
    as [[st' [b' [E Hst']]]|[[e E]|[st0 [Hs0 [_ E]]]]].
  - exfalso. unfold stations_updateAvailability in E.
    destruct (Z.ltb_spec v 0); [lia|].
    revert E. run_handler. rewrite Hs.
    destruct (Z.gtb_spec v (or_else (chargerCount st) 1)); [lia|].
    intros E. injection E as E _ _. subst st'. lia.
  - exfalso. unfold stations_updateAvailability in E.
    destruct (Z.ltb_spec v 0); [lia|].
    revert E. run_handler. rewrite Hs.
    destruct (Z.gtb_spec v (or_else (chargerCount st) 1)); [lia|].
    discriminate.
  - rewrite E. cbn [outcome finalDB fst snd set_stations stations
                      chargingSessions].
    rewrite (station_by_id_update_same id v now (stations db) st Hs).
    repeat split.
    intros S Hne. apply station_by_id_update_other. exact Hne.
Qed.

Lemma update_availability_effect_witness :
  let r := stations_updateAvailability noFaults 1 1 3000 two_charger_db in
  outcome r
  = Ok (Respond 200
          (JsonStation
             (Some (with_available 1 3000
                      (mkStation 1 (Some 2) (Some 2) (Some 1000)))))) /\
  station_by_id 1 (stations (finalDB r))
  = Some (with_available 1 3000 (mkStation 1 (Some 2) (Some 2) (Some 1000))) /\
  (forall S, S <> 1 ->
     station_by_id S (stations (finalDB r))
     = station_by_id S (stations two_charger_db)) /\
  chargingSessions (finalDB r) = chargingSessions two_charger_db.
Proof.
  apply (update_availability_effect 1 1 3000 two_charger_db
           (mkStation 1 (Some 2) (Some 2) (Some 1000)));
    [reflexivity | vm_compute; split; discriminate].
Defined.

Lemma station_by_id_fresh id l row :
  Forall (fun s => station_id s < id) l ->
  station_id row = id ->
  station_by_id id (l ++ [row]) = Some row.
Proof.
  intros Hlt Hid. unfold station_by_id.
  induction Hlt as [|h t Hh Ht IH]; simpl.
  - rewrite Hid, Z.eqb_refl. reflexivity.
  - destruct (Z.eqb_spec (station_id h) id); [lia | exact IH].
Qed.

Lemma station_by_id_app_other S l row :
  station_id row <> S ->
  station_by_id S (l ++ [row]) = station_by_id S l.
Proof.
  intros Hne. unfold station_by_id.
  induction l as [|h t IH]; simpl.
  - destruct (Z.eqb_spec (station_id row) S); [contradiction | reflexivity].
  - destruct (station_id h =? S); [reflexivity | exact IH].
Qed.

(** X10. Creating a station, with station keys below the sequence. When
    both counters pass the insert schema (each is left out, null, or an
    int4 value) the answer is 201 with a row that carries the next key
    and the submitted counters ([1] for a counter left out, [NULL] for an
    explicit null); the row is what the station lookup returns for that
    key, lookups of all other keys answer as before, the session table is
    untouched and the keys stay below the sequence. When a counter is
    outside int4 the answer is 400 naming a field and nothing is
    written. *)
Theorem create_station_fresh ins now db :
  station_keys_ok db ->
  let r := stations_create ins now db in
  let row := mkStation (stations_id_seq db) (stored 1 (ins_chargerCount ins))
               (stored 1 (ins_availableChargers ins)) (Some now) in
  if validInsertStation ins
  then
    outcome r = Ok (Respond 201 (JsonStation (Some row))) /\
    station_by_id (stations_id_seq db) (stations (finalDB r)) = Some row /\
    (forall S, S <> stations_id_seq db ->
       station_by_id S (stations (finalDB r)) = station_by_id S (stations db)) /\
    chargingSessions (finalDB r) = chargingSessions db /\
    station_keys_ok (finalDB r)
  else
    exists field, r = (Ok (Respond 400 (JsonFieldError field)), db, []).
Proof.
  intros Hk r row. subst r.
  destruct (create_cases ins now db) as [E|[E|[Hv E]]].
  - assert (Hv : validInsertStation ins = false).
    { unfold validInsertStation. unfold stations_create in E.
      destruct (int4_ok (ins_chargerCount ins)); [|reflexivity].
      destruct (int4_ok (ins_availableChargers ins)); discriminate. }
    rewrite Hv. eexists. exact E.
  - assert (Hv : validInsertStation ins = false).
    { unfold validInsertStation. unfold stations_create in E.
      destruct (int4_ok (ins_chargerCount ins)); [|reflexivity].
      destruct (int4_ok (ins_availableChargers ins));
        [discriminate | reflexivity]. }
    rewrite Hv. eexists. exact E.
  - rewrite Hv, E. cbv zeta.
    cbn [outcome finalDB fst snd stations chargingSessions]. fold row.
    split; [reflexivity|]. split; [|split; [|split]].
    + apply station_by_id_fresh; [exact Hk | reflexivity].
    + intros S Hne. apply station_by_id_app_other.
      cbn [row station_id]. congruence.
    + reflexivity.
    + unfold station_keys_ok. cbn [stations stations_id_seq].
      apply Forall_app. split.
      * eapply Forall_impl; [|exact Hk]. cbv beta. intros; lia.
      * repeat constructor. cbn [row station_id]. lia.
Qed.

Lemma create_station_fresh_witness :
  (let r := stations_create (mkInsertStation (Given 4) Omitted) 5000
              two_charger_db in
   let row := mkStation 2 (Some 4) (Some 1) (Some 5000) in
   outcome r = Ok (Respond 201 (JsonStation (Some row))) /\
   station_by_id 2 (stations (finalDB r)) = Some row /\
   (forall S, S <> 2 ->
      station_by_id S (stations (finalDB r))
      = station_by_id S (stations two_charger_db)) /\
   chargingSessions (finalDB r) = chargingSessions two_charger_db /\
   station_keys_ok (finalDB r)) /\
  exists field,
    stations_create (mkInsertStation (Given 2147483648) Omitted) 5000
      two_charger_db
    = (Ok (Respond 400 (JsonFieldError field)), two_charger_db, []).
Proof.
  split.
  - apply (create_station_fresh (mkInsertStation (Given 4) Omitted) 5000
             two_charger_db).
    repeat constructor.
  - apply (create_station_fresh (mkInsertStation (Given 2147483648) Omitted)
             5000 two_charger_db).
    repeat constructor.
Defined.

Lemma handle_keeps_station_keys F r now db :
  station_keys_ok db -> station_keys_ok (finalDB (handle F r now db)).
Proof.
  intros Hk.
  assert (Hupd : forall id v, Forall (fun s => station_id s < stations_id_seq db)
                   (update_available id v now (stations db))).
  { intros id v. unfold update_available. apply Forall_map.
    eapply Forall_impl; [|exact Hk]. cbv beta.
    intros x Hx. destruct (station_id x =? id); exact Hx. }
  destruct r as [ins|id v|input user|sid input user]; cbn [handle].
  - destruct (create_cases ins now db) as [->|[->|[_ ->]]];
      [exact Hk | exact Hk |].
    cbv zeta. unfold station_keys_ok.
    cbn [finalDB fst snd stations stations_id_seq].
    apply Forall_app. split.
    + eapply Forall_impl; [|exact Hk]. cbv beta. intros; lia.
    + repeat constructor. cbn [station_id]. lia.
  - destruct (update_cases F id v now db)
      as [[st' [b' [E _]]]|[[e E]|[st [_ [_ E]]]]]; rewrite E;
      [exact Hk | exact Hk | apply Hupd].
  - destruct (start_cases F input user now db)
      as [[st' [b' [E _]]]|[[e E]|[st [_ [_ E]]]]].
    + rewrite E. exact Hk.
    + rewrite E. exact Hk.
    + cbv zeta in E. rewrite E.
      destruct (updateAvailabilityFails F);
        [destruct (deleteSessionFails F); exact Hk|]. apply Hupd.
  - destruct (end_cases F sid input user now db)
      as [[st' [b' [E _]]]|[[e E]|[s [_ [_ [_ E]]]]]].
    + rewrite E. exact Hk.
    + rewrite E. exact Hk.
    + cbv zeta in E. rewrite E.
      destruct (release_cases F (station_by_id (stationId s) (stations db))
                  (stationId s) now
                  (set_sessions (update_session sid
                     (with_end now (duration_at now s)
                        (in_batteryEndPercent input) (in_energyKwh input)))
                     db))
        as [E'|[[e E']|[st [_ [_ E']]]]]; rewrite E';
        [exact Hk | exact Hk | apply Hupd].
Qed.

Lemma reachable_station_keys db : reachable db -> station_keys_ok db.
Proof.
  induction 1 as [|db r now _ IH].
  - constructor.
  - apply handle_keeps_station_keys. exact IH.
Qed.

(** ** Ordered queries *)

Lemma desc_leb_total x y : desc_leb x y = false -> desc_leb y x = true.
Proof.
  destruct x as [a|], y as [b|]; simpl; try discriminate; try reflexivity.
  intros H. apply Z.leb_gt in H. apply Z.leb_le. lia.
Qed.

Lemma desc_leb_trans x y z :
  desc_leb x y = true -> desc_leb y z = true -> desc_leb x z = true.
Proof.
  destruct x as [a|], y as [b|], z as [c|]; simpl;
    try discriminate; try reflexivity.
  intros H1 H2. apply Z.leb_le in H1, H2. apply Z.leb_le. lia.
Qed.

Lemma In_insert_desc {A} (key : A -> option Z) x y (l : list A) :
  In y (insert_desc key x l) <-> y = x \/ In y l.
Proof.
  induction l as [|h t IH]; simpl.
  - intuition.
  - destruct (desc_leb (key x) (key h)); simpl; rewrite ?IH; intuition.
Qed.

Lemma In_order_by_desc {A} (key : A -> option Z) y (l : list A) :
  In y (order_by_desc key l) <-> In y l.
Proof.
  unfold order_by_desc. induction l as [|h t IH]; simpl; [tauto|].
  rewrite In_insert_desc, IH. intuition.
Qed.

Lemma insert_desc_sorted {A} (key : A -> option Z) x (l : list A) :
  Sorted (desc_rel key) l -> Sorted (desc_rel key) (insert_desc key x l).
Proof.
  induction 1 as [|h t Ht IH Hhd]; simpl.
  - repeat constructor.
  - destruct (desc_leb (key x) (key h)) eqn:E.
    + constructor; [constructor; assumption|]. constructor. exact E.
    + constructor; [exact IH|].
      apply desc_leb_total in E.
      destruct t as [|h' t']; simpl.
      * constructor. exact E.
      * destruct (desc_leb (key x) (key h')); constructor;
          [exact E | inversion Hhd; assumption].
Qed.

Lemma order_by_desc_sorted {A} (key : A -> option Z) (l : list A) :
  StronglySorted (desc_rel key) (order_by_desc key l).
Proof.
  apply Sorted_StronglySorted.
  - intros a b c. unfold desc_rel. apply desc_leb_trans.
  - unfold order_by_desc. induction l as [|h t IH]; simpl.
    + constructor.
    + apply insert_desc_sorted. exact IH.
Qed.

Lemma insert_desc_perm {A} (key : A -> option Z) x (l : list A) :
  Permutation (insert_desc key x l) (x :: l).
Proof.
  induction l as [|h t IH]; simpl; [apply Permutation_refl|].
  destruct (desc_leb (key x) (key h)); [apply Permutation_refl|].
  eapply perm_trans; [apply perm_skip; exact IH | apply perm_swap].
Qed.

(** Ordering a list keeps every row as often as it occurs. *)
Lemma order_by_desc_perm {A} (key : A -> option Z) (l : list A) :
  Permutation (order_by_desc key l) l.
Proof.
  unfold order_by_desc. induction l as [|h t IH]; simpl; [constructor|].
  eapply perm_trans; [apply insert_desc_perm | apply perm_skip; exact IH].
Qed.

(** X11. The session list route, called by a requester with a non-empty
    id. When the station parameter is absent, 0 (then it is ignored) or
    an int4 value, the answer is 200 and nothing is written; the list
    holds the stored sessions whose owner is the requester (restricted to
    the station of the query when that is present and not 0), each as
    often as it is stored, ordered by [createdAt], newest first. When the
    station parameter is a non-zero number outside int4 the query is
    refused and the request ends in that error. *)
Theorem session_list_private query_stationId u db :
  u <> EmptyString ->
  let r := chargingSessions_list query_stationId (Some u) db in
  let wanted (s : ChargingSession) :=
    match userId s with Some o => String.eqb o u | None => false end
    && match query_stationId with
       | Some n => (n =? 0) || (stationId s =? n)
       | None => true
       end in
  ((forall n, query_stationId = Some n -> n = 0 \/ in_int4 n = true) ->
   exists l,
     r = (Ok (200, l), db, []) /\
     Permutation l (filter wanted (chargingSessions db)) /\
     StronglySorted (desc_rel createdAt) l) /\
  (forall n, query_stationId = Some n -> n <> 0 -> in_int4 n = false ->
     r = (Thrown (DbError "out of range for type integer"), db, [])).
Proof.
  intros Hu r wanted. subst r.
  unfold chargingSessions_list, getChargingSessions,
    station_condition_refused.
  split.
  - intros Hrange.
    assert (Hok : match query_stationId with
                  | Some n => truthy_number query_stationId
                              && negb (in_int4 n)
                  | None => false
                  end = false).
    { destruct query_stationId as [n|]; [|reflexivity].
      destruct (Hrange n eq_refl) as [->|Hin]; [reflexivity|].
      rewrite Hin. apply andb_false_r. }
    rewrite Hok. unfold bind, query, ret.
    eexists. split; [reflexivity|]. split; [|apply order_by_desc_sorted].
    eapply perm_trans; [apply order_by_desc_perm|].
    rewrite (filter_ext (session_filter query_stationId (Some u)) wanted);
      [apply Permutation_refl|].
    intros s. subst wanted. cbv beta.
    unfold session_filter, truthy_string, truthy_number.
    destruct (String.eqb_spec u EmptyString) as [|_]; [contradiction|].
    cbn [negb]. rewrite andb_comm. f_equal.
    destruct query_stationId as [n|]; [|reflexivity].
    destruct (n =? 0); reflexivity.
  - intros n -> Hn Hout. unfold truthy_number.
    destruct (Z.eqb_spec n 0) as [|_]; [contradiction|].
    rewrite Hout. reflexivity.
Qed.

Lemma session_list_private_witness :
  (exists l,
     chargingSessions_list (Some 1) (Some "alice"%string) charging_db
     = (Ok (200, l), charging_db, []) /\
     Permutation l
       (filter (fun s =>
                  match userId s with
                  | Some o => String.eqb o "alice"
                  | None => false
                  end && ((1 =? 0) || (stationId s =? 1)))
          (chargingSessions charging_db)) /\
     StronglySorted (desc_rel createdAt) l) /\
  chargingSessions_list (Some 2147483648) (Some "alice"%string) charging_db
  = (Thrown (DbError "out of range for type integer"), charging_db, []).
Proof.
  assert (Halice : "alice"%string <> EmptyString) by discriminate.
  split.
  - pose proof (session_list_private (Some 1) "alice"%string charging_db
                  Halice) as H.
    cbv zeta in H. destruct H as [H _]. apply H.
    intros n [= <-]. right. reflexivity.
  - pose proof (session_list_private (Some 2147483648) "alice"%string
                  charging_db Halice) as H.
    cbv zeta in H. destruct H as [_ H].
    apply (H 2147483648); [reflexivity | discriminate | reflexivity].
Defined.

(** ** User vehicles *)

Lemma user_vehicle_by_id_some id l v :
  user_vehicle_by_id id l = Some v -> In v l /\ uv_id v = id.
Proof.
  unfold user_vehicle_by_id. intros H. apply find_some in H.
  destruct H as [Hin H]. apply Z.eqb_eq in H. auto.
Qed.

Lemma vehicle_key_unique l x y :
  NoDup (map uv_id l) -> In x l -> In y l -> uv_id x = uv_id y -> x = y.
Proof.
  induction l as [|h t IH]; simpl; [tauto|].
  intros Hnd Hx Hy E. inversion Hnd as [|? ? Hnotin Hnd']; subst.
  destruct Hx as [->|Hx], Hy as [->|Hy]; auto.
  - exfalso. apply Hnotin. rewrite E. apply in_map. exact Hy.
  - exfalso. apply Hnotin. rewrite <- E. apply in_map. exact Hx.
Qed.

(** X12. A vehicle request (read, update, delete, set-default) for an
    int4 id that has no row is answered 404 "Vehicle not found", and one
    for a vehicle owned by somebody else 403 "Not authorized"; in both
    cases the garage is left as it was. For the update route this is the
    answer once the body has passed the schema. *)
Theorem vehicle_requests_guarded id patch user now g :
  in_int4 id = true ->
  validUserVehiclePatch patch = true ->
  (forall v, user_vehicle_by_id id (userVehicles g) = Some v ->
             uv_userId v <> user) ->
  let answer :=
    match user_vehicle_by_id id (userVehicles g) with
    | None => VRespond 404 (VMessage "Vehicle not found")
    | Some _ => VRespond 403 (VMessage "Not authorized")
    end in
  userVehicles_get id user g = (answer, g) /\
  userVehicles_update id patch user now g = (answer, g) /\
  userVehicles_delete id user g = (answer, g) /\
  userVehicles_setDefault id user now g = (answer, g).
Proof.
  intros _ Hp H answer. subst answer.
  unfold validUserVehiclePatch in Hp. apply andb_true_iff in Hp.
  destruct Hp as [Hp1 Hp2].
  unfold userVehicles_get, userVehicles_update, userVehicles_delete,
    userVehicles_setDefault, getUserVehicle.
  rewrite Hp1, Hp2. cbn [negb].
  destruct (user_vehicle_by_id id (userVehicles g)) as [v|] eqn:E.
  - specialize (H v eq_refl). cbn [fst].
    destruct (String.eqb_spec (uv_userId v) user) as [Heq|_];
      [contradiction|].
    repeat split.
  - repeat split.
Qed.

Lemma vehicle_requests_guarded_witness :
  userVehicles_get 3 "alice" sample_garage
  = (VRespond 403 (VMessage "Not authorized"), sample_garage) /\
  userVehicles_update 3 (mkUserVehiclePatch None Omitted Omitted Omitted
                           Omitted (Given true)) "alice" 900 sample_garage
  = (VRespond 403 (VMessage "Not authorized"), sample_garage) /\
  userVehicles_delete 3 "alice" sample_garage
  = (VRespond 403 (VMessage "Not authorized"), sample_garage) /\
  userVehicles_setDefault 3 "alice" 900 sample_garage
  = (VRespond 403 (VMessage "Not authorized"), sample_garage).
Proof.
  apply (vehicle_requests_guarded 3
           (mkUserVehiclePatch None Omitted Omitted Omitted Omitted
              (Given true)) "alice" 900 sample_garage).
  - reflexivity.
  - reflexivity.
  - intros v H. injection H as <-. discriminate.
Defined.

(** X13. When the owner of a vehicle makes it the default, with distinct
    vehicle keys: the answer is 200; afterwards each of the owner's
    vehicles is flagged default exactly when it is the chosen one, so the
    owner has one default vehicle; the rows of every other user are the
    same rows as before; and no row is added, removed or given another key
    or owner. *)
Theorem set_default_unique id user now g v :
  NoDup (map uv_id (userVehicles g)) ->
  user_vehicle_by_id id (userVehicles g) = Some v ->
  uv_userId v = user ->
  let r := userVehicles_setDefault id user now g in
  fst r = VRespond 200 VSuccess /\
  map uv_id (userVehicles (snd r)) = map uv_id (userVehicles g) /\
  map uv_userId (userVehicles (snd r)) = map uv_userId (userVehicles g) /\
  (forall w, In w (userVehicles (snd r)) -> uv_userId w = user ->
             isDefault w = Some (uv_id w =? id)) /\
  (forall w, uv_userId w <> user ->
             (In w (userVehicles (snd r)) <-> In w (userVehicles g))).
Proof.
  intros Hnd Hv Hown r. subst r.
  unfold userVehicles_setDefault, getUserVehicle. rewrite Hv. cbn [fst].
  rewrite Hown, String.eqb_refl. cbn [negb fst snd].
  unfold setDefaultUserVehicle, set_userVehicles, update_vehicles.
  cbn [userVehicles].
  rewrite (map_map
             (fun x => if String.eqb (uv_userId x) user
                       then with_default false now x else x)
             (fun x => if uv_id x =? id then with_default true now x else x)).
  set (f := fun x : UserVehicle =>
              if uv_id (if String.eqb (uv_userId x) user
                        then with_default false now x else x) =? id
              then with_default true now
                     (if String.eqb (uv_userId x) user
                      then with_default false now x else x)
              else if String.eqb (uv_userId x) user
                   then with_default false now x else x).
  destruct (user_vehicle_by_id_some id _ v Hv) as [Hvin Hvid].
  assert (Hid : forall x, uv_id (f x) = uv_id x).
  { intros x. unfold f.
    destruct (String.eqb (uv_userId x) user);
      destruct (_ =? id); reflexivity. }
  assert (Hu : forall x, uv_userId (f x) = uv_userId x).
  { intros x. unfold f.
    destruct (String.eqb (uv_userId x) user);
      destruct (_ =? id); reflexivity. }
  assert (Hother : forall x, In x (userVehicles g) -> uv_userId x <> user ->
                             f x = x).
  { intros x Hx Hne. unfold f.
    destruct (String.eqb_spec (uv_userId x) user) as [|_]; [contradiction|].
    destruct (Z.eqb_spec (uv_id x) id) as [E|_]; [|reflexivity].
    exfalso. apply Hne.
    rewrite (vehicle_key_unique _ x v Hnd Hx Hvin) by congruence.
    exact Hown. }
  split; [reflexivity|]. split; [|split; [|split]].
  - rewrite map_map. apply map_ext. exact Hid.
  - rewrite map_map. apply map_ext. exact Hu.
  - intros w Hw Hwu. apply in_map_iff in Hw. destruct Hw as [x [<- Hx]].
    rewrite Hu in Hwu. rewrite Hid. unfold f.
    rewrite Hwu, String.eqb_refl. cbn [with_default uv_id].
    destruct (uv_id x =? id); reflexivity.
  - intros w Hne. rewrite in_map_iff. split.
    + intros [x [<- Hx]]. rewrite Hu in Hne.
      rewrite (Hother x Hx Hne). exact Hx.
    + intros Hw. exists w. split; [apply Hother; assumption | exact Hw].
Qed.

Lemma set_default_unique_witness :
  let r := userVehicles_setDefault 2 "alice" 900 sample_garage in
  fst r = VRespond 200 VSuccess /\
  map uv_id (userVehicles (snd r)) = map uv_id (userVehicles sample_garage) /\
  map uv_userId (userVehicles (snd r))
  = map uv_userId (userVehicles sample_garage) /\
  (forall w, In w (userVehicles (snd r)) -> uv_userId w = "alice"%string ->
             isDefault w = Some (uv_id w =? 2)) /\
  (forall w, uv_userId w <> "alice"%string ->
             (In w (userVehicles (snd r))
              <-> In w (userVehicles sample_garage))).
Proof.
  apply (set_default_unique 2 "alice" 900 sample_garage
           (mkUserVehicle 2 "alice" 11 None None None None (Some false)
              (Some 200) (Some 200))).
  - repeat constructor; simpl; intuition discriminate.
  - reflexivity.
  - reflexivity.
Defined.

Lemma user_vehicle_by_id_filtered id l :
  user_vehicle_by_id id (filter (fun v => negb (uv_id v =? id)) l) = None.
Proof.
  unfold user_vehicle_by_id. induction l as [|h t IH]; simpl; [reflexivity|].
  destruct (uv_id h =? id) eqn:E; simpl; [exact IH|].
  rewrite E. exact IH.
Qed.

Lemma user_vehicle_by_id_filter_other id id' l :
  id' <> id ->
  user_vehicle_by_id id' (filter (fun v => negb (uv_id v =? id)) l)
  = user_vehicle_by_id id' l.
Proof.
  intros Hne. unfold user_vehicle_by_id.
  induction l as [|h t IH]; simpl; [reflexivity|].
  destruct (Z.eqb_spec (uv_id h) id) as [E|E]; simpl.
  - destruct (Z.eqb_spec (uv_id h) id'); [lia | exact IH].
  - destruct (uv_id h =? id'); [reflexivity | exact IH].
Qed.

(** X14. When the owner deletes a vehicle the answer is 200; afterwards
    a read of that id is answered 404, by whoever asks, and the lookup of
    every other id gives what it gave before. *)
Theorem delete_vehicle_then_read id user g v :
  user_vehicle_by_id id (userVehicles g) = Some v ->
  uv_userId v = user ->
  let r := userVehicles_delete id user g in
  fst r = VRespond 200 VSuccess /\
  (forall other,
     userVehicles_get id other (snd r)
     = (VRespond 404 (VMessage "Vehicle not found"), snd r)) /\
  (forall id', id' <> id ->
     getUserVehicle id' (snd r) = getUserVehicle id' g).
Proof.
  intros Hv Hown r. subst r.
  assert (E : userVehicles_delete id user g
              = (VRespond 200 VSuccess, deleteUserVehicle id g)).
  { unfold userVehicles_delete, getUserVehicle. rewrite Hv. cbn [fst].
    rewrite Hown, String.eqb_refl. reflexivity. }
  rewrite E. cbn [fst snd].
  split; [reflexivity|]. split.
  - intros other. unfold userVehicles_get, getUserVehicle, deleteUserVehicle,
      set_userVehicles. cbn [userVehicles].
    rewrite user_vehicle_by_id_filtered. reflexivity.
  - intros id' Hne. unfold getUserVehicle, deleteUserVehicle,
      set_userVehicles, getVehicle. cbn [userVehicles evVehicles].
    rewrite user_vehicle_by_id_filter_other by exact Hne. reflexivity.
Qed.

Lemma delete_vehicle_then_read_witness :
  let r := userVehicles_delete 2 "alice" sample_garage in
  fst r = VRespond 200 VSuccess /\
  (forall other,
     userVehicles_get 2 other (snd r)
     = (VRespond 404 (VMessage "Vehicle not found"), snd r)) /\
  (forall id', id' <> 2 ->
     getUserVehicle id' (snd r) = getUserVehicle id' sample_garage).
Proof.
  apply (delete_vehicle_then_read 2 "alice" sample_garage
           (mkUserVehicle 2 "alice" 11 None None None None (Some false)
              (Some 200) (Some 200)));
    reflexivity.
Defined.

Lemma user_vehicle_by_id_fresh id l row :
  Forall (fun v => uv_id v < id) l ->
  uv_id row = id ->
  user_vehicle_by_id id (l ++ [row]) = Some row.
Proof.
  intros Hlt Hid. unfold user_vehicle_by_id.
  induction Hlt as [|h t Hh Ht IH]; simpl.
  - rewrite Hid, Z.eqb_refl. reflexivity.
  - destruct (Z.eqb_spec (uv_id h) id); [lia | exact IH].
Qed.

Lemma user_vehicle_by_id_app_other id l row :
  uv_id row <> id ->
  user_vehicle_by_id id (l ++ [row]) = user_vehicle_by_id id l.
Proof.
  intros Hne. unfold user_vehicle_by_id.
  induction l as [|h t IH]; simpl.
  - destruct (Z.eqb_spec (uv_id row) id); [contradiction | reflexivity].
  - destruct (uv_id h =? id); [reflexivity | exact IH].
Qed.

(** X15. Creating a vehicle, with vehicle keys distinct and below the
    sequence. When the body passes the schema ([evVehicleId] an int4
    value, [year] left out, null or an int4 value) the answer is 201 with
    a row that carries the next key and the requester as owner; a read of
    that key by the requester is then answered 200 with this row and its
    catalogue entry; every other key reads as before (a new vehicle
    flagged default does not clear the flag of an older one); and the keys
    stay distinct and below the sequence. When it does not, the answer is
    400 naming a field and the garage is left as it was. *)
Theorem create_vehicle_then_read input user now g :
  vehicle_keys_ok g ->
  let r := userVehicles_create input user now g in
  if validNewUserVehicle input
  then
    exists row,
      fst r = VRespond 201 (VVehicle (Some row)) /\
      uv_id row = user_vehicles_id_seq g /\
      uv_userId row = user /\
      isDefault row = stored false (new_isDefault input) /\
      userVehicles_get (uv_id row) user (snd r)
      = (VRespond 200 (VDetails (row, getVehicle (new_evVehicleId input) g)),
         snd r) /\
      (forall id', id' <> uv_id row ->
         getUserVehicle id' (snd r) = getUserVehicle id' g) /\
      vehicle_keys_ok (snd r)
  else
    exists field, r = (VRespond 400 (VFieldError field), g).
Proof.
  intros [Hnd Hlt] r. subst r.
  unfold userVehicles_create, validNewUserVehicle.
  destruct (in_int4 (new_evVehicleId input)); cbn [negb andb];
    [|eexists; reflexivity].
  destruct (int4_ok (new_year input)); cbn [negb];
    [|eexists; reflexivity].
  unfold createUserVehicle. cbn [fst snd].
  eexists. split; [reflexivity|].
  cbn [uv_id uv_userId isDefault].
  split; [reflexivity|]. split; [reflexivity|]. split; [reflexivity|].
  split; [|split].
  - unfold userVehicles_get, getUserVehicle. cbn [userVehicles].
    rewrite user_vehicle_by_id_fresh by (exact Hlt || reflexivity).
    cbn [fst uv_userId evVehicleId]. rewrite String.eqb_refl. reflexivity.
  - intros id' Hne. unfold getUserVehicle. cbn [userVehicles].
    rewrite user_vehicle_by_id_app_other by (cbn [uv_id]; congruence).
    reflexivity.
  - split; cbn [userVehicles user_vehicles_id_seq].
    + rewrite map_app. cbn [map uv_id].
      apply NoDup_app; [exact Hnd | repeat constructor; intros [] |].
      intros x Hx [<-|[]]. apply in_map_iff in Hx.
      destruct Hx as [w [Hid Hin]].
      rewrite Forall_forall in Hlt. specialize (Hlt w Hin).
      cbv beta in Hlt. lia.
    + apply Forall_app. split.
      * eapply Forall_impl; [|exact Hlt]. cbv beta. intros; lia.
      * repeat constructor. cbn [uv_id]. lia.
Qed.

Lemma user_vehicle_by_id_patched id f l v :
  (forall x, uv_id (f x) = uv_id x) ->
  user_vehicle_by_id id l = Some v ->
  user_vehicle_by_id id (update_vehicles (fun x => uv_id x =? id) f l)
  = Some (f v).
Proof.
  intros Hf. unfold user_vehicle_by_id, update_vehicles.
  induction l as [|h t IH]; simpl; [discriminate|].
  destruct (uv_id h =? id) eqn:E.
  - intros [= ->]. simpl. rewrite Hf, E. reflexivity.
  - intros H. simpl. rewrite E. auto.
Qed.

Lemma user_vehicle_by_id_patched_other id id' f l :
  (forall x, uv_id (f x) = uv_id x) ->
  id' <> id ->
  user_vehicle_by_id id' (update_vehicles (fun x => uv_id x =? id) f l)
  = user_vehicle_by_id id' l.
Proof.
  intros Hf Hne. unfold user_vehicle_by_id, update_vehicles.
  induction l as [|h t IH]; simpl; [reflexivity|].
  destruct (Z.eqb_spec (uv_id h) id) as [E|E].
  - rewrite Hf. destruct (Z.eqb_spec (uv_id h) id'); [lia | exact IH].
  - destruct (uv_id h =? id'); [reflexivity | exact IH].
Qed.

(** X16. When the owner updates a vehicle with a body that passes the
    schema ([evVehicleId] left out or an int4 value, [year] left out, null
    or an int4 value) the answer is 200 with the patched row: key, owner
    and creation time are the old ones, every column whose key the body
    leaves out keeps its value, and a column set to null is cleared. A
    read of the id then returns the patched row, and every other id reads
    as before. With a body that does not pass, the answer is 400 naming a
    field and the garage is left as it was. *)
Theorem update_vehicle_effect id patch user now g v :
  user_vehicle_by_id id (userVehicles g) = Some v ->
  uv_userId v = user ->
  let r := userVehicles_update id patch user now g in
  let v' := patch_vehicle patch now v in
  if validUserVehiclePatch patch
  then
    fst r = VRespond 200 (VVehicle (Some v')) /\
    uv_id v' = uv_id v /\ uv_userId v' = uv_userId v /\
    uv_createdAt v' = uv_createdAt v /\
    (upd_isDefault patch = Omitted -> isDefault v' = isDefault v) /\
    (upd_nickname patch = Omitted -> nickname v' = nickname v) /\
    (upd_nickname patch = Null -> nickname v' = None) /\
    getUserVehicle id (snd r) = Some (v', getVehicle (evVehicleId v') g) /\
    (forall id', id' <> id ->
       getUserVehicle id' (snd r) = getUserVehicle id' g)
  else
    exists field, r = (VRespond 400 (VFieldError field), g).
Proof.
  intros Hv Hown r v'. subst r.
  unfold validUserVehiclePatch.
  destruct (match upd_evVehicleId patch with
            | Some e => in_int4 e
            | None => true
            end) eqn:Hp1; cbn [andb].
  2:{ unfold userVehicles_update. rewrite Hp1. eexists. reflexivity. }
  destruct (int4_ok (upd_year patch)) eqn:Hp2.
  2:{ unfold userVehicles_update. rewrite Hp1, Hp2. eexists. reflexivity. }
  assert (Hrow : user_vehicle_by_id id
                   (update_vehicles (fun x => uv_id x =? id)
                      (patch_vehicle patch now) (userVehicles g)) = Some v')
    by (apply user_vehicle_by_id_patched; [reflexivity | exact Hv]).
  assert (E : userVehicles_update id patch user now g
              = (VRespond 200 (VVehicle (Some v')),
                 set_userVehicles
                   (update_vehicles (fun x => uv_id x =? id)
                      (patch_vehicle patch now)) g)).
  { unfold userVehicles_update, getUserVehicle. rewrite Hp1, Hp2, Hv.
    cbn [fst negb].
    rewrite Hown, String.eqb_refl. cbn [negb].
    unfold updateUserVehicle. cbn [set_userVehicles userVehicles].
    rewrite Hrow. reflexivity. }
  rewrite E. cbn [fst snd].
  split; [reflexivity|].
  split; [reflexivity|]. split; [reflexivity|]. split; [reflexivity|].
  split; [intros H; subst v'; cbn [patch_vehicle isDefault]; rewrite H;
          reflexivity|].
  split; [intros H; subst v'; cbn [patch_vehicle nickname]; rewrite H;
          reflexivity|].
  split; [intros H; subst v'; cbn [patch_vehicle nickname]; rewrite H;
          reflexivity|].
  split.
  - unfold getUserVehicle. cbn [set_userVehicles userVehicles].
    rewrite Hrow. reflexivity.
  - intros id' Hne. unfold getUserVehicle.
    cbn [set_userVehicles userVehicles].
    rewrite user_vehicle_by_id_patched_other by (reflexivity || exact Hne).
    reflexivity.
Qed.

Lemma sample_garage_keys : vehicle_keys_ok sample_garage.
Proof.
  split.
  - repeat constructor; simpl; intuition discriminate.
  - repeat constructor.
Qed.

Lemma create_vehicle_then_read_witness :
  (let input := mkNewUserVehicle 10 (Given "spare"%string) Omitted Omitted
                  Omitted (Given true) in
   let r := userVehicles_create input "alice" 900 sample_garage in
   exists row,
     fst r = VRespond 201 (VVehicle (Some row)) /\
     uv_id row = 4 /\
     uv_userId row = "alice"%string /\
     isDefault row = Some true /\
     userVehicles_get (uv_id row) "alice" (snd r)
     = (VRespond 200 (VDetails (row, getVehicle 10 sample_garage)), snd r) /\
     (forall id', id' <> uv_id row ->
        getUserVehicle id' (snd r) = getUserVehicle id' sample_garage) /\
     vehicle_keys_ok (snd r)) /\
  exists field,
    userVehicles_create
      (mkNewUserVehicle 10 Omitted Omitted Omitted (Given 2147483648) Omitted)
      "alice" 900 sample_garage
    = (VRespond 400 (VFieldError field), sample_garage).
Proof.
  split.
  - exact (create_vehicle_then_read
             (mkNewUserVehicle 10 (Given "spare"%string) Omitted Omitted
                Omitted (Given true)) "alice" 900 sample_garage
             sample_garage_keys).
  - exact (create_vehicle_then_read
             (mkNewUserVehicle 10 Omitted Omitted Omitted (Given 2147483648)
                Omitted) "alice" 900 sample_garage sample_garage_keys).
Defined.

Lemma update_vehicle_effect_witness :
  let patch := mkUserVehiclePatch None Null Omitted Omitted Omitted Omitted in
  let v := mkUserVehicle 1 "alice" 10 (Some "daily"%string) None None
             (Some 2023) (Some true) (Some 100) (Some 100) in
  let r := userVehicles_update 1 patch "alice" 900 sample_garage in
  let v' := patch_vehicle patch 900 v in
  fst r = VRespond 200 (VVehicle (Some v')) /\
  uv_id v' = uv_id v /\ uv_userId v' = uv_userId v /\
  uv_createdAt v' = uv_createdAt v /\
  (upd_isDefault patch = Omitted -> isDefault v' = isDefault v) /\
  (upd_nickname patch = Omitted -> nickname v' = nickname v) /\
  (upd_nickname patch = Null -> nickname v' = None) /\
  getUserVehicle 1 (snd r)
  = Some (v', getVehicle (evVehicleId v') sample_garage) /\
  (forall id', id' <> 1 ->
     getUserVehicle id' (snd r) = getUserVehicle id' sample_garage).
Proof.
  exact (update_vehicle_effect 1
           (mkUserVehiclePatch None Null Omitted Omitted Omitted Omitted)
           "alice" 900 sample_garage
           (mkUserVehicle 1 "alice" 10 (Some "daily"%string) None None
              (Some 2023) (Some true) (Some 100) (Some 100))
           eq_refl eq_refl).
Defined.

(** X17. The vehicle list route answers 200, leaves the garage as it is,
    and lists the requester's vehicles, each once for every row stored
    and paired with the catalogue entry its [evVehicleId] names (if there
    is one), ordered by [createdAt], newest first. *)
Theorem vehicle_list_own user g :
  exists l,
    userVehicles_list user g = (VRespond 200 (VList l), g) /\
    Permutation (map fst l)
      (filter (fun uv => String.eqb (uv_userId uv) user) (userVehicles g)) /\
    (forall d, In d l -> snd d = getVehicle (evVehicleId (fst d)) g) /\
    (forall d,
       In d l <->
       In (fst d) (userVehicles g) /\ uv_userId (fst d) = user /\
       snd d = getVehicle (evVehicleId (fst d)) g) /\
    StronglySorted (desc_rel uv_createdAt) (map fst l).
Proof.
  unfold userVehicles_list, getUserVehicles.
  eexists. split; [reflexivity|].
  assert (Hfst : map fst
                   (map (fun uv => (uv, getVehicle (evVehicleId uv) g))
                      (order_by_desc uv_createdAt
                         (filter (fun uv => String.eqb (uv_userId uv) user)
                            (userVehicles g))))
                 = order_by_desc uv_createdAt
                     (filter (fun uv => String.eqb (uv_userId uv) user)
                        (userVehicles g))).
  { rewrite map_map. cbn [fst]. apply map_id. }
  split; [rewrite Hfst; apply order_by_desc_perm|].
  split; [|split].
  - intros [uv ev]. cbn [fst snd]. rewrite in_map_iff.
    intros [x [E _]]. injection E as -> <-. reflexivity.
  - intros [uv ev]. cbn [fst snd]. rewrite in_map_iff. split.
    + intros [x [E Hx]]. injection E as -> <-.
      apply In_order_by_desc in Hx. apply filter_In in Hx.
      destruct Hx as [Hin Hu]. apply String.eqb_eq in Hu. auto.
    + intros [Hin [Hu ->]]. exists uv. split; [reflexivity|].
      apply In_order_by_desc. apply filter_In. split; [exact Hin|].
      apply String.eqb_eq. exact Hu.
  - rewrite Hfst. apply order_by_desc_sorted.
Qed.

(** ** Station reports *)

Lemma station_row_update_same id st now l row :
  station_row_by_id id l = Some row ->
  station_row_by_id id
    (map (fun r => if station_id (core r) =? id then with_status st now r
                   else r) l)
  = Some (with_status st now row).
Proof.
  unfold station_row_by_id.
  induction l as [|h t IH]; simpl; [discriminate|].
  destruct (station_id (core h) =? id) eqn:E.
  - intros [= ->]. simpl. rewrite E. reflexivity.
  - intros H. simpl. rewrite E. auto.
Qed.

Lemma station_row_update_other id id' st now l :
  id' <> id ->
  station_row_by_id id'
    (map (fun r => if station_id (core r) =? id then with_status st now r
                   else r) l)
  = station_row_by_id id' l.
Proof.
  intros Hne. unfold station_row_by_id.
  induction l as [|h t IH]; simpl; [reflexivity|].
  destruct (Z.eqb_spec (station_id (core h)) id) as [E|E]; simpl.
  - destruct (Z.eqb_spec (station_id (core h)) id'); [lia | exact IH].
  - destruct (station_id (core h) =? id'); [reflexivity | exact IH].
Qed.

(** The status a report leaves on its station. *)
Lemma reports_create_run input user now d row :
  validNewReport input = true ->
  station_row_by_id (rin_stationId input) (station_rows d) = Some row ->
  let report := mkReport (reports_id_seq d) (rin_stationId input) user
                  (rin_status input) (stored_nullable (rin_reason input))
                  (Some now) in
  let remap st :=
    map (fun r => if station_id (core r) =? rin_stationId input
                  then with_status st now r else r) (station_rows d) in
  reports_create input user now d
  = (RRespond 201 (RReport report),
     mkReportsDB
       (if String.eqb (rin_status input) "NOT_WORKING" then remap "OFFLINE"%string
        else if String.eqb (rin_status input) "WORKING"
             then remap "OPERATIONAL"%string
             else station_rows d)
       (reports d ++ [report]) (reports_id_seq d + 1)).
Proof.
  intros Hv Hs report remap. unfold reports_create. rewrite Hv, Hs.
  cbn [negb].
  unfold createReport, updateStationStatus. cbn [snd station_rows reports
    reports_id_seq].
  destruct (String.eqb (rin_status input) "NOT_WORKING"); [reflexivity|].
  destruct (String.eqb (rin_status input) "WORKING"); reflexivity.
Qed.

(** X18. A report whose station id is outside int4 is answered 400 on
    the field [stationId], and one on an int4 station id that has no row
    is answered 404; in both cases nothing is stored. A report on an
    existing station is answered 201 and stored with the requester as
    author; the station's status becomes OFFLINE for a NOT_WORKING report,
    OPERATIONAL for a WORKING report and is left alone for any other
    status; the station's counters are never touched; every other station
    reads as before; the new report is among the reports listed for its
    station, and the lists of all other stations are unchanged. *)
Theorem report_effect input user now d :
  let r := reports_create input user now d in
  if negb (in_int4 (rin_stationId input))
  then r = (RRespond 400 (RFieldError "stationId"), d)
  else
  match station_row_by_id (rin_stationId input) (station_rows d) with
  | None => r = (RRespond 404 (RMessage "Station not found"), d)
  | Some row =>
      let report := mkReport (reports_id_seq d) (rin_stationId input) user
                      (rin_status input) (stored_nullable (rin_reason input))
                      (Some now) in
      fst r = RRespond 201 (RReport report) /\
      reports (snd r) = reports d ++ [report] /\
      (exists row',
         station_row_by_id (rin_stationId input) (station_rows (snd r))
         = Some row' /\
         status row'
         = (if String.eqb (rin_status input) "NOT_WORKING"
            then Some "OFFLINE"%string
            else if String.eqb (rin_status input) "WORKING"
                 then Some "OPERATIONAL"%string
                 else status row) /\
         chargerCount (core row') = chargerCount (core row) /\
         availableChargers (core row') = availableChargers (core row)) /\
      (forall S, S <> rin_stationId input ->
         station_row_by_id S (station_rows (snd r))
         = station_row_by_id S (station_rows d)) /\
      In report (getReports (rin_stationId input) (snd r)) /\
      (forall S, in_int4 S = true -> S <> rin_stationId input ->
         getReports S (snd r) = getReports S d)
  end.
Proof.
  intros r. subst r.
  destruct (in_int4 (rin_stationId input)) eqn:Hv; cbn [negb].
  2:{ unfold reports_create, validNewReport. rewrite Hv. reflexivity. }
  destruct (station_row_by_id (rin_stationId input) (station_rows d))
    as [row|] eqn:Hs.
  2:{ unfold reports_create, validNewReport. rewrite Hv, Hs. reflexivity. }
  rewrite (reports_create_run input user now d row Hv Hs).
  cbv zeta. cbn [fst snd reports station_rows].
  split; [reflexivity|]. split; [reflexivity|]. split; [|split; [|split]].
  - destruct (String.eqb (rin_status input) "NOT_WORKING").
    + eexists. split; [apply station_row_update_same; exact Hs|].
      repeat split.
    + destruct (String.eqb (rin_status input) "WORKING").
      * eexists. split; [apply station_row_update_same; exact Hs|].
        repeat split.
      * exists row. repeat split. exact Hs.
  - intros S Hne.
    destruct (String.eqb (rin_status input) "NOT_WORKING");
      [apply station_row_update_other; exact Hne|].
    destruct (String.eqb (rin_status input) "WORKING");
      [apply station_row_update_other; exact Hne | reflexivity].
  - unfold getReports. cbn [reports]. apply In_order_by_desc.
    apply filter_In. split; [apply in_or_app; right; left; reflexivity|].
    cbn [report_stationId]. apply Z.eqb_refl.
  - intros S _ Hne. unfold getReports. cbn [reports].
    rewrite filter_app. cbn [filter report_stationId].
    destruct (Z.eqb_spec (rin_stationId input) S); [congruence|].
    rewrite app_nil_r. reflexivity.
Qed.

(** ** Rejected statements in the middle of a request *)

(** X19. The end route is not atomic. If the session update is accepted
    but the counter update that follows is rejected, on a station whose
    counter is below its charger count, the request ends in the error,
    yet the session is stored as ended and the station table is the one
    before the call: the charger is not given back. *)
Theorem end_release_rejected F sessionId input user now db s st :
  validEndInput input = true ->
  session_by_id sessionId (chargingSessions db) = Some s ->
  userId s = None \/ userId s = user ->
  isActive s = Some true ->
  station_by_id (stationId s) (stations db) = Some st ->
  available_of st < total_of st ->
  updateSessionFails F = false ->
  updateAvailabilityFails F = true ->
  let r := chargingSessions_end F sessionId input user now db in
  outcome r = Thrown (DbError "update stations") /\
  session_by_id sessionId (chargingSessions (finalDB r))
  = Some (with_end now (duration_at now s) (in_batteryEndPercent input)
            (in_energyKwh input) s) /\
  stations (finalDB r) = stations db.
Proof.
  intros Hv Hs Hown Hact Hst Hlt HF HU r. subst r.
  rewrite (end_run F sessionId input user now db s Hv Hs
             (owner_check_passes s user Hown) (is_active_truthy s Hact) HF).
  cbv zeta. rewrite Hst. unfold release_charger.
  fold (available_of st). fold (total_of st).
  destruct (Z.ltb_spec (available_of st) (total_of st)); [|lia].
  unfold updateStationAvailability. rewrite HU.
  cbn [bind throw outcome finalDB fst snd set_sessions chargingSessions
         stations].
  split; [reflexivity|]. split; [|reflexivity].
  apply session_by_id_ended. exact Hs.
Qed.

Lemma end_release_rejected_witness :
  let r := chargingSessions_end (mkFaults false true false false) 1 end_input
             alice 152000 charging_db in
  outcome r = Thrown (DbError "update stations") /\
  session_by_id 1 (chargingSessions (finalDB r))
  = Some (with_end 152000 (duration_at 152000 alice_session) (Some 80)
            (Some (25 # 2)%Q) alice_session) /\
  stations (finalDB r) = stations charging_db.
Proof.
  apply (end_release_rejected (mkFaults false true false false) 1 end_input
           alice 152000 charging_db alice_session
           (mkStation 1 (Some 1) (Some 0) (Some 2000)));
    try reflexivity.
  right; reflexivity.
Defined.

(** X20. The rollback of the start route can itself fail. If the counter
    update and then the compensating delete are both rejected, the request
    ends in the delete's error, the new session stays in the table,
    active, and the station's counter is not decremented. *)
Theorem start_rollback_rejected F input user now db station :
  session_keys_ok db ->
  validStartInput input = true ->
  station_by_id (in_stationId input) (stations db) = Some station ->
  0 < available_of station ->
  insertSessionFails F = false ->
  updateAvailabilityFails F = true ->
  deleteSessionFails F = true ->
  let r := chargingSessions_start F input user now db in
  let row := new_session db (in_stationId input) (in_batteryStartPercent input)
               (in_userVehicleId input) user now in
  outcome r = Thrown (DbError "delete charging_sessions") /\
  session_by_id (session_id row) (chargingSessions (finalDB r)) = Some row /\
  isActive row = Some true /\
  stations (finalDB r) = stations db /\
  activeSessionCount (finalDB r) (in_stationId input)
  = activeSessionCount db (in_stationId input) + 1.
Proof.
  intros Hk Hv Hs Ha HI HU HD r row. subst r.
  rewrite (start_run F input user now db station Hv Hs Ha HI).
  cbv zeta. rewrite HU, HD. cbn [outcome finalDB fst snd]. fold row.
  split; [reflexivity|]. split; [|split; [reflexivity|split; [reflexivity|]]].
  - apply session_by_id_inserted; [exact Hk | reflexivity].
  - rewrite active_count_insert. unfold active_at.
    change (stationId row) with (in_stationId input).
    change (is_active row) with true. rewrite Z.eqb_refl. reflexivity.
Qed.

Lemma start_rollback_rejected_witness :
  let r := chargingSessions_start (mkFaults false true true false)
             (mkStartInput 1 None (Some 40)) alice 2000 one_charger_db in
  outcome r = Thrown (DbError "delete charging_sessions") /\
  session_by_id 1 (chargingSessions (finalDB r)) = Some alice_session /\
  isActive alice_session = Some true /\
  stations (finalDB r) = stations one_charger_db /\
  activeSessionCount (finalDB r) 1 = activeSessionCount one_charger_db 1 + 1.
Proof.
  apply (start_rollback_rejected (mkFaults false true true false)
           (mkStartInput 1 None (Some 40)) alice 2000 one_charger_db
           (mkStation 1 (Some 1) (Some 1) (Some 1000)));
    try reflexivity.
  split; constructor.
Defined.

Lemma update_availability_run id v now db st :
  station_by_id id (stations db) = Some st ->
  0 <= v <= or_else (chargerCount st) 1 ->
  stations_updateAvailability noFaults id v now db
  = (Ok (Respond 200 (JsonStation (Some (with_available v now st)))),
     set_stations (update_available id v now) db,
     [set_stations (update_available id v now) db]).
Proof.
  intros Hs Hv. unfold stations_updateAvailability.
  destruct (Z.ltb_spec v 0); [lia|].
  cbv beta iota delta [getStation select_by_key bind query message ret].
  rewrite Hs.
  destruct (Z.gtb_spec v (or_else (chargerCount st) 1)); [lia|].
  unfold updateStationAvailability.
  cbv beta iota delta [noFaults updateAvailabilityFails bind commit query].
  cbn [set_stations stations app].
  rewrite (station_by_id_update_same id v now (stations db) st Hs).
  reflexivity.
Qed.

(** X21. For a station whose charger count is stored as 0, the
    availability route compares the submitted value with 1, not with 0
    ([chargerCount || 1]): an update to 1 is accepted, and the station
    then shows one available charger out of none. *)
Theorem zero_charger_station_accepts_one id now db st :
  station_by_id id (stations db) = Some st ->
  chargerCount st = Some 0 ->
  let r := stations_updateAvailability noFaults id 1 now db in
  outcome r = Ok (Respond 200 (JsonStation (Some (with_available 1 now st)))) /\
  exists st',
    station_by_id id (stations (finalDB r)) = Some st' /\
    available_of st' = 1 /\ total_of st' = 0.
Proof.
  intros Hs Hc r. subst r.
  rewrite (update_availability_run id 1 now db st Hs)
    by (rewrite Hc; cbn; lia).
  cbn [outcome finalDB fst snd set_stations stations].
  split; [reflexivity|].
  exists (with_available 1 now st).
  split; [apply station_by_id_update_same; exact Hs|].
  unfold available_of, total_of.
  cbn [with_available availableChargers chargerCount nullish].
  rewrite Hc. split; reflexivity.
Qed.

Lemma zero_charger_station_accepts_one_witness :
  let db := finalDB (stations_create (mkInsertStation (Given 0) (Given 0))
                       1000 emptyDB) in
  let r := stations_updateAvailability noFaults 1 1 2000 db in
  outcome r
  = Ok (Respond 200
          (JsonStation
             (Some (with_available 1 2000
                      (mkStation 1 (Some 0) (Some 0) (Some 1000)))))) /\
  exists st',
    station_by_id 1 (stations (finalDB r)) = Some st' /\
    available_of st' = 1 /\ total_of st' = 0.
Proof.
  exact (zero_charger_station_accepts_one 1 2000
           (finalDB (stations_create (mkInsertStation (Given 0) (Given 0))
                       1000 emptyDB))
           (mkStation 1 (Some 0) (Some 0) (Some 1000)) eq_refl eq_refl).
Defined.

Lemma other_requests_keep_capacity_witness :
  within_capacity
    (finalDB (handle noFaults (StartSession (mkStartInput 1 None None) alice)
                2000 one_charger_db)) 1.
Proof.
  apply (other_requests_keep_capacity
           (StartSession (mkStartInput 1 None None) alice) 2000
           one_charger_db 1).
  - reflexivity.
  - intros s H. injection H as <-. discriminate.
  - intros s H. injection H as <-. vm_compute. split; discriminate.
Defined.

(** ** The shape of stored sessions *)

Lemma session_key_unique l sid s x :
  NoDup (map session_id l) ->
  session_by_id sid l = Some s ->
  In x l -> session_id x = sid -> x = s.
Proof.
  unfold session_by_id.
  induction l as [|h t IH]; simpl; [tauto|].
  intros Hnd Hfind Hx Hid. inversion Hnd as [|? ? Hnotin Hnd']; subst.
  destruct (Z.eqb_spec (session_id h) (session_id x)) as [E|E].
  - injection Hfind as <-. destruct Hx as [->|Hx]; [reflexivity|].
    exfalso. apply Hnotin. rewrite E. apply in_map. exact Hx.
  - destruct Hx as [->|Hx]; [congruence|]. apply IH; auto.
Qed.

Lemma session_by_id_In_table sid l s :
  session_by_id sid l = Some s -> In s l.
Proof.
  unfold session_by_id. intros H. apply find_some in H. tauto.
Qed.

Lemma handle_keeps_sessions_well_formed r now db :
  session_keys_ok db ->
  Forall session_well_formed (chargingSessions db) ->
  Forall session_well_formed
    (chargingSessions (finalDB (handle noFaults r now db))).
Proof.
  intros Hk Hwf.
  destruct (handle_sessions_cases noFaults r now db Hk)
    as [E|[[st0 [b0 [v0 [u0 E]]]]|[sid [s [b [e [Hs [Hact E]]]]]]]];
    rewrite E.
  - exact Hwf.
  - apply Forall_app. split; [exact Hwf|].
    repeat constructor. exists now. split; [reflexivity|].
    split; reflexivity.
  - unfold update_session. apply Forall_map.
    rewrite Forall_forall in Hwf |- *. intros x Hx.
    destruct (Z.eqb_spec (session_id x) sid) as [Hid|_]; [|apply Hwf; exact Hx].
    rewrite (session_key_unique _ sid s x (proj1 Hk) Hs Hx Hid).
    destruct (Hwf s (session_by_id_In_table sid _ s Hs)) as [t0 [Ht0 _]].
    exists t0. cbn [with_end startTime isActive endTime durationMinutes].
    split; [exact Ht0|]. exists now. split; [reflexivity|].
    unfold duration_at. rewrite Ht0. reflexivity.
Qed.

(** X22. In every database reachable from the empty one, each stored
    session has a start time; an active session has no end time and no
    duration; an ended session has an end time and its [durationMinutes]
    is the rounded number of minutes between its start and end times. *)
Theorem reachable_sessions_well_formed db :
  reachable db -> Forall session_well_formed (chargingSessions db).
Proof.
  induction 1 as [|db r now Hreach IH].
  - constructor.
  - apply handle_keeps_sessions_well_formed;
      [apply reachable_session_keys; exact Hreach | exact IH].
Qed.

Lemma reachable_sessions_well_formed_witness :
  Forall session_well_formed
    (chargingSessions
       (finalDB (chargingSessions_end noFaults 1 end_input alice 152000
                   charging_db))).
Proof.
  apply (reachable_sessions_well_formed
           (finalDB (handle noFaults (EndSession 1 end_input alice) 152000
                       charging_db))).
  apply reachable_step. apply reachable_run_requests. apply reachable_empty.
Defined.

(** ** Start requests that overlap *)

(** Run without interruption, the two parts are the start handler. *)
Lemma start_in_two_parts F input user now db :
  chargingSessions_start F input user now db
  = (r <- start_checks input ;;
     match r with
     | inl answer => ret answer
     | inr available => start_writes F input user now available
     end) db.
Proof.
  unfold chargingSessions_start, start_checks.
  destruct (validStartInput input); [|reflexivity].
  cbv beta iota delta [negb getStation select_by_key bind ret message].
  destruct (station_by_id (in_stationId input) (stations db)) as [st|].
  - cbv zeta.
    destruct (nullish (availableChargers st) 0 <=? 0); [reflexivity|].
    unfold start_writes, bind.
    destruct (startChargingSession F (in_stationId input)
                (in_batteryStartPercent input) (in_userVehicleId input)
                user now db) as [[[session|e] db1] w1]; reflexivity.
  - destruct (in_int4 (in_stationId input)); reflexivity.
Qed.

Lemma start_writes_run input user now a db :
  let row := new_session db (in_stationId input) (in_batteryStartPercent input)
               (in_userVehicleId input) user now in
  let db1 := insert_session row db in
  let db2 := set_stations (update_available (in_stationId input) (a - 1) now)
               db1 in
  start_writes noFaults input user now a db
  = (Ok (Respond 201 (JsonSession row)), db2, [db1; db2]).
Proof. reflexivity. Qed.

(** X26. Two start requests for the same station that overlap. Both
    handlers read the station, with [a > 0] chargers available, before
    either writes; then each inserts its session and writes [a - 1]. Both
    are answered 201, the station has two more active sessions and its
    counter has dropped by one only: the equality of the ledger, if it
    held before, is broken. *)
Theorem overlapping_starts_overbook input user1 user2 now1 now2 db station :
  validStartInput input = true ->
  station_by_id (in_stationId input) (stations db) = Some station ->
  0 < available_of station ->
  let S := in_stationId input in
  let a := available_of station in
  let w1 := start_writes noFaults input user1 now1 a db in
  let w2 := start_writes noFaults input user2 now2 a (finalDB w1) in
  start_checks input db = (Ok (inr a), db, []) /\
  (exists s1, outcome w1 = Ok (Respond 201 (JsonSession s1))) /\
  (exists s2, outcome w2 = Ok (Respond 201 (JsonSession s2))) /\
  (exists st',
     station_by_id S (stations (finalDB w2)) = Some st' /\
     available_of st' = a - 1 /\ total_of st' = total_of station) /\
  activeSessionCount (finalDB w2) S = activeSessionCount db S + 2 /\
  (balanced db S -> ~ balanced (finalDB w2) S).
Proof.
  intros Hv Hs Ha S a w1 w2.
  assert (Hc : start_checks input db = (Ok (inr a), db, [])).
  { unfold start_checks. rewrite Hv.
    cbv beta iota delta [negb getStation select_by_key bind ret].
    rewrite Hs. cbv zeta. fold (available_of station).
    destruct (Z.leb_spec (available_of station) 0); [lia | reflexivity]. }
  subst w2 w1. rewrite !start_writes_run. cbv zeta.
  cbn [outcome finalDB fst snd].
  set (row1 := new_session db (in_stationId input)
                 (in_batteryStartPercent input) (in_userVehicleId input)
                 user1 now1).
  set (db1 := set_stations (update_available (in_stationId input) (a - 1) now1)
                (insert_session row1 db)).
  set (row2 := new_session db1 (in_stationId input)
                 (in_batteryStartPercent input) (in_userVehicleId input)
                 user2 now2).
  fold S. fold S in db1, row1, row2.
  assert (Hst1 : station_by_id S (stations db1)
                 = Some (with_available (a - 1) now1 station))
    by (apply station_by_id_update_same; exact Hs).
  assert (Hst2 : station_by_id S
                   (stations (set_stations (update_available S (a - 1) now2)
                                (insert_session row2 db1)))
                 = Some (with_available (a - 1) now2
                           (with_available (a - 1) now1 station)))
    by (apply station_by_id_update_same; exact Hst1).
  assert (Hcount : activeSessionCount
                     (set_stations (update_available S (a - 1) now2)
                        (insert_session row2 db1)) S
                   = activeSessionCount db S + 2).
  { change (activeSessionCount
              (set_stations (update_available S (a - 1) now2)
                 (insert_session row2 db1)) S)
      with (activeSessionCount (insert_session row2 db1) S).
    rewrite active_count_insert.
    change (activeSessionCount db1 S)
      with (activeSessionCount (insert_session row1 db) S).
    rewrite active_count_insert.
    unfold active_at. change (stationId row1) with S.
    change (stationId row2) with S.
    change (is_active row1) with true. change (is_active row2) with true.
    rewrite Z.eqb_refl. cbn [andb]. lia. }
  split; [exact Hc|].
  split; [eexists; reflexivity|]. split; [eexists; reflexivity|].
  split; [|split].
  - eexists. split; [exact Hst2|]. split; reflexivity.
  - exact Hcount.
  - intros Hbal Hbal2.
    specialize (Hbal station Hs). specialize (Hbal2 _ Hst2).
    rewrite Hcount in Hbal2.
    unfold available_of, total_of in *.
    cbn [with_available availableChargers chargerCount nullish] in Hbal2.
    subst a. unfold available_of in Hbal2. lia.
Qed.

Lemma overlapping_starts_overbook_witness :
  let input := mkStartInput 1 None None in
  let w1 := start_writes noFaults input alice 2000 1 one_charger_db in
  let w2 := start_writes noFaults input bob 2001 1 (finalDB w1) in
  start_checks input one_charger_db = (Ok (inr 1), one_charger_db, []) /\
  (exists s1, outcome w1 = Ok (Respond 201 (JsonSession s1))) /\
  (exists s2, outcome w2 = Ok (Respond 201 (JsonSession s2))) /\
  (exists st',
     station_by_id 1 (stations (finalDB w2)) = Some st' /\
     available_of st' = 1 - 1 /\ total_of st' = 1) /\
  activeSessionCount (finalDB w2) 1 = activeSessionCount one_charger_db 1 + 2 /\
  (balanced one_charger_db 1 -> ~ balanced (finalDB w2) 1).
Proof.
  exact (overlapping_starts_overbook (mkStartInput 1 None None) alice bob
           2000 2001 one_charger_db
           (mkStation 1 (Some 1) (Some 1) (Some 1000))
           eq_refl eq_refl eq_refl).
Defined.

(** ** [buildUrl] *)

Lemma strip_prefix_spec pat s r :
  strip_prefix pat s = Some r <-> s = (pat ++ r)%string.
Proof.
  revert s. induction pat as [|c p IH]; intros s; simpl.
  - split; congruence.
  - destruct s as [|d t]; [split; discriminate|].
    destruct (Ascii.eqb_spec c d) as [->|Hne].
    + rewrite IH. split; congruence.
    + split; [discriminate | congruence].
Qed.

Lemma split_first_spec pat s a b :
  split_first pat s = Some (a, b) -> s = (a ++ pat ++ b)%string.
Proof.
  revert a b. induction s as [|c t IH]; intros a b; simpl.
  - destruct (strip_prefix pat EmptyString) as [rest|] eqn:E; [|discriminate].
    intros [= <- <-]. apply strip_prefix_spec in E. exact E.
  - destruct (strip_prefix pat (String c t)) as [rest|] eqn:E.
    + intros [= <- <-]. apply strip_prefix_spec in E. exact E.
    + destruct (split_first pat t) as [[a0 b0]|]; [|discriminate].
      intros [= <- <-]. simpl. f_equal. apply IH. reflexivity.
Qed.

Lemma split_first_complete pat a b :
  exists a0 b0,
    split_first pat (a ++ pat ++ b)%string = Some (a0, b0) /\
    (String.length a0 <= String.length a)%nat.
Proof.
  induction a as [|c a' IH].
  - assert (E : strip_prefix pat (pat ++ b)%string = Some b)
      by (apply strip_prefix_spec; reflexivity).
    exists EmptyString, b. split; [|simpl; lia].
    cbn [append]. destruct (pat ++ b)%string; simpl; rewrite E; reflexivity.
  - destruct IH as [a0 [b0 [E Hlen]]].
    cbn [append split_first].
    destruct (strip_prefix pat (String c (a' ++ pat ++ b))) as [rest|].
    + exists EmptyString, rest. split; [reflexivity | simpl; lia].
    + rewrite E. exists (String c a0), b0. split; [reflexivity | simpl; lia].
Qed.

Lemma append_inj_length a a' r r' :
  String.length a = String.length a' ->
  (a ++ r)%string = (a' ++ r')%string -> a = a' /\ r = r'.
Proof.
  revert a'. induction a as [|c a IH]; intros [|c' a']; simpl;
    try discriminate.
  - auto.
  - intros Hlen E. injection Hlen as Hlen. injection E as -> E.
    destruct (IH a' Hlen E) as [-> ->]. auto.
Qed.

Lemma append_inv_head a r r' :
  (a ++ r)%string = (a ++ r')%string -> r = r'.
Proof.
  induction a as [|c a IH]; simpl; [auto|]. intros [= E]. auto.
Qed.

(** The split at an occurrence known to be the leftmost. *)
Lemma split_first_leftmost pat a b :
  (forall a' b', (a ++ pat ++ b)%string = (a' ++ pat ++ b')%string ->
                 (String.length a <= String.length a')%nat) ->
  split_first pat (a ++ pat ++ b)%string = Some (a, b).
Proof.
  intros Hleft.
  destruct (split_first_complete pat a b) as [a0 [b0 [E Hlen]]].
  rewrite E. pose proof (split_first_spec _ _ _ _ E) as Hs.
  pose proof (Hleft a0 b0 Hs) as Hlen'.
  destruct (append_inj_length a a0 _ _ ltac:(lia) Hs) as [<- Hr].
  apply append_inv_head in Hr. subst b0. reflexivity.
Qed.

Lemma substitute_plain matched before after repl :
  ~ In "$"%char (list_ascii_of_string repl) ->
  substitute matched before after repl = repl.
Proof.
  induction repl as [|c rest IH]; simpl; [reflexivity|].
  intros H. destruct (Ascii.eqb_spec c "$") as [->|_]; [tauto|].
  f_equal. apply IH. tauto.
Qed.

Lemma digits_no_dollar d :
  ~ In "$"%char
      (list_ascii_of_string (DecimalString.NilEmpty.string_of_uint d)).
Proof.
  induction d; simpl; [tauto|..]; intros [H|H]; try discriminate; auto.
Qed.

Lemma decimal_no_dollar n :
  ~ In "$"%char (list_ascii_of_string (String_of (PNum n))).
Proof.
  unfold String_of, DecimalString.NilZero.string_of_int,
    DecimalString.NilZero.string_of_uint.
  destruct (Z.to_int n) as [d|d]; destruct d; simpl;
    intros H; repeat (destruct H as [H|H]; [discriminate|]);
    try contradiction; eapply digits_no_dollar; exact H.
Qed.

(** X24. [buildUrl] returns the path itself when no parameter object is
    given, and also when none of the given keys occurs in the path behind
    a colon. *)
Theorem buildUrl_without_placeholder path entries :
  (forall k v a b, In (k, v) entries ->
                   path <> (a ++ String ":" k ++ b)%string) ->
  buildUrl path None = path /\ buildUrl path (Some entries) = path.
Proof.
  intros H. split; [reflexivity|]. unfold buildUrl.
  induction entries as [|[k v] rest IH]; cbn [fold_left fst snd];
    [reflexivity|].
  destruct (includes (String ":" k) path) eqn:Hinc.
  - exfalso. unfold includes in Hinc.
    destruct (split_first (String ":" k) path) as [[a b]|] eqn:E;
      [|discriminate].
    apply (H k v a b); [left; reflexivity|].
    apply split_first_spec. exact E.
  - apply IH. intros k' v' a b Hin. apply (H k' v' a b). right. exact Hin.
Qed.

(** X25. For a path in which [":" ++ key] occurs, with [before] the text
    in front of its leftmost occurrence and [after] the text behind it,
    [buildUrl] with this one key gives [before ++ value ++ after]: for an
    integer of magnitude below [2^53] the value is its decimal form, for a
    string without a dollar sign the string itself. Only that first
    occurrence is replaced. *)
Theorem buildUrl_replaces_first key before after :
  let path := (before ++ String ":" key ++ after)%string in
  (forall a' b', path = (a' ++ String ":" key ++ b')%string ->
                 (String.length before <= String.length a')%nat) ->
  (forall n, Z.abs n < 2 ^ 53 ->
             buildUrl path (Some [(key, PNum n)])
             = (before ++ DecimalString.NilZero.string_of_int (Z.to_int n)
                  ++ after)%string) /\
  (forall s, ~ In "$"%char (list_ascii_of_string s) ->
             buildUrl path (Some [(key, PStr s)])
             = (before ++ s ++ after)%string).
Proof.
  intros path Hleft.
  assert (E : split_first (String ":" key) path = Some (before, after))
    by (apply split_first_leftmost; exact Hleft).
  assert (Hv : forall v, ~ In "$"%char (list_ascii_of_string (String_of v)) ->
             buildUrl path (Some [(key, v)])
             = (before ++ String_of v ++ after)%string).
  { intros v Hplain. unfold buildUrl. cbn [fold_left fst snd].
    unfold includes, replace_first. rewrite E.
    rewrite substitute_plain by exact Hplain. reflexivity. }
  split.
  - intros n _. apply (Hv (PNum n)). apply decimal_no_dollar.
  - intros s Hs. apply (Hv (PStr s)). exact Hs.
Qed.

Lemma buildUrl_without_placeholder_witness :
  buildUrl "/api/vehicles" None = "/api/vehicles"%string /\
  buildUrl "/api/vehicles" (Some [("id"%string, PNum 5)])
  = "/api/vehicles"%string.
Proof.
  apply (buildUrl_without_placeholder "/api/vehicles"
           [("id"%string, PNum 5)]).
  intros k v a b [H|[]]. injection H as <- <-.
  intros E.
  assert (Hinc : includes ":id" "/api/vehicles" = true).
  { unfold includes.
    destruct (split_first_complete ":id" a b) as [a0 [b0 [E0 _]]].
    rewrite E. cbn [append] in E0 |- *. rewrite E0. reflexivity. }
  vm_compute in Hinc. discriminate.
Defined.

Lemma buildUrl_replaces_first_witness :
  buildUrl "/api/stations/:id/reports" (Some [("id"%string, PNum 42)])
  = "/api/stations/42/reports"%string /\
  (forall s, ~ In "$"%char (list_ascii_of_string s) ->
             buildUrl "/api/stations/:id/reports"
               (Some [("id"%string, PStr s)])
             = ("/api/stations/" ++ s ++ "/reports")%string).
Proof.
  assert (H : (forall n, Z.abs n < 2 ^ 53 ->
                 buildUrl "/api/stations/:id/reports"
                   (Some [("id"%string, PNum n)])
                 = ("/api/stations/"
                    ++ DecimalString.NilZero.string_of_int (Z.to_int n)
                    ++ "/reports")%string)
              /\
              (forall s, ~ In "$"%char (list_ascii_of_string s) ->
                 buildUrl "/api/stations/:id/reports"
                   (Some [("id"%string, PStr s)])
                 = ("/api/stations/" ++ s ++ "/reports")%string));
    [|split; [exact (proj1 H 42 eq_refl) | exact (proj2 H)]].
  apply (buildUrl_replaces_first "id" "/api/stations/" "/reports").
  intros a' b' E.
  assert (H : split_first ":id" "/api/stations/:id/reports"
              = Some ("/api/stations/"%string, "/reports"%string))
    by reflexivity.
  destruct (split_first_complete ":id" a' b') as [a0 [b0 [E0 Hlen]]].
  cbn [append] in E, E0. rewrite <- E in E0. cbn [append] in E0.
  rewrite H in E0. injection E0 as <- <-. exact Hlen.
Defined.
